(** * The BO3 ingestion pipeline: parser, mutation and storage service

    A shallow embedding of

    - [data-ingestion/bo3-api/parser.py] and [models.py]: payloads of the
      upstream API turned into typed records;
    - [data-storage/mutations/bo3_mutations.py]: typed records turned into
      the dictionaries the storage service binds to its SQL statements;
    - [data-storage/storage_service.py]: the get-or-create and upsert logic
      over the tables [teams], [tournaments], [matches], [ai_predictions]
      and [betting_odds].

    Python values are a small universe [pyval]; floats are binary64
    (primitive floats), integers are [Z], dictionaries are association
    lists in insertion order.  The database is a record of tables, each a
    list of rows; a session carries the durable state, its own uncommitted
    view and a fault plan, so that commit, rollback and a failing statement
    can be followed through the code. *)

From Stdlib Require Import ZArith List String Ascii Bool Lia Floats.
Import ListNotations.

Set Warnings "-register-all".
Local Open Scope string_scope.
Local Open Scope list_scope.
Local Open Scope Z_scope.

(* ------------------------------------------------------------------ *)
(** ** Python values *)

(** A [datetime] object, represented by the text its [isoformat()] prints. *)
Inductive datetime := Datetime (iso : string).

Definition isoformat (t : datetime) : string :=
  match t with Datetime iso => iso end.

(** Primary keys are UUIDs generated by the database; the embedding numbers
    them. *)
Definition uuid := nat.

Inductive pyval :=
| PNone
| PBool (b : bool)
| PInt (z : Z)
| PFloat (f : float)
| PStr (s : string)
| PList (l : list pyval)
| PDict (d : list (string * pyval))
| PDatetime (t : datetime)
| PUuid (u : uuid).

Definition dict := list (string * pyval).

(** Python truth value testing ([if x], [not x]). *)
Definition truthy (v : pyval) : bool :=
  match v with
  | PNone => false
  | PBool b => b
  | PInt z => negb (z =? 0)
  | PFloat f => negb (PrimFloat.eqb f 0%float)
  | PStr s => match s with EmptyString => false | String _ _ => true end
  | PList l => match l with [] => false | _ :: _ => true end
  | PDict d => match d with [] => false | _ :: _ => true end
  | PDatetime _ => true
  | PUuid _ => true
  end.

Definition isinstance_dict (v : pyval) : bool :=
  match v with PDict _ => true | _ => false end.

(** Exceptions the embedded code can raise.  [DBError] stands for any error
    raised by the persistence layer on a statement or a commit. *)
Inductive exn :=
| ValueError (msg : string)
| TypeError
| KeyError (key : string)
| OverflowError
| MultipleResultsFound
| DBError.

Inductive result (A : Type) :=
| Ok (a : A)
| Raise (e : exn).
Arguments Ok {A} a.
Arguments Raise {A} e.

Definition rbind {A B} (r : result A) (k : A -> result B) : result B :=
  match r with
  | Ok a => k a
  | Raise e => Raise e
  end.

Declare Scope result_scope.
Delimit Scope result_scope with result.
Notation "x <- r ;; k" := (rbind r (fun x => k))
  (at level 61, r at next level, right associativity) : result_scope.

(** *** Dictionaries *)

Fixpoint dict_lookup (k : string) (d : dict) : option pyval :=
  match d with
  | [] => None
  | (k', v) :: d' => if String.eqb k k' then Some v else dict_lookup k d'
  end.

(** [d.get(k)] and [d.get(k, default)] *)
Definition get_or (d : dict) (k : string) (default : pyval) : pyval :=
  match dict_lookup k d with
  | Some v => v
  | None => default
  end.

Definition get (d : dict) (k : string) : pyval := get_or d k PNone.

(** [d[k]] *)
Definition getitem (d : dict) (k : string) : result pyval :=
  match dict_lookup k d with
  | Some v => Ok v
  | None => Raise (KeyError k)
  end.

(** [d[k] = v]: an existing key keeps its position. *)
Fixpoint setitem (k : string) (v : pyval) (d : dict) : dict :=
  match d with
  | [] => [(k, v)]
  | (k', v') :: d' =>
      if String.eqb k k' then (k, v) :: d' else (k', v') :: setitem k v d'
  end.

Definition keys (d : dict) : list string := map fst d.

(** *** Strings *)

Fixpoint endswith_Z (s : string) : bool :=
  match s with
  | EmptyString => false
  | String c EmptyString => Ascii.eqb c "Z"%char
  | String _ s' => endswith_Z s'
  end.

(** [s[:-1]] *)
Fixpoint drop_last (s : string) : string :=
  match s with
  | EmptyString => EmptyString
  | String _ EmptyString => EmptyString
  | String c s' => String c (drop_last s')
  end.

(** [s.replace('Z', '+00:00')] *)
Fixpoint replace_Z (s : string) : string :=
  match s with
  | EmptyString => EmptyString
  | String c s' =>
      if Ascii.eqb c "Z"%char then ("+00:00" ++ replace_Z s')%string
      else String c (replace_Z s')
  end.

(** *** Numbers *)

(** [float(n)] for an integer [n]: the nearest binary64 value, ties to even;
    [OverflowError] beyond the finite range. *)
Definition float_of_int (z : Z) : result float :=
  match binary_normalize 53 1024 z 0 false with
  | S754_infinity _ => Raise OverflowError
  | sf => Ok (SF2Prim sf)
  end.

(** [int(x)] for a float [x]: truncation towards zero. *)
Definition int_of_float (f : float) : result Z :=
  match Prim2SF f with
  | S754_zero _ => Ok 0
  | S754_infinity _ => Raise OverflowError
  | S754_nan => Raise (ValueError "cannot convert float NaN to integer")
  | S754_finite s m e =>
      let a := if 0 <=? e then Z.shiftl (Z.pos m) e
               else Z.shiftr (Z.pos m) (- e) in
      Ok (if s then - a else a)
  end.

(** [list(x)] *)
Definition py_list (v : pyval) : result (list pyval) :=
  match v with
  | PList l => Ok l
  | PDict d => Ok (map PStr (keys d))
  | PStr s => Ok (map (fun c => PStr (String c EmptyString)) (list_ascii_of_string s))
  | _ => Raise TypeError
  end.

(* ------------------------------------------------------------------ *)
(** ** Typed models ([models.py])

    A dataclass does not check its annotations: a field the parser fills
    with [payload.get(...)] holds whatever value the payload has there, so
    such fields are [pyval]; fields the parser coerces have the coerced
    type. *)

Module BO3Team.
Record t := {
  id : Z;
  name : string;
  slug : pyval;
  country_code : pyval;
  logo_url : pyval
}.
End BO3Team.

Module BO3Tournament.
Record t := {
  id : Z;
  name : string;
  slug : pyval;
  tier : pyval;
  tier_rank : pyval;
  prize : pyval;
  discipline_id : pyval;
  status : pyval;
  start_date : option datetime;
  end_date : option datetime
}.
End BO3Tournament.

Module BO3PredictionScoresData.
Record t := {
  predicted_score : float;
  proximity_factors : dict;
  closest_valid_score : list pyval;
  overall_proximity_factor : float;
  neighbor_proximity_factor : float
}.
End BO3PredictionScoresData.

Module BO3AIPrediction.
Record t := {
  id : Z;
  match_id : Z;
  prediction_team1_score : Z;
  prediction_team2_score : Z;
  prediction_winner_team_id : Z;
  prediction_scores_data : BO3PredictionScoresData.t
}.
End BO3AIPrediction.

Module BO3BettingTeam.
Record t := {
  name : string;
  coeff : float;
  active : bool;
  team_id : Z;
  max_coeff : float;
  aggrement_score : float
}.
End BO3BettingTeam.

Module BO3BettingOdds.
Record t := {
  provider : string;
  team_1 : BO3BettingTeam.t;
  team_2 : BO3BettingTeam.t;
  path : pyval;
  markets_count : pyval;
  additional_markets : pyval
}.
End BO3BettingOdds.

Module BO3Match.
Record t := {
  id : Z;
  slug : pyval;
  team1_id : pyval;
  team2_id : pyval;
  status : string;
  start_date : option datetime;
  bo_type : pyval;
  tier : pyval;
  team1_score : pyval;
  team2_score : pyval;
  winner_team_id : pyval;
  loser_team_id : pyval;
  tournament_id : pyval;
  team1 : option BO3Team.t;
  team2 : option BO3Team.t;
  tournament : option BO3Tournament.t;
  ai_predictions : option BO3AIPrediction.t;
  bet_updates : option BO3BettingOdds.t;
  raw_data : option dict
}.
End BO3Match.

(* ------------------------------------------------------------------ *)
(** ** A running example

    The end-to-end example of the specification: the match 103084 between
    the teams 736 and 7631 in the tournament 3578. *)

Definition example_team1 : BO3Team.t :=
  {| BO3Team.id := 736; BO3Team.name := "Alpha"; BO3Team.slug := PStr "alpha";
     BO3Team.country_code := PStr "SE"; BO3Team.logo_url := PNone |}.

Definition example_team2 : BO3Team.t :=
  {| BO3Team.id := 7631; BO3Team.name := "Bravo"; BO3Team.slug := PStr "bravo";
     BO3Team.country_code := PNone; BO3Team.logo_url := PNone |}.

Definition example_tournament : BO3Tournament.t :=
  {| BO3Tournament.id := 3578; BO3Tournament.name := "Cup";
     BO3Tournament.slug := PStr "cup"; BO3Tournament.tier := PStr "a";
     BO3Tournament.tier_rank := PInt 1; BO3Tournament.prize := PNone;
     BO3Tournament.discipline_id := PInt 1; BO3Tournament.status := PNone;
     BO3Tournament.start_date := Some (Datetime "2025-01-27T10:00:00+00:00");
     BO3Tournament.end_date := None |}.

Definition example_match : BO3Match.t :=
  {| BO3Match.id := 103084; BO3Match.slug := PStr "alpha-vs-bravo";
     BO3Match.team1_id := PInt 736; BO3Match.team2_id := PInt 7631;
     BO3Match.status := "upcoming";
     BO3Match.start_date := Some (Datetime "2025-01-27T18:00:00+00:00");
     BO3Match.bo_type := PInt 3; BO3Match.tier := PStr "a";
     BO3Match.team1_score := PNone; BO3Match.team2_score := PNone;
     BO3Match.winner_team_id := PNone; BO3Match.loser_team_id := PNone;
     BO3Match.tournament_id := PInt 3578;
     BO3Match.team1 := Some example_team1;
     BO3Match.team2 := Some example_team2;
     BO3Match.tournament := Some example_tournament;
     BO3Match.ai_predictions := None; BO3Match.bet_updates := None;
     BO3Match.raw_data := Some [("id", PInt 103084)] |}.

Definition example_team1_renamed : BO3Team.t :=
  {| BO3Team.id := 736; BO3Team.name := "Alpha Esports";
     BO3Team.slug := PStr "alpha-esports";
     BO3Team.country_code := PStr "SE"; BO3Team.logo_url := PNone |}.

Definition example_prediction : BO3AIPrediction.t :=
  {| BO3AIPrediction.id := 55; BO3AIPrediction.match_id := 103084;
     BO3AIPrediction.prediction_team1_score := 2;
     BO3AIPrediction.prediction_team2_score := 1;
     BO3AIPrediction.prediction_winner_team_id := 736;
     BO3AIPrediction.prediction_scores_data :=
       {| BO3PredictionScoresData.predicted_score := 0.5%float;
          BO3PredictionScoresData.proximity_factors := [("(2, 1)", PFloat 0.5%float)];
          BO3PredictionScoresData.closest_valid_score := [PInt 2; PInt 1];
          BO3PredictionScoresData.overall_proximity_factor := 0.25%float;
          BO3PredictionScoresData.neighbor_proximity_factor := 0.125%float |} |}.

Definition example_prediction_later : BO3AIPrediction.t :=
  {| BO3AIPrediction.id := 56; BO3AIPrediction.match_id := 103084;
     BO3AIPrediction.prediction_team1_score := 0;
     BO3AIPrediction.prediction_team2_score := 2;
     BO3AIPrediction.prediction_winner_team_id := 7631;
     BO3AIPrediction.prediction_scores_data :=
       BO3AIPrediction.prediction_scores_data example_prediction |}.

Definition example_betting_team (name : string) (coeff : float)
  : BO3BettingTeam.t :=
  {| BO3BettingTeam.name := name; BO3BettingTeam.coeff := coeff;
     BO3BettingTeam.active := true; BO3BettingTeam.team_id := 0;
     BO3BettingTeam.max_coeff := coeff;
     BO3BettingTeam.aggrement_score := 0%float |}.

Definition example_odds (provider : string) (c1 c2 : float)
  : BO3BettingOdds.t :=
  {| BO3BettingOdds.provider := provider;
     BO3BettingOdds.team_1 := example_betting_team "Alpha" c1;
     BO3BettingOdds.team_2 := example_betting_team "Bravo" c2;
     BO3BettingOdds.path := PNone;
     BO3BettingOdds.markets_count := PInt 12;
     BO3BettingOdds.additional_markets := PNone |}.

Definition example_now1 : datetime := Datetime "2025-01-27T12:00:00".
Definition example_now2 : datetime := Datetime "2025-01-27T13:00:00".

(** Payloads of the upstream API for the parser. *)
Definition example_prediction_payload : pyval :=
  PDict [ ("id", PInt 55); ("match_id", PInt 103084);
          ("prediction_scores_data",
            PDict [("closest_valid_score", PList [PInt 2; PInt 1])]) ].

Definition example_odds_payload : pyval :=
  PDict [ ("provider", PStr "bookmaker-a");
          ("team_1", PDict [("name", PStr "Alpha"); ("coeff", PFloat 2%float)]);
          ("team_2", PDict [("name", PStr "Bravo")]) ].

Definition example_team_payload : pyval :=
  PDict [("id", PInt 736); ("name", PStr "Alpha")].

Definition example_tournament_payload : pyval :=
  PDict [("id", PInt 3578); ("name", PStr "Cup")].

Definition example_match_payload : dict :=
  [("id", PInt 103084); ("team1", example_team_payload)].

(** Instances of Python's text conversions for the examples: they reject
    every text.  No example reaches them. *)
Definition no_datetime (s : string) : option datetime := None.
Definition no_int (s : string) : option Z := None.
Definition no_float (s : string) : option float := None.
Definition no_repr (v : pyval) : string := "".
Definition no_pairs (l : list pyval) : result dict := Raise TypeError.

(* ------------------------------------------------------------------ *)
(** ** The parser ([parser.py]) *)

Section Pipeline.

Set Default Proof Using "Type".

(** The text grammars of Python's own conversions are not part of this
    repository; the development holds for any of them.  [None] is the
    conversion's [ValueError]. *)
Variable fromisoformat : string -> option datetime.
Variable int_of_str : string -> option Z.
Variable float_of_str : string -> option float.
(** [str(x)] of a value that is not already a string. *)
Variable repr : pyval -> string.
(** [dict(x)] of a list, which has to be one of key and value pairs. *)
Variable dict_of_pairs : list pyval -> result dict.

(** [int(x)] *)
Definition py_int (v : pyval) : result Z :=
  match v with
  | PInt z => Ok z
  | PBool b => Ok (if b then 1 else 0)
  | PFloat f => int_of_float f
  | PStr s =>
      match int_of_str s with
      | Some z => Ok z
      | None => Raise (ValueError "invalid literal for int()")
      end
  | PUuid u => Ok (Z.of_nat u)
  | _ => Raise TypeError
  end.

(** [float(x)] *)
Definition py_float (v : pyval) : result float :=
  match v with
  | PFloat f => Ok f
  | PInt z => float_of_int z
  | PBool b => Ok (if b then 1%float else 0%float)
  | PStr s =>
      match float_of_str s with
      | Some f => Ok f
      | None => Raise (ValueError "could not convert string to float")
      end
  | _ => Raise TypeError
  end.

(** [str(x)] *)
Definition py_str (v : pyval) : string :=
  match v with
  | PStr s => s
  | _ => repr v
  end.

(** [dict(x)] *)
Definition py_dict (v : pyval) : result dict :=
  match v with
  | PDict d => Ok d
  | PList l => dict_of_pairs l
  | PStr EmptyString => Ok []
  | PStr _ => Raise (ValueError "dictionary update sequence")
  | _ => Raise TypeError
  end.

(** The entries of a value known to be a dict. *)
Definition entries (v : pyval) : dict :=
  match v with
  | PDict d => d
  | _ => []
  end.

(** A falsy argument gives [None]; a value without [endswith] raises
    [AttributeError] and a text [fromisoformat] rejects raises [ValueError],
    both caught and turned into [None]. *)
Definition parse_datetime (date_str : pyval) : option datetime :=
  if negb (truthy date_str) then None
  else
    match date_str with
    | PStr s =>
        let s := if endswith_Z s then (drop_last s ++ "+00:00")%string else s in
        fromisoformat (replace_Z s)
    | _ => None
    end.

Definition parse_team (team_data : pyval) : result (option BO3Team.t) :=
  if negb (truthy team_data) || negb (isinstance_dict team_data) then Ok None
  else
    let d := entries team_data in
    let team_id := get d "id" in
    let name := get d "name" in
    if negb (truthy team_id) || negb (truthy name) then Ok None
    else
      (id <- py_int team_id ;;
       Ok (Some {| BO3Team.id := id;
                   BO3Team.name := py_str name;
                   BO3Team.slug := get d "slug";
                   BO3Team.country_code := get d "country_code";
                   BO3Team.logo_url := get d "logo_url" |}))%result.

Definition parse_tournament (tournament_data : pyval)
  : result (option BO3Tournament.t) :=
  if negb (truthy tournament_data) || negb (isinstance_dict tournament_data)
  then Ok None
  else
    let d := entries tournament_data in
    let tournament_id := get d "id" in
    let name := get d "name" in
    if negb (truthy tournament_id) || negb (truthy name) then Ok None
    else
      (id <- py_int tournament_id ;;
       Ok (Some {| BO3Tournament.id := id;
                   BO3Tournament.name := py_str name;
                   BO3Tournament.slug := get d "slug";
                   BO3Tournament.tier := get d "tier";
                   BO3Tournament.tier_rank := get d "tier_rank";
                   BO3Tournament.prize := get d "prize";
                   BO3Tournament.discipline_id := get d "discipline_id";
                   BO3Tournament.status := get d "status";
                   BO3Tournament.start_date := parse_datetime (get d "start_date");
                   BO3Tournament.end_date := parse_datetime (get d "end_date") |}))%result.

Definition parse_prediction_scores_data (scores_data : pyval)
  : result (option BO3PredictionScoresData.t) :=
  if negb (truthy scores_data) || negb (isinstance_dict scores_data) then Ok None
  else
    let d := entries scores_data in
    (predicted_score <- py_float (get_or d "predicted_score" (PFloat 0%float)) ;;
     proximity_factors <- py_dict (get_or d "proximity_factors" (PDict [])) ;;
     closest_valid_score <- py_list (get_or d "closest_valid_score" (PList [])) ;;
     overall <- py_float (get_or d "overall_proximity_factor" (PFloat 0%float)) ;;
     neighbor <- py_float (get_or d "neighbor_proximity_factor" (PFloat 0%float)) ;;
     Ok (Some {| BO3PredictionScoresData.predicted_score := predicted_score;
                 BO3PredictionScoresData.proximity_factors := proximity_factors;
                 BO3PredictionScoresData.closest_valid_score := closest_valid_score;
                 BO3PredictionScoresData.overall_proximity_factor := overall;
                 BO3PredictionScoresData.neighbor_proximity_factor := neighbor |}))%result.

Definition parse_ai_prediction (prediction_data : pyval)
  : result (option BO3AIPrediction.t) :=
  if negb (truthy prediction_data) || negb (isinstance_dict prediction_data)
  then Ok None
  else
    let d := entries prediction_data in
    let prediction_id := get d "id" in
    let match_id := get d "match_id" in
    if negb (truthy prediction_id) || negb (truthy match_id) then Ok None
    else
      (scores_data <- parse_prediction_scores_data (get d "prediction_scores_data") ;;
       match scores_data with
       | None => Ok None
       | Some scores =>
           id <- py_int prediction_id ;;
           mid <- py_int match_id ;;
           s1 <- py_int (get_or d "prediction_team1_score" (PInt 0)) ;;
           s2 <- py_int (get_or d "prediction_team2_score" (PInt 0)) ;;
           w <- py_int (get_or d "prediction_winner_team_id" (PInt 0)) ;;
           Ok (Some {| BO3AIPrediction.id := id;
                       BO3AIPrediction.match_id := mid;
                       BO3AIPrediction.prediction_team1_score := s1;
                       BO3AIPrediction.prediction_team2_score := s2;
                       BO3AIPrediction.prediction_winner_team_id := w;
                       BO3AIPrediction.prediction_scores_data := scores |})
       end)%result.

Definition parse_betting_team (team_data : pyval)
  : result (option BO3BettingTeam.t) :=
  if negb (truthy team_data) || negb (isinstance_dict team_data) then Ok None
  else
    let d := entries team_data in
    (coeff <- py_float (get_or d "coeff" (PFloat 0%float)) ;;
     team_id <- py_int (get_or d "team_id" (PInt 0)) ;;
     max_coeff <- py_float (get_or d "max_coeff" (PFloat 0%float)) ;;
     aggrement_score <- py_float (get_or d "aggrement_score" (PFloat 0%float)) ;;
     Ok (Some {| BO3BettingTeam.name := py_str (get_or d "name" (PStr ""));
                 BO3BettingTeam.coeff := coeff;
                 BO3BettingTeam.active := truthy (get_or d "active" (PBool false));
                 BO3BettingTeam.team_id := team_id;
                 BO3BettingTeam.max_coeff := max_coeff;
                 BO3BettingTeam.aggrement_score := aggrement_score |}))%result.

Definition parse_betting_odds (odds_data : pyval)
  : result (option BO3BettingOdds.t) :=
  if negb (truthy odds_data) || negb (isinstance_dict odds_data) then Ok None
  else
    let d := entries odds_data in
    let provider := get d "provider" in
    let team_1_data := get d "team_1" in
    let team_2_data := get d "team_2" in
    if negb (truthy provider) || negb (truthy team_1_data)
       || negb (truthy team_2_data)
    then Ok None
    else
      (team_1 <- parse_betting_team team_1_data ;;
       team_2 <- parse_betting_team team_2_data ;;
       match team_1, team_2 with
       | Some t1, Some t2 =>
           Ok (Some {| BO3BettingOdds.provider := py_str provider;
                       BO3BettingOdds.team_1 := t1;
                       BO3BettingOdds.team_2 := t2;
                       BO3BettingOdds.path := get d "path";
                       BO3BettingOdds.markets_count := get d "markets_count";
                       BO3BettingOdds.additional_markets := get d "additional_markets" |})
       | _, _ => Ok None
       end)%result.

Definition parse_match (match_data : dict) : result BO3Match.t :=
  let match_id := get match_data "id" in
  if negb (truthy match_id)
  then Raise (ValueError "Match data must include 'id' field")
  else
    (team1 <- parse_team (get match_data "team1") ;;
     team2 <- parse_team (get match_data "team2") ;;
     tournament <- parse_tournament (get match_data "tournament") ;;
     ai_predictions <- parse_ai_prediction (get match_data "ai_predictions") ;;
     bet_updates <- parse_betting_odds (get match_data "bet_updates") ;;
     let team1_id := match team1 with
                     | Some t => PInt (BO3Team.id t)
                     | None => get match_data "team1_id"
                     end in
     let team2_id := match team2 with
                     | Some t => PInt (BO3Team.id t)
                     | None => get match_data "team2_id"
                     end in
     let tournament_id := match tournament with
                          | Some t => PInt (BO3Tournament.id t)
                          | None => get match_data "tournament_id"
                          end in
     id <- py_int match_id ;;
     Ok {| BO3Match.id := id;
           BO3Match.slug := get match_data "slug";
           BO3Match.team1_id := team1_id;
           BO3Match.team2_id := team2_id;
           BO3Match.status := py_str (get_or match_data "status" (PStr "upcoming"));
           BO3Match.start_date := parse_datetime (get match_data "start_date");
           BO3Match.bo_type := get match_data "bo_type";
           BO3Match.tier := get match_data "tier";
           BO3Match.team1_score := get match_data "team1_score";
           BO3Match.team2_score := get match_data "team2_score";
           BO3Match.winner_team_id := get match_data "winner_team_id";
           BO3Match.loser_team_id := get match_data "loser_team_id";
           BO3Match.tournament_id := tournament_id;
           BO3Match.team1 := team1;
           BO3Match.team2 := team2;
           BO3Match.tournament := tournament;
           BO3Match.ai_predictions := ai_predictions;
           BO3Match.bet_updates := bet_updates;
           BO3Match.raw_data := Some match_data |})%result.

(* ------------------------------------------------------------------ *)
(** ** The mutation ([mutations/bo3_mutations.py]) *)

Definition SOURCE_TYPE : string := "bo3".

Definition opt_datetime (o : option datetime) : pyval :=
  match o with
  | Some t => PDatetime t
  | None => PNone
  end.

(** [x.isoformat() if x else None] *)
Definition opt_isoformat (o : option datetime) : pyval :=
  match o with
  | Some t => PStr (isoformat t)
  | None => PNone
  end.

Definition to_team_dict (team_data : BO3Team.t) : dict :=
  [ ("source_type", PStr SOURCE_TYPE);
    ("source_id", PInt (BO3Team.id team_data));
    ("name", PStr (BO3Team.name team_data));
    ("slug", BO3Team.slug team_data);
    ("country_code", BO3Team.country_code team_data);
    ("logo_url", BO3Team.logo_url team_data);
    ("metadata", PDict
       [ ("id", PInt (BO3Team.id team_data));
         ("name", PStr (BO3Team.name team_data));
         ("slug", BO3Team.slug team_data);
         ("country_code", BO3Team.country_code team_data);
         ("logo_url", BO3Team.logo_url team_data) ]) ].

Definition to_tournament_dict (tournament_data : BO3Tournament.t) : dict :=
  [ ("source_type", PStr SOURCE_TYPE);
    ("source_id", PInt (BO3Tournament.id tournament_data));
    ("name", PStr (BO3Tournament.name tournament_data));
    ("slug", BO3Tournament.slug tournament_data);
    ("tier", BO3Tournament.tier tournament_data);
    ("tier_rank", BO3Tournament.tier_rank tournament_data);
    ("prize_pool", BO3Tournament.prize tournament_data);
    ("discipline_id", BO3Tournament.discipline_id tournament_data);
    ("status", BO3Tournament.status tournament_data);
    ("start_date", opt_datetime (BO3Tournament.start_date tournament_data));
    ("end_date", opt_datetime (BO3Tournament.end_date tournament_data));
    ("metadata", PDict
       [ ("id", PInt (BO3Tournament.id tournament_data));
         ("name", PStr (BO3Tournament.name tournament_data));
         ("slug", BO3Tournament.slug tournament_data);
         ("tier", BO3Tournament.tier tournament_data);
         ("tier_rank", BO3Tournament.tier_rank tournament_data);
         ("prize", BO3Tournament.prize tournament_data);
         ("discipline_id", BO3Tournament.discipline_id tournament_data);
         ("status", BO3Tournament.status tournament_data);
         ("start_date", opt_isoformat (BO3Tournament.start_date tournament_data));
         ("end_date", opt_isoformat (BO3Tournament.end_date tournament_data)) ]) ].

Definition _match_to_raw_dict (match_data : BO3Match.t) : dict :=
  [ ("id", PInt (BO3Match.id match_data));
    ("slug", BO3Match.slug match_data);
    ("team1_id", BO3Match.team1_id match_data);
    ("team2_id", BO3Match.team2_id match_data);
    ("status", PStr (BO3Match.status match_data));
    ("start_date", opt_isoformat (BO3Match.start_date match_data));
    ("bo_type", BO3Match.bo_type match_data);
    ("tier", BO3Match.tier match_data);
    ("team1_score", BO3Match.team1_score match_data);
    ("team2_score", BO3Match.team2_score match_data);
    ("winner_team_id", BO3Match.winner_team_id match_data);
    ("loser_team_id", BO3Match.loser_team_id match_data);
    ("tournament_id", BO3Match.tournament_id match_data) ].

(** The dictionary [to_match_dict] returns.  Its entries [_team1], [_team2]
    and [_tournament] hold model objects, not column values, and the
    storage service pops them before any other use of the dictionary: they
    are kept as fields, and [items] are the entries left after the three
    [pop]s, in the order of the dict literal. *)
Record match_dict := {
  _team1 : option BO3Team.t;
  _team2 : option BO3Team.t;
  _tournament : option BO3Tournament.t;
  items : dict
}.

Definition to_match_dict (match_data : BO3Match.t) : match_dict :=
  let team1_id := match BO3Match.team1 match_data with
                  | Some t => PInt (BO3Team.id t)
                  | None => BO3Match.team1_id match_data
                  end in
  let team2_id := match BO3Match.team2 match_data with
                  | Some t => PInt (BO3Team.id t)
                  | None => BO3Match.team2_id match_data
                  end in
  let tournament_id := match BO3Match.tournament match_data with
                       | Some t => PInt (BO3Tournament.id t)
                       | None => BO3Match.tournament_id match_data
                       end in
  {| _team1 := BO3Match.team1 match_data;
     _team2 := BO3Match.team2 match_data;
     _tournament := BO3Match.tournament match_data;
     items :=
       [ ("source_type", PStr SOURCE_TYPE);
         ("source_id", PInt (BO3Match.id match_data));
         ("slug", BO3Match.slug match_data);
         ("status", PStr (BO3Match.status match_data));
         ("start_date", opt_datetime (BO3Match.start_date match_data));
         ("bo_type", BO3Match.bo_type match_data);
         ("tier", BO3Match.tier match_data);
         ("team1_score", BO3Match.team1_score match_data);
         ("team2_score", BO3Match.team2_score match_data);
         ("winner_team_id", BO3Match.winner_team_id match_data);
         ("loser_team_id", BO3Match.loser_team_id match_data);
         ("raw_data",
           PDict match BO3Match.raw_data match_data with
                 | Some (e :: d) => e :: d
                 | _ => _match_to_raw_dict match_data
                 end);
         ("_team1_id", team1_id);
         ("_team2_id", team2_id);
         ("_tournament_id", tournament_id) ] |}.

Definition scores_dict (s : BO3PredictionScoresData.t) : dict :=
  [ ("predicted_score", PFloat (BO3PredictionScoresData.predicted_score s));
    ("proximity_factors", PDict (BO3PredictionScoresData.proximity_factors s));
    ("closest_valid_score", PList (BO3PredictionScoresData.closest_valid_score s));
    ("overall_proximity_factor",
      PFloat (BO3PredictionScoresData.overall_proximity_factor s));
    ("neighbor_proximity_factor",
      PFloat (BO3PredictionScoresData.neighbor_proximity_factor s)) ].

Definition to_ai_prediction_dict (prediction_data : BO3AIPrediction.t)
    (match_id : uuid) : dict :=
  [ ("match_id", PUuid match_id);
    ("source_type", PStr SOURCE_TYPE);
    ("source_id", PInt (BO3AIPrediction.id prediction_data));
    ("prediction_data", PDict
       [ ("id", PInt (BO3AIPrediction.id prediction_data));
         ("match_id", PInt (BO3AIPrediction.match_id prediction_data));
         ("prediction_team1_score",
           PInt (BO3AIPrediction.prediction_team1_score prediction_data));
         ("prediction_team2_score",
           PInt (BO3AIPrediction.prediction_team2_score prediction_data));
         ("prediction_winner_team_id",
           PInt (BO3AIPrediction.prediction_winner_team_id prediction_data));
         ("prediction_scores_data",
           PDict (scores_dict
                    (BO3AIPrediction.prediction_scores_data prediction_data))) ]) ].

(** [1.0 / coeff if coeff else None] *)
Definition implied_prob (coeff : float) : pyval :=
  if truthy (PFloat coeff) then PFloat (1 / coeff)%float else PNone.

Definition betting_team_dict (t : BO3BettingTeam.t) : dict :=
  [ ("name", PStr (BO3BettingTeam.name t));
    ("coeff", PFloat (BO3BettingTeam.coeff t));
    ("active", PBool (BO3BettingTeam.active t));
    ("team_id", PInt (BO3BettingTeam.team_id t));
    ("max_coeff", PFloat (BO3BettingTeam.max_coeff t));
    ("aggrement_score", PFloat (BO3BettingTeam.aggrement_score t)) ].

Definition to_betting_odds_dict (odds_data : BO3BettingOdds.t)
    (match_id : uuid) : dict :=
  let team1_implied_prob :=
    implied_prob (BO3BettingTeam.coeff (BO3BettingOdds.team_1 odds_data)) in
  let team2_implied_prob :=
    implied_prob (BO3BettingTeam.coeff (BO3BettingOdds.team_2 odds_data)) in
  [ ("match_id", PUuid match_id);
    ("source_type", PStr SOURCE_TYPE);
    ("provider", PStr (BO3BettingOdds.provider odds_data));
    ("team1_odds", PFloat (BO3BettingTeam.coeff (BO3BettingOdds.team_1 odds_data)));
    ("team2_odds", PFloat (BO3BettingTeam.coeff (BO3BettingOdds.team_2 odds_data)));
    ("team1_implied_prob", team1_implied_prob);
    ("team2_implied_prob", team2_implied_prob);
    ("odds_data", PDict
       [ ("path", BO3BettingOdds.path odds_data);
         ("provider", PStr (BO3BettingOdds.provider odds_data));
         ("team_1", PDict (betting_team_dict (BO3BettingOdds.team_1 odds_data)));
         ("team_2", PDict (betting_team_dict (BO3BettingOdds.team_2 odds_data)));
         ("markets_count", BO3BettingOdds.markets_count odds_data);
         ("additional_markets", BO3BettingOdds.additional_markets odds_data) ]) ].

(* ------------------------------------------------------------------ *)
(** ** The database and its sessions

    The relational engine is outside the repository; what the storage
    service relies on is modelled here.  A table is the list of its rows in
    insertion order.  A row has the primary key the database generated for
    it and the columns some statement has written; a column no statement
    has written has the default of the schema and reads as [PNone]. *)

Record row := {
  row_id : uuid;
  columns : dict
}.

Inductive table := Teams | Tournaments | Matches | AIPredictions | BettingOdds.

Record db := {
  teams : list row;
  tournaments : list row;
  matches : list row;
  ai_predictions : list row;
  betting_odds : list row;
  next_id : uuid
}.

Definition table_rows (t : table) (d : db) : list row :=
  match t with
  | Teams => teams d
  | Tournaments => tournaments d
  | Matches => matches d
  | AIPredictions => ai_predictions d
  | BettingOdds => betting_odds d
  end.

Definition with_rows (t : table) (rs : list row) (d : db) : db :=
  match t with
  | Teams =>
      {| teams := rs; tournaments := tournaments d; matches := matches d;
         ai_predictions := ai_predictions d; betting_odds := betting_odds d;
         next_id := next_id d |}
  | Tournaments =>
      {| teams := teams d; tournaments := rs; matches := matches d;
         ai_predictions := ai_predictions d; betting_odds := betting_odds d;
         next_id := next_id d |}
  | Matches =>
      {| teams := teams d; tournaments := tournaments d; matches := rs;
         ai_predictions := ai_predictions d; betting_odds := betting_odds d;
         next_id := next_id d |}
  | AIPredictions =>
      {| teams := teams d; tournaments := tournaments d; matches := matches d;
         ai_predictions := rs; betting_odds := betting_odds d;
         next_id := next_id d |}
  | BettingOdds =>
      {| teams := teams d; tournaments := tournaments d; matches := matches d;
         ai_predictions := ai_predictions d; betting_odds := rs;
         next_id := next_id d |}
  end.

Definition with_next_id (n : uuid) (d : db) : db :=
  {| teams := teams d; tournaments := tournaments d; matches := matches d;
     ai_predictions := ai_predictions d; betting_odds := betting_odds d;
     next_id := n |}.

Definition empty_db : db :=
  {| teams := []; tournaments := []; matches := []; ai_predictions := [];
     betting_odds := []; next_id := 1%nat |}.

(** The value of a column; [id] is the primary key. *)
Definition column (r : row) (c : string) : pyval :=
  if String.eqb c "id" then PUuid (row_id r) else get (columns r) c.

(** SQL [=] on the values the identity columns hold (integers, text and
    UUIDs).  A comparison with NULL, or between values of different kinds,
    selects nothing. *)
Definition sql_eq (a b : pyval) : bool :=
  match a, b with
  | PInt x, PInt y => x =? y
  | PStr x, PStr y => String.eqb x y
  | PUuid x, PUuid y => Nat.eqb x y
  | _, _ => false
  end.

(** The right-hand side of an assignment or a [VALUES] entry: a bind
    parameter [:name] or [NOW()]. *)
Inductive sql_expr :=
| Param (name : string)
| NOW.

(** A [WHERE] clause [c1 = :p1 AND c2 = :p2 ...] as pairs of a column and
    a parameter name. *)
Definition where_clause := list (string * string).

Fixpoint bind_where (w : where_clause) (params : dict)
  : option (list (string * pyval)) :=
  match w with
  | [] => Some []
  | (c, p) :: w' =>
      match dict_lookup p params, bind_where w' params with
      | Some v, Some rest => Some ((c, v) :: rest)
      | _, _ => None
      end
  end.

Definition row_matches (conds : list (string * pyval)) (r : row) : bool :=
  forallb (fun cv => sql_eq (column r (fst cv)) (snd cv)) conds.

(** The rows a [WHERE] clause selects. *)
Definition lookup (conds : list (string * pyval)) (rows : list row) : list row :=
  filter (row_matches conds) rows.

(** A new row: the database generates its primary key. *)
Definition add_row (t : table) (cols : dict) (d : db) : db :=
  with_next_id (S (next_id d))
    (with_rows t (table_rows t d ++ [{| row_id := next_id d; columns := cols |}]) d).

(** The rows selected by [p] rewritten by [f]. *)
Definition update_rows (t : table) (p : row -> bool) (f : row -> row) (d : db)
  : db :=
  with_rows t (map (fun r => if p r then f r else r) (table_rows t d)) d.

Fixpoint bind_values (a : list (string * sql_expr)) (params : dict)
    (now : datetime) : option dict :=
  match a with
  | [] => Some []
  | (c, e) :: a' =>
      let v := match e with
               | Param p => dict_lookup p params
               | NOW => Some (PDatetime now)
               end in
      match v, bind_values a' params now with
      | Some v, Some rest => Some ((c, v) :: rest)
      | _, _ => None
      end
  end.

(** [SET c1 = v1, c2 = v2, ...] on one row. *)
Definition set_all (vals cols : dict) : dict :=
  fold_left (fun cols cv => setitem (fst cv) (snd cv) cols) vals cols.

Definition assign (vals : dict) (r : row) : row :=
  {| row_id := row_id r; columns := set_all vals (columns r) |}.

(** A session: the durable (committed) database, the session's own view
    with its uncommitted writes, and the fault plan.  [fuse = Some n] makes
    the persistence operation number [n] from now (a statement or a
    commit) fail with [DBError]; [None] is a run without failures. *)
Record session := {
  durable : db;
  view : db;
  fuse : option nat
}.

Definition M (A : Type) := session -> result A * session.

Definition ret {A} (a : A) : M A := fun s => (Ok a, s).
Definition raise {A} (e : exn) : M A := fun s => (Raise e, s).
Definition bind {A B} (m : M A) (k : A -> M B) : M B :=
  fun s =>
    match m s with
    | (Ok a, s') => k a s'
    | (Raise e, s') => (Raise e, s')
    end.
Definition lift {A} (r : result A) : M A := fun s => (r, s).

Declare Scope session_scope.
Delimit Scope session_scope with session.
Notation "x <- m ;; k" := (bind m (fun x => k))
  (at level 61, m at next level, right associativity) : session_scope.
Notation "m ;; k" := (bind m (fun _ => k))
  (at level 61, right associativity) : session_scope.

(** [try: m except Exception as e: h e] *)
Definition try_except {A} (m : M A) (h : exn -> M A) : M A :=
  fun s =>
    match m s with
    | (Ok a, s') => (Ok a, s')
    | (Raise e, s') => h e s'
    end.

(** [with self._get_session() as session: body]: a new session starts from
    the durable state; leaving the block closes it, which drops what it has
    not committed.  The view of an enclosing session is untouched. *)
Definition with_session {A} (body : M A) : M A :=
  fun s =>
    let '(r, s') := body {| durable := durable s; view := durable s;
                           fuse := fuse s |} in
    (r, {| durable := durable s'; view := view s; fuse := fuse s' |}).

(** Every statement and every commit is one persistence operation. *)
Definition tick : M unit :=
  fun s =>
    match fuse s with
    | Some O => (Raise DBError, s)
    | Some (S n) =>
        (Ok tt, {| durable := durable s; view := view s; fuse := Some n |})
    | None => (Ok tt, s)
    end.

Definition commit : M unit :=
  (tick ;;
   fun s => (Ok tt, {| durable := view s; view := view s; fuse := fuse s |})
  )%session.

Definition rollback : M unit :=
  fun s => (Ok tt, {| durable := durable s; view := durable s; fuse := fuse s |}).

(** [scalar_one_or_none()] *)
Definition scalar_one_or_none (ids : list uuid) : result (option uuid) :=
  match ids with
  | [] => Ok None
  | [i] => Ok (Some i)
  | _ => Raise MultipleResultsFound
  end.

(** [SELECT id FROM t WHERE w], then [scalar_one_or_none()]. *)
Definition select_id (t : table) (w : where_clause) (params : dict)
  : M (option uuid) :=
  (tick ;;
   fun s =>
     match bind_where w params with
     | None => (Raise DBError, s)
     | Some conds =>
         (scalar_one_or_none (map row_id (lookup conds (table_rows t (view s)))),
          s)
     end)%session.

(** [INSERT INTO t (c1, ...) VALUES (e1, ...) RETURNING id] *)
Definition insert_returning_id (t : table) (a : list (string * sql_expr))
    (params : dict) (now : datetime) : M uuid :=
  (tick ;;
   fun s =>
     match bind_values a params now with
     | None => (Raise DBError, s)
     | Some cols =>
         (Ok (next_id (view s)),
          {| durable := durable s;
             view := add_row t cols (view s);
             fuse := fuse s |})
     end)%session.

(** [UPDATE t SET c1 = e1, ... WHERE w] *)
Definition update_where (t : table) (a : list (string * sql_expr))
    (w : where_clause) (params : dict) (now : datetime) : M unit :=
  (tick ;;
   fun s =>
     match bind_values a params now, bind_where w params with
     | Some vals, Some conds =>
         (Ok tt,
          {| durable := durable s;
             view := update_rows t (row_matches conds) (assign vals) (view s);
             fuse := fuse s |})
     | _, _ => (Raise DBError, s)
     end)%session.

(* ------------------------------------------------------------------ *)
(** ** The storage service ([storage_service.py])

    The service runs with the default mutation, [BO3Mutation].  [now] is
    the reading of the clock during the call, for [datetime.utcnow()] and
    for SQL [NOW()].  [str(u)] of a UUID [u], bound to a statement, reaches
    the database as that UUID and stays [PUuid u]. *)

(** [(c1, ..., cn) VALUES (:c1, ..., :cn)] *)
Definition named (cols : list string) : list (string * sql_expr) :=
  map (fun c => (c, Param c)) cols.

Definition mem (k : string) (l : list string) : bool :=
  existsb (String.eqb k) l.

Definition update_match_step (acc : list (string * sql_expr) * dict)
    (kv : string * pyval) : list (string * sql_expr) * dict :=
  let '(set_clauses, params) := acc in
  let '(key, value) := kv in
  if mem key ["team1_score"; "team2_score"; "status";
              "winner_team_id"; "loser_team_id"]
  then ((set_clauses ++ [(key, Param key)]), setitem key value params)
  else if String.eqb key "raw_data"
  then ((set_clauses ++ [("raw_data", Param "raw_data")]),
        setitem "raw_data" value params)
  else (set_clauses, params).

Definition update_match (now : datetime) (match_id : uuid) (updates : dict)
  : M unit :=
  with_session
    (try_except
       (let '(set_clauses, params) :=
          fold_left update_match_step updates
                    ([], [("match_id", PUuid match_id)]) in
        match set_clauses with
        | [] => ret tt
        | _ :: _ =>
            let set_clauses :=
              ((set_clauses ++ [("updated_at", NOW)])
                 ++ [("last_fetched_at", NOW)]) in
            update_where Matches set_clauses [("id", "match_id")] params now ;;
            commit
        end)
       (fun e => rollback ;; raise e))%session.

Definition _get_or_create_team_from_model (now : datetime)
    (team_data : BO3Team.t) (source_type : pyval) : M uuid :=
  (let team_dict := to_team_dict team_data in
   source_id <- lift (getitem team_dict "source_id") ;;
   existing <- select_id Teams
                 [("source_type", "source_type"); ("source_id", "source_id")]
                 [("source_type", source_type); ("source_id", source_id)] ;;
   match existing with
   | Some e => ret e
   | None =>
       team_id <- insert_returning_id Teams
                    (named ["source_type"; "source_id"; "name"; "slug";
                            "country_code"; "logo_url"; "metadata"])
                    team_dict now ;;
       commit ;;
       ret team_id
   end)%session.

Definition _get_or_create_tournament_from_model (now : datetime)
    (tournament_data : BO3Tournament.t) (source_type : pyval) : M uuid :=
  (let tournament_dict := to_tournament_dict tournament_data in
   source_id <- lift (getitem tournament_dict "source_id") ;;
   existing <- select_id Tournaments
                 [("source_type", "source_type"); ("source_id", "source_id")]
                 [("source_type", source_type); ("source_id", source_id)] ;;
   match existing with
   | Some e => ret e
   | None =>
       tournament_id <- insert_returning_id Tournaments
                          (named ["source_type"; "source_id"; "name"; "slug";
                                  "tier"; "tier_rank"; "prize_pool";
                                  "discipline_id"; "status"; "start_date";
                                  "end_date"; "metadata"])
                          tournament_dict now ;;
       commit ;;
       ret tournament_id
   end)%session.

(** [str(x) if x else None] *)
Definition str_or_none (v : pyval) : pyval :=
  if truthy v then PStr (py_str v) else PNone.

(** The columns and the parameters of the [INSERT INTO matches]. *)
Definition match_columns : list string :=
  ["source_type"; "source_id"; "slug";
   "team1_id"; "team2_id"; "tournament_id";
   "status"; "start_date"; "bo_type"; "tier";
   "team1_score"; "team2_score"; "winner_team_id"; "loser_team_id";
   "raw_data"; "last_fetched_at"].

Definition match_insert_params (source_type source_id : pyval)
    (match_dict : dict) (team1_id team2_id : uuid)
    (tournament_id : option uuid) (now : datetime) : dict :=
  [ ("source_type", source_type);
    ("source_id", source_id);
    ("slug", get match_dict "slug");
    ("team1_id", PUuid team1_id);
    ("team2_id", PUuid team2_id);
    ("tournament_id",
      match tournament_id with
      | Some i => PUuid i
      | None => PNone
      end);
    ("status", get_or match_dict "status" (PStr "upcoming"));
    ("start_date", get match_dict "start_date");
    ("bo_type", get match_dict "bo_type");
    ("tier", get match_dict "tier");
    ("team1_score", get match_dict "team1_score");
    ("team2_score", get match_dict "team2_score");
    ("winner_team_id", str_or_none (get match_dict "winner_team_id"));
    ("loser_team_id", str_or_none (get match_dict "loser_team_id"));
    ("raw_data", get match_dict "raw_data");
    ("last_fetched_at", PDatetime now) ].

Definition save_match (now : datetime) (match_data : BO3Match.t) : M uuid :=
  with_session
    (try_except
       (let match_dict := to_match_dict match_data in
        source_type <- lift (getitem (items match_dict) "source_type") ;;
        source_id <- lift (getitem (items match_dict) "source_id") ;;
        let team1_data := _team1 match_dict in
        let team2_data := _team2 match_dict in
        let tournament_data := _tournament match_dict in
        let match_dict := items match_dict in
        match team1_data, team2_data with
        | Some team1_data, Some team2_data =>
            team1_id <- _get_or_create_team_from_model now team1_data source_type ;;
            team2_id <- _get_or_create_team_from_model now team2_data source_type ;;
            tournament_id <-
              match tournament_data with
              | Some tournament_data =>
                  i <- _get_or_create_tournament_from_model
                         now tournament_data source_type ;;
                  ret (Some i)
              | None => ret None
              end ;;
            existing <- select_id Matches
                          [("source_type", "source_type");
                           ("source_id", "source_id")]
                          [("source_type", source_type);
                           ("source_id", source_id)] ;;
            match existing with
            | Some match_id =>
                update_match now match_id match_dict ;;
                ret match_id
            | None =>
                match_id <- insert_returning_id Matches (named match_columns)
                              (match_insert_params source_type source_id
                                 match_dict team1_id team2_id tournament_id now)
                              now ;;
                commit ;;
                ret match_id
            end
        | _, _ => raise (ValueError "Match must have team1 and team2 data")
        end)
       (fun e => rollback ;; raise e))%session.

Definition save_ai_prediction (now : datetime) (match_id : uuid)
    (prediction_data : BO3AIPrediction.t) : M uuid :=
  with_session
    (try_except
       (let prediction_dict := to_ai_prediction_dict prediction_data match_id in
        source_type <- lift (getitem prediction_dict "source_type") ;;
        source_id <- lift (getitem prediction_dict "source_id") ;;
        existing <- select_id AIPredictions
                      [("match_id", "match_id"); ("source_type", "source_type")]
                      [("match_id", PUuid match_id);
                       ("source_type", source_type)] ;;
        match existing with
        | Some existing =>
            data <- lift (getitem prediction_dict "prediction_data") ;;
            update_where AIPredictions
              [("prediction_data", Param "prediction_data");
               ("source_id", Param "source_id");
               ("updated_at", NOW)]
              [("id", "id")]
              [("id", PUuid existing);
               ("prediction_data", data);
               ("source_id", source_id)]
              now ;;
            commit ;;
            ret existing
        | None =>
            pred_id <- insert_returning_id AIPredictions
                         (named ["match_id"; "source_type"; "source_id";
                                 "prediction_data"])
                         prediction_dict now ;;
            commit ;;
            ret pred_id
        end)
       (fun e => rollback ;; raise e))%session.

Definition save_betting_odds (now : datetime) (match_id : uuid)
    (odds_data : BO3BettingOdds.t) : M uuid :=
  with_session
    (try_except
       (let odds_dict := to_betting_odds_dict odds_data match_id in
        source_type <- lift (getitem odds_dict "source_type") ;;
        provider <- lift (getitem odds_dict "provider") ;;
        existing <- select_id BettingOdds
                      [("match_id", "match_id"); ("source_type", "source_type");
                       ("provider", "provider")]
                      [("match_id", PUuid match_id);
                       ("source_type", source_type);
                       ("provider", provider)] ;;
        match existing with
        | Some existing =>
            team1_odds <- lift (getitem odds_dict "team1_odds") ;;
            team2_odds <- lift (getitem odds_dict "team2_odds") ;;
            team1_implied_prob <- lift (getitem odds_dict "team1_implied_prob") ;;
            team2_implied_prob <- lift (getitem odds_dict "team2_implied_prob") ;;
            data <- lift (getitem odds_dict "odds_data") ;;
            update_where BettingOdds
              [("team1_odds", Param "team1_odds");
               ("team2_odds", Param "team2_odds");
               ("team1_implied_prob", Param "team1_implied_prob");
               ("team2_implied_prob", Param "team2_implied_prob");
               ("odds_data", Param "odds_data");
               ("updated_at", NOW);
               ("fetched_at", NOW)]
              [("id", "id")]
              [("id", PUuid existing);
               ("team1_odds", team1_odds);
               ("team2_odds", team2_odds);
               ("team1_implied_prob", team1_implied_prob);
               ("team2_implied_prob", team2_implied_prob);
               ("odds_data", data)]
              now ;;
            commit ;;
            ret existing
        | None =>
            odds_id <- insert_returning_id BettingOdds
                         (named ["match_id"; "source_type"; "provider";
                                 "team1_odds"; "team2_odds";
                                 "team1_implied_prob"; "team2_implied_prob";
                                 "odds_data"]
                            ++ [("fetched_at", NOW)])
                         odds_dict now ;;
            commit ;;
            ret odds_id
        end)
       (fun e => rollback ;; raise e))%session.

(** A top-level call: the service method run against the durable database
    [d] under the fault plan [fault]; the result is what the caller gets
    and the durable database the call leaves. *)
Definition call {A} (m : M A) (fault : option nat) (d : db) : result A * db :=
  let '(r, s) := m {| durable := d; view := d; fuse := fault |} in
  (r, durable s).

(* ------------------------------------------------------------------ *)
(** ** The storage service: reads and the dictionary entry points *)

(** [SELECT ... FROM t WHERE w], then [fetchall()]: the rows selected, in
    the order of the table. *)
Definition select_rows (t : table) (w : where_clause) (params : dict)
  : M (list row) :=
  (tick ;;
   fun s =>
     match bind_where w params with
     | None => (Raise DBError, s)
     | Some conds => (Ok (lookup conds (table_rows t (view s))), s)
     end)%session.

Fixpoint map_result {A B} (f : A -> result B) (l : list A) : result (list B) :=
  match l with
  | [] => Ok []
  | a :: l' => (b <- f a ;; bs <- map_result f l' ;; Ok (b :: bs))%result
  end.

Definition get_team_by_source (source_type : string) (source_id : Z)
  : M (option uuid) :=
  with_session
    (result <- select_id Teams
                 [("source_type", "source_type"); ("source_id", "source_id")]
                 [("source_type", PStr source_type);
                  ("source_id", PInt source_id)] ;;
     ret result)%session.

Definition _get_or_create_team (now : datetime) (team_data : dict)
    (source_type : string) : M uuid :=
  let source_id := get team_data "id" in
  if negb (truthy source_id)
  then raise (ValueError "Team data must include 'id' field")
  else
    (existing <- select_id Teams
                   [("source_type", "source_type"); ("source_id", "source_id")]
                   [("source_type", PStr source_type);
                    ("source_id", source_id)] ;;
     match existing with
     | Some e => ret e
     | None =>
         team_id <- insert_returning_id Teams
                      (named ["source_type"; "source_id"; "name"; "slug";
                              "country_code"; "logo_url"; "metadata"])
                      [ ("source_type", PStr source_type);
                        ("source_id", source_id);
                        ("name", get_or team_data "name" (PStr ""));
                        ("slug", get team_data "slug");
                        ("country_code", get team_data "country_code");
                        ("logo_url", get team_data "logo_url");
                        ("metadata", PDict team_data) ]
                      now ;;
         commit ;;
         ret team_id
     end)%session.

Definition get_or_create_team (now : datetime) (team_data : dict)
    (source_type : string) : M uuid :=
  with_session (_get_or_create_team now team_data source_type).

Definition _get_or_create_tournament (now : datetime) (tournament_data : dict)
    (source_type : string) : M uuid :=
  let source_id := get tournament_data "id" in
  if negb (truthy source_id)
  then raise (ValueError "Tournament data must include 'id' field")
  else
    (existing <- select_id Tournaments
                   [("source_type", "source_type"); ("source_id", "source_id")]
                   [("source_type", PStr source_type);
                    ("source_id", source_id)] ;;
     match existing with
     | Some e => ret e
     | None =>
         tournament_id <- insert_returning_id Tournaments
                            (named ["source_type"; "source_id"; "name"; "slug";
                                    "tier"; "tier_rank"; "prize_pool";
                                    "discipline_id"; "status"; "start_date";
                                    "end_date"; "metadata"])
                            [ ("source_type", PStr source_type);
                              ("source_id", source_id);
                              ("name", get_or tournament_data "name" (PStr ""));
                              ("slug", get tournament_data "slug");
                              ("tier", get tournament_data "tier");
                              ("tier_rank", get tournament_data "tier_rank");
                              ("prize_pool", get tournament_data "prize");
                              ("discipline_id",
                                get tournament_data "discipline_id");
                              ("status", get tournament_data "status");
                              ("start_date", get tournament_data "start_date");
                              ("end_date", get tournament_data "end_date");
                              ("metadata", PDict tournament_data) ]
                            now ;;
         commit ;;
         ret tournament_id
     end)%session.

Definition get_or_create_tournament (now : datetime) (tournament_data : dict)
    (source_type : string) : M uuid :=
  with_session (_get_or_create_tournament now tournament_data source_type).

(** The dictionary [get_match] and [get_matches] build from a row. *)
Definition match_view (r : row) : dict :=
  [ ("id", PStr (py_str (column r "id")));
    ("source_type", column r "source_type");
    ("source_id", column r "source_id");
    ("slug", column r "slug");
    ("team1_id", str_or_none (column r "team1_id"));
    ("team2_id", str_or_none (column r "team2_id"));
    ("tournament_id", str_or_none (column r "tournament_id"));
    ("status", column r "status");
    ("start_date", column r "start_date");
    ("bo_type", column r "bo_type");
    ("tier", column r "tier");
    ("team1_score", column r "team1_score");
    ("team2_score", column r "team2_score");
    ("winner_team_id", str_or_none (column r "winner_team_id"));
    ("loser_team_id", str_or_none (column r "loser_team_id"));
    ("raw_data", column r "raw_data");
    ("created_at", column r "created_at");
    ("updated_at", column r "updated_at");
    ("last_fetched_at", column r "last_fetched_at") ].

(** [fetchone()] gives the first row selected. *)
Definition get_match (match_id : uuid) : M (option dict) :=
  with_session
    (rows <- select_rows Matches [("id", "match_id")]
               [("match_id", PUuid match_id)] ;;
     match rows with
     | [] => ret None
     | result :: _ => ret (Some (match_view result))
     end)%session.

Definition prediction_view (r : row) : dict :=
  [ ("id", PStr (py_str (column r "id")));
    ("source_type", column r "source_type");
    ("source_id", column r "source_id");
    ("prediction_data", column r "prediction_data");
    ("created_at", column r "created_at");
    ("updated_at", column r "updated_at") ].

Definition get_ai_predictions (match_id : uuid) : M (list dict) :=
  with_session
    (results <- select_rows AIPredictions [("match_id", "match_id")]
                  [("match_id", PUuid match_id)] ;;
     ret (map prediction_view results))%session.

(** [float(x) if x else None] *)
Definition float_or_none (v : pyval) : result pyval :=
  if truthy v then (f <- py_float v ;; Ok (PFloat f))%result else Ok PNone.

Definition odds_view (r : row) : result dict :=
  (team1_odds <- float_or_none (column r "team1_odds") ;;
   team2_odds <- float_or_none (column r "team2_odds") ;;
   team1_implied_prob <- float_or_none (column r "team1_implied_prob") ;;
   team2_implied_prob <- float_or_none (column r "team2_implied_prob") ;;
   Ok [ ("id", PStr (py_str (column r "id")));
        ("source_type", column r "source_type");
        ("provider", column r "provider");
        ("team1_odds", team1_odds);
        ("team2_odds", team2_odds);
        ("team1_implied_prob", team1_implied_prob);
        ("team2_implied_prob", team2_implied_prob);
        ("odds_data", column r "odds_data");
        ("created_at", column r "created_at");
        ("updated_at", column r "updated_at");
        ("fetched_at", column r "fetched_at") ])%result.

(** The query gets [AND provider = :provider] when [provider] is truthy. *)
Definition get_betting_odds (match_id : uuid) (provider : option string)
  : M (list dict) :=
  with_session
    (let query := [("match_id", "match_id")] in
     let params := [("match_id", PUuid match_id)] in
     let '(query, params) :=
       match provider with
       | Some p =>
           if truthy (PStr p)
           then (query ++ [("provider", "provider")],
                 setitem "provider" (PStr p) params)
           else (query, params)
       | None => (query, params)
       end in
     results <- select_rows BettingOdds query params ;;
     lift (map_result odds_view results))%session.

(* ------------------------------------------------------------------ *)
(** ** Notions used by the statements *)

(** What [parse_betting_team] leaves in a record for the numeric fields the
    payload [d] does not have. *)
Definition betting_team_defaults (d : dict) (t : BO3BettingTeam.t) : Prop :=
  (dict_lookup "coeff" d = None -> BO3BettingTeam.coeff t = 0%float) /\
  (dict_lookup "team_id" d = None -> BO3BettingTeam.team_id t = 0) /\
  (dict_lookup "max_coeff" d = None -> BO3BettingTeam.max_coeff t = 0%float) /\
  (dict_lookup "aggrement_score" d = None ->
   BO3BettingTeam.aggrement_score t = 0%float).

(** The identity key [(source_type, source_id)] of a team, a tournament or
    a match of this source. *)
Definition source_key (source_id : Z) : list (string * pyval) :=
  [("source_type", PStr SOURCE_TYPE); ("source_id", PInt source_id)].

(** The identity key of an AI prediction and of a betting-odds row. *)
Definition prediction_key (match_id : uuid) : list (string * pyval) :=
  [("match_id", PUuid match_id); ("source_type", PStr SOURCE_TYPE)].

Definition odds_key (match_id : uuid) (provider : string)
  : list (string * pyval) :=
  [("match_id", PUuid match_id); ("source_type", PStr SOURCE_TYPE);
   ("provider", PStr provider)].

(** The keys [update_match] applies. *)
Definition recognized (key : string) : bool :=
  mem key ["team1_score"; "team2_score"; "status";
           "winner_team_id"; "loser_team_id"; "raw_data"].

(** The entries of [updates] that [update_match] applies. *)
Definition applied (updates : dict) : dict :=
  filter (fun kv => recognized (fst kv)) updates.

(** The timestamps [update_match] sets. *)
Definition stamps (now : datetime) : dict :=
  [("updated_at", PDatetime now); ("last_fetched_at", PDatetime now)].

(** The database after the running example has been saved into an empty
    one. *)
Definition example_saved : db :=
  snd (call (save_match example_now1 example_match) None empty_db).

(** The same with an AI prediction, with the odds of one provider and with
    the odds of two providers for that match, whose row has the id 4. *)
Definition example_with_prediction : db :=
  snd (call (save_ai_prediction example_now1 4%nat example_prediction) None
         example_saved).

Definition example_with_odds : db :=
  snd (call (save_betting_odds example_now1 4%nat
               (example_odds "bookmaker-a" 2 1.5)) None example_saved).

Definition example_with_two_odds : db :=
  snd (call (save_betting_odds example_now2 4%nat
               (example_odds "bookmaker-b" 2 2)) None example_with_odds).

(** A session with nothing uncommitted and no failure planned. *)
Definition clean (d : db) : session :=
  {| durable := d; view := d; fuse := None |}.

(** The steps of [save_match] for a match with both teams. *)
Definition resolve_tournament now (tournament_data : option BO3Tournament.t)
  : M (option uuid) :=
  match tournament_data with
  | Some t =>
      (i <- _get_or_create_tournament_from_model now t (PStr SOURCE_TYPE) ;;
       ret (Some i))%session
  | None => ret None
  end.

Definition write_match now (m : BO3Match.t) (team1_id team2_id : uuid)
    (tournament_id : option uuid) : M uuid :=
  (existing <- select_id Matches
                 [("source_type", "source_type"); ("source_id", "source_id")]
                 [("source_type", PStr SOURCE_TYPE);
                  ("source_id", PInt (BO3Match.id m))] ;;
   match existing with
   | Some match_id =>
       update_match now match_id (items (to_match_dict m)) ;;
       ret match_id
   | None =>
       match_id <- insert_returning_id Matches (named match_columns)
                     (match_insert_params (PStr SOURCE_TYPE)
                        (PInt (BO3Match.id m)) (items (to_match_dict m))
                        team1_id team2_id tournament_id now)
                     now ;;
       commit ;;
       ret match_id
   end)%session.

Definition reraise {A} (e : exn) : M A := (rollback ;; raise e)%session.

(** What a get-or-create that returned [i] leaves: its key selects one row,
    of id [i]; what the keys of the table selected before, they still
    select; the other tables are as they were. *)
Definition resolved (t : table) (z : Z) (i : uuid) (v v' : db) : Prop :=
  (exists r, lookup (source_key z) (table_rows t v') = [r] /\ row_id r = i) /\
  (forall z' r, lookup (source_key z') (table_rows t v) = [r] ->
                lookup (source_key z') (table_rows t v') = [r]) /\
  (forall t', t' <> t -> table_rows t' v' = table_rows t' v).

Definition tournament_resolved (o : option BO3Tournament.t)
    (it : option uuid) (v v' : db) : Prop :=
  match o with
  | Some t => exists i, it = Some i /\
                        resolved Tournaments (BO3Tournament.id t) i v v'
  | None => it = None /\ v' = v
  end.

(** Referential integrity: the team references of every match row, and its
    tournament reference unless it is NULL, are primary keys of rows of
    [teams] and [tournaments]. *)
Definition resolves (rows : list row) (v : pyval) : bool :=
  match v with
  | PUuid u => existsb (fun r => Nat.eqb (row_id r) u) rows
  | _ => false
  end.

Definition resolves_or_null (rows : list row) (v : pyval) : bool :=
  match v with
  | PNone => true
  | _ => resolves rows v
  end.

Definition references_resolve (team_rows tournament_rows : list row)
    (r : row) : bool :=
  resolves team_rows (column r "team1_id")
  && resolves team_rows (column r "team2_id")
  && resolves_or_null tournament_rows (column r "tournament_id").

Definition referential_integrity (d : db) : bool :=
  forallb (references_resolve (teams d) (tournaments d)) (matches d).

(** A session with nothing uncommitted, under any fault plan. *)
Definition synced (d : db) (f : option nat) : session :=
  {| durable := d; view := d; fuse := f |}.

(** Some row of [rows] has the primary key [i]. *)
Definition has_id (rows : list row) (i : uuid) : Prop :=
  existsb (fun r => Nat.eqb (row_id r) i) rows = true.

(** From one committed state to a later one of the same call, before the
    match row is written: rows of teams and tournaments are only added. *)
Definition grows (d d' : db) : Prop :=
  matches d' = matches d /\
  (forall i, has_id (teams d) i -> has_id (teams d') i) /\
  (forall i, has_id (tournaments d) i -> has_id (tournaments d') i).

(* ------------------------------------------------------------------ *)
(** ** Notions used by the further statements *)

(** What a get-or-create of the key [z] does to the committed state:
    nothing, or one row appended to [t] for a key that selected none. *)
Definition created (t : table) (z : Z) (cols : dict) (d d' : db) : Prop :=
  d' = d \/
  (lookup (source_key z) (table_rows t d) = [] /\ d' = add_row t cols d).

Definition tournament_created (o : option BO3Tournament.t) (d d' : db)
  : Prop :=
  match o with
  | Some t => created Tournaments (BO3Tournament.id t) (to_tournament_dict t) d d'
  | None => d' = d
  end.

(** What the write of the match row does to the committed state, with the
    result of the call: nothing when it raises; the update of the one row
    the key selects; or one row appended for a key that selected none. *)
Definition written (now : datetime) (m : BO3Match.t) (r : result uuid)
    (d d' : db) : Prop :=
  (exists e, r = Raise e /\ d' = d) \/
  (exists r0,
      r = Ok (row_id r0) /\
      lookup (source_key (BO3Match.id m)) (matches d) = [r0] /\
      d' = update_rows Matches (row_matches [("id", PUuid (row_id r0))])
             (assign (applied (items (to_match_dict m)) ++ stamps now)) d) \/
  (exists a b c,
      r = Ok (next_id d) /\
      lookup (source_key (BO3Match.id m)) (matches d) = [] /\
      d' = add_row Matches
             (match_insert_params (PStr SOURCE_TYPE) (PInt (BO3Match.id m))
                (items (to_match_dict m)) a b c now) d).

(** No two rows of a table have the same identity key. *)
Definition unique_keys (rows : list row) : Prop :=
  forall z, (List.length (lookup (source_key z) rows) <= 1)%nat.

Definition keyed (d : db) : Prop :=
  unique_keys (teams d) /\ unique_keys (tournaments d) /\
  unique_keys (matches d).

(** The primary keys of the match rows are distinct and were generated
    before the next one. *)
Definition primary_keys (d : db) : Prop :=
  NoDup (map row_id (matches d)) /\
  Forall (fun r => (row_id r < next_id d)%nat) (matches d).

(** The conditions of the query of [get_betting_odds]. *)
Definition odds_filter (match_id : uuid) (provider : option string)
  : list (string * pyval) :=
  ("match_id", PUuid match_id)
    :: match provider with
       | Some (String c p) => [("provider", PStr (String c p))]
       | _ => []
       end.

(** The columns the dictionary entry points insert. *)
Definition legacy_team_columns (source_type : string) (team_data : dict)
  : dict :=
  [ ("source_type", PStr source_type);
    ("source_id", get team_data "id");
    ("name", get_or team_data "name" (PStr ""));
    ("slug", get team_data "slug");
    ("country_code", get team_data "country_code");
    ("logo_url", get team_data "logo_url");
    ("metadata", PDict team_data) ].

Definition legacy_tournament_columns (source_type : string)
    (tournament_data : dict) : dict :=
  [ ("source_type", PStr source_type);
    ("source_id", get tournament_data "id");
    ("name", get_or tournament_data "name" (PStr ""));
    ("slug", get tournament_data "slug");
    ("tier", get tournament_data "tier");
    ("tier_rank", get tournament_data "tier_rank");
    ("prize_pool", get tournament_data "prize");
    ("discipline_id", get tournament_data "discipline_id");
    ("status", get tournament_data "status");
    ("start_date", get tournament_data "start_date");
    ("end_date", get tournament_data "end_date");
    ("metadata", PDict tournament_data) ].

(** Further examples: a payload with both teams and a tournament and the
    match it is parsed into; a payload that names its teams by id only; the
    running example after it has finished, under another slug; the states
    these lead to. *)
Definition example_full_payload : dict :=
  [ ("id", PInt 103084); ("slug", PStr "alpha-vs-bravo");
    ("team1", example_team_payload);
    ("team2", PDict [("id", PInt 7631); ("name", PStr "Bravo")]);
    ("tournament", example_tournament_payload) ].

Definition example_parsed : BO3Match.t :=
  match parse_match example_full_payload with
  | Ok m => m
  | Raise _ => example_match
  end.

Definition example_ids_payload : dict :=
  [("id", PInt 103084); ("team1_id", PInt 736); ("team2_id", PInt 7631)].

Definition example_parsed_ids : BO3Match.t :=
  match parse_match example_ids_payload with
  | Ok m => m
  | Raise _ => example_match
  end.


Definition example_team_dict : dict :=
  [("id", PInt 736); ("name", PStr "Alpha")].

Definition example_tournament_dict : dict :=
  [("id", PInt 3578); ("name", PStr "Cup"); ("prize", PInt 100000)].


Definition example_partial : db :=
  snd (call (save_match example_now1 example_match) (Some 10%nat) empty_db).


Definition example_parsed_saved : db :=
  snd (call (save_match example_now1 example_parsed) None empty_db).

Definition example_with_zero_odds : db :=
  snd (call (save_betting_odds example_now1 4%nat
               (example_odds "bookmaker-a" 0 1.5)) None example_saved).

Definition example_team_created : db :=
  snd (call (_get_or_create_team_from_model example_now1 example_team1
               (PStr SOURCE_TYPE)) None empty_db).

Definition example_team_created_dict : db :=
  snd (call (get_or_create_team example_now1 example_team_dict SOURCE_TYPE)
         None empty_db).

(* ------------------------------------------------------------------ *)
(** * Properties of the parser and of the mutation *)

(** The lemmas that do not mention the conversions do not depend on them. *)
Ltac forget_conversions :=
  repeat match goal with
         | f : string -> option datetime |- _ => clear f
         | f : string -> option Z |- _ => clear f
         | f : string -> option float |- _ => clear f
         | f : pyval -> string |- _ => clear f
         | f : list pyval -> result dict |- _ => clear f
         end.

Lemma get_missing (d : dict) (k : string) :
  dict_lookup k d = None -> get d k = PNone.
Proof. unfold get, get_or. intros ->. reflexivity. Qed.

Lemma get_or_missing (d : dict) (k : string) (v : pyval) :
  dict_lookup k d = None -> get_or d k v = v.
Proof. unfold get_or. intros ->. reflexivity. Qed.

(** The required-field checks test the truth value of what [get] returns. *)
Lemma parse_team_falsy (team_data : pyval) :
  truthy (get (entries team_data) "id") = false \/
  truthy (get (entries team_data) "name") = false ->
  parse_team team_data = Ok None.
Proof.
  intros H. unfold parse_team.
  destruct (negb (truthy team_data) || negb (isinstance_dict team_data));
    [reflexivity|].
  cbv zeta. destruct H as [H | H]; rewrite H; simpl.
  - reflexivity.
  - rewrite orb_true_r. reflexivity.
Qed.

Lemma parse_tournament_falsy (tournament_data : pyval) :
  truthy (get (entries tournament_data) "id") = false \/
  truthy (get (entries tournament_data) "name") = false ->
  parse_tournament tournament_data = Ok None.
Proof.
  intros H. unfold parse_tournament.
  destruct (negb (truthy tournament_data)
            || negb (isinstance_dict tournament_data)); [reflexivity|].
  cbv zeta. destruct H as [H | H]; rewrite H; simpl.
  - reflexivity.
  - rewrite orb_true_r. reflexivity.
Qed.

Lemma parse_match_falsy (match_data : dict) :
  truthy (get match_data "id") = false ->
  parse_match match_data
  = Raise (ValueError "Match data must include 'id' field").
Proof. intros H. unfold parse_match. cbv zeta. rewrite H. reflexivity. Qed.

(** C6: a nested team or tournament payload without [id] or without [name]
    parses to [None] and nothing is raised; a match payload without [id]
    raises the validation error (Python's [ValueError]). *)
Theorem missing_identity_field :
  (forall team_data : pyval,
      dict_lookup "id" (entries team_data) = None \/
      dict_lookup "name" (entries team_data) = None ->
      parse_team team_data = Ok None) /\
  (forall tournament_data : pyval,
      dict_lookup "id" (entries tournament_data) = None \/
      dict_lookup "name" (entries tournament_data) = None ->
      parse_tournament tournament_data = Ok None) /\
  (forall match_data : dict,
      dict_lookup "id" match_data = None ->
      parse_match match_data
      = Raise (ValueError "Match data must include 'id' field")).
Proof.
  repeat split.
  - intros v [H | H]; apply parse_team_falsy;
      [left | right]; rewrite (get_missing _ _ H); reflexivity.
  - intros v [H | H]; apply parse_tournament_falsy;
      [left | right]; rewrite (get_missing _ _ H); reflexivity.
  - intros d H. apply parse_match_falsy.
    rewrite (get_missing _ _ H). reflexivity.
Qed.

(** C10: the checks are on truth values: an [id] of [0] or a [name] of [""]
    that is present gives the same result as a missing one, [None] for a
    team or a tournament and the raised error for a match. *)
Theorem falsy_identity_field :
  (forall team_data : pyval,
      get (entries team_data) "id" = PInt 0 \/
      get (entries team_data) "name" = PStr "" ->
      parse_team team_data = Ok None) /\
  (forall tournament_data : pyval,
      get (entries tournament_data) "id" = PInt 0 \/
      get (entries tournament_data) "name" = PStr "" ->
      parse_tournament tournament_data = Ok None) /\
  (forall match_data : dict,
      get match_data "id" = PInt 0 ->
      parse_match match_data
      = Raise (ValueError "Match data must include 'id' field")).
Proof.
  repeat split.
  - intros v [H | H]; apply parse_team_falsy;
      [left | right]; rewrite H; reflexivity.
  - intros v [H | H]; apply parse_tournament_falsy;
      [left | right]; rewrite H; reflexivity.
  - intros d H. apply parse_match_falsy. rewrite H. reflexivity.
Qed.

(** Inversion of a parse that returned a record: the conversions that ran
    and the values they gave. *)
Ltac invert_rbind H :=
  repeat match type of H with
         | rbind ?r _ = _ =>
             let E := fresh "E" in
             destruct r eqn:E; cbn [rbind] in H; [|discriminate H]
         end.

Lemma parse_betting_team_Some (team_data : pyval) (t : BO3BettingTeam.t) :
  parse_betting_team team_data = Ok (Some t) ->
  let d := entries team_data in
  py_float (get_or d "coeff" (PFloat 0%float)) = Ok (BO3BettingTeam.coeff t) /\
  py_int (get_or d "team_id" (PInt 0)) = Ok (BO3BettingTeam.team_id t) /\
  py_float (get_or d "max_coeff" (PFloat 0%float))
  = Ok (BO3BettingTeam.max_coeff t) /\
  py_float (get_or d "aggrement_score" (PFloat 0%float))
  = Ok (BO3BettingTeam.aggrement_score t).
Proof.
  unfold parse_betting_team.
  destruct (negb (truthy team_data) || negb (isinstance_dict team_data));
    [discriminate|].
  cbv zeta. intros H. invert_rbind H.
  injection H as <-. cbn. auto.
Qed.

Lemma parse_betting_odds_Some (odds_data : pyval) (o : BO3BettingOdds.t) :
  parse_betting_odds odds_data = Ok (Some o) ->
  let d := entries odds_data in
  parse_betting_team (get d "team_1") = Ok (Some (BO3BettingOdds.team_1 o)) /\
  parse_betting_team (get d "team_2") = Ok (Some (BO3BettingOdds.team_2 o)) /\
  BO3BettingOdds.path o = get d "path" /\
  BO3BettingOdds.markets_count o = get d "markets_count" /\
  BO3BettingOdds.additional_markets o = get d "additional_markets".
Proof.
  unfold parse_betting_odds.
  destruct (negb (truthy odds_data) || negb (isinstance_dict odds_data));
    [discriminate|].
  cbv zeta.
  destruct (negb (truthy (get (entries odds_data) "provider"))
            || negb (truthy (get (entries odds_data) "team_1"))
            || negb (truthy (get (entries odds_data) "team_2")));
    [discriminate|].
  intros H. invert_rbind H.
  destruct a as [t1|]; [|discriminate H].
  destruct a0 as [t2|]; [|discriminate H].
  injection H as <-. cbn. auto.
Qed.

Lemma parse_prediction_scores_data_Some (scores_data : pyval)
    (p : BO3PredictionScoresData.t) :
  parse_prediction_scores_data scores_data = Ok (Some p) ->
  let d := entries scores_data in
  py_float (get_or d "predicted_score" (PFloat 0%float))
  = Ok (BO3PredictionScoresData.predicted_score p) /\
  py_float (get_or d "overall_proximity_factor" (PFloat 0%float))
  = Ok (BO3PredictionScoresData.overall_proximity_factor p) /\
  py_float (get_or d "neighbor_proximity_factor" (PFloat 0%float))
  = Ok (BO3PredictionScoresData.neighbor_proximity_factor p).
Proof.
  unfold parse_prediction_scores_data.
  destruct (negb (truthy scores_data) || negb (isinstance_dict scores_data));
    [discriminate|].
  cbv zeta. intros H. invert_rbind H.
  injection H as <-. cbn. auto.
Qed.

Lemma parse_ai_prediction_Some (prediction_data : pyval)
    (p : BO3AIPrediction.t) :
  parse_ai_prediction prediction_data = Ok (Some p) ->
  let d := entries prediction_data in
  py_int (get_or d "prediction_team1_score" (PInt 0))
  = Ok (BO3AIPrediction.prediction_team1_score p) /\
  py_int (get_or d "prediction_team2_score" (PInt 0))
  = Ok (BO3AIPrediction.prediction_team2_score p) /\
  py_int (get_or d "prediction_winner_team_id" (PInt 0))
  = Ok (BO3AIPrediction.prediction_winner_team_id p) /\
  parse_prediction_scores_data (get d "prediction_scores_data")
  = Ok (Some (BO3AIPrediction.prediction_scores_data p)).
Proof.
  unfold parse_ai_prediction.
  destruct (negb (truthy prediction_data)
            || negb (isinstance_dict prediction_data)); [discriminate|].
  cbv zeta.
  destruct (negb (truthy (get (entries prediction_data) "id"))
            || negb (truthy (get (entries prediction_data) "match_id")));
    [discriminate|].
  intros H. invert_rbind H.
  destruct a as [scores|]; [|discriminate H].
  invert_rbind H. injection H as <-. cbn. auto.
Qed.

Lemma parse_team_Some (team_data : pyval) (t : BO3Team.t) :
  parse_team team_data = Ok (Some t) ->
  let d := entries team_data in
  BO3Team.slug t = get d "slug" /\
  BO3Team.country_code t = get d "country_code" /\
  BO3Team.logo_url t = get d "logo_url".
Proof.
  unfold parse_team.
  destruct (negb (truthy team_data) || negb (isinstance_dict team_data));
    [discriminate|].
  cbv zeta.
  destruct (negb (truthy (get (entries team_data) "id"))
            || negb (truthy (get (entries team_data) "name")));
    [discriminate|].
  intros H. invert_rbind H. injection H as <-. cbn. auto.
Qed.

Lemma parse_tournament_Some (tournament_data : pyval) (t : BO3Tournament.t) :
  parse_tournament tournament_data = Ok (Some t) ->
  let d := entries tournament_data in
  BO3Tournament.slug t = get d "slug" /\
  BO3Tournament.tier t = get d "tier" /\
  BO3Tournament.tier_rank t = get d "tier_rank" /\
  BO3Tournament.prize t = get d "prize" /\
  BO3Tournament.discipline_id t = get d "discipline_id" /\
  BO3Tournament.status t = get d "status" /\
  BO3Tournament.start_date t = parse_datetime (get d "start_date") /\
  BO3Tournament.end_date t = parse_datetime (get d "end_date").
Proof.
  unfold parse_tournament.
  destruct (negb (truthy tournament_data)
            || negb (isinstance_dict tournament_data)); [discriminate|].
  cbv zeta.
  destruct (negb (truthy (get (entries tournament_data) "id"))
            || negb (truthy (get (entries tournament_data) "name")));
    [discriminate|].
  intros H. invert_rbind H. injection H as <-. cbn. repeat split.
Qed.

Lemma parse_match_Ok (match_data : dict) (m : BO3Match.t) :
  parse_match match_data = Ok m ->
  BO3Match.slug m = get match_data "slug" /\
  BO3Match.start_date m = parse_datetime (get match_data "start_date") /\
  BO3Match.bo_type m = get match_data "bo_type" /\
  BO3Match.tier m = get match_data "tier" /\
  BO3Match.team1_score m = get match_data "team1_score" /\
  BO3Match.team2_score m = get match_data "team2_score" /\
  BO3Match.winner_team_id m = get match_data "winner_team_id" /\
  BO3Match.loser_team_id m = get match_data "loser_team_id".
Proof.
  unfold parse_match. cbv zeta.
  destruct (negb (truthy (get match_data "id"))); [discriminate|].
  intros H. invert_rbind H. injection H as <-. cbn. repeat split.
Qed.

Lemma float_default_missing (d : dict) (k : string) (f : float) :
  dict_lookup k d = None ->
  py_float (get_or d k (PFloat 0%float)) = Ok f -> f = 0%float.
Proof.
  intros Hk. rewrite (get_or_missing _ _ _ Hk). cbn. congruence.
Qed.

Lemma int_default_missing (d : dict) (k : string) (z : Z) :
  dict_lookup k d = None ->
  py_int (get_or d k (PInt 0)) = Ok z -> z = 0.
Proof.
  intros Hk. rewrite (get_or_missing _ _ _ Hk). cbn. congruence.
Qed.

(** C5: the implied probability stored for a side is [1 / coeff] when the
    coefficient is not zero and [None] when it is; [2.0] gives [0.5], [0]
    gives [None], and so does a coefficient absent from the payload, which
    the parser reads as [0.0]. *)
Theorem implied_probability :
  (forall (odds_data : BO3BettingOdds.t) (match_id : uuid),
      let fields := to_betting_odds_dict odds_data match_id in
      let c1 := BO3BettingTeam.coeff (BO3BettingOdds.team_1 odds_data) in
      let c2 := BO3BettingTeam.coeff (BO3BettingOdds.team_2 odds_data) in
      getitem fields "team1_implied_prob"
      = Ok (if (c1 =? 0)%float then PNone else PFloat (1 / c1)%float) /\
      getitem fields "team2_implied_prob"
      = Ok (if (c2 =? 0)%float then PNone else PFloat (1 / c2)%float)) /\
  implied_prob 2%float = PFloat 0.5%float /\
  implied_prob 0%float = PNone /\
  (forall (team_data : pyval) (t : BO3BettingTeam.t),
      dict_lookup "coeff" (entries team_data) = None ->
      parse_betting_team team_data = Ok (Some t) ->
      implied_prob (BO3BettingTeam.coeff t) = PNone).
Proof.
  split; [|split; [reflexivity|split; [reflexivity|]]].
  - intros odds_data match_id. cbv zeta. split.
    + unfold getitem. cbn. unfold implied_prob, truthy.
      destruct (_ =? _)%float; reflexivity.
    + unfold getitem. cbn. unfold implied_prob, truthy.
      destruct (_ =? _)%float; reflexivity.
  - intros team_data t Hk Hp.
    destruct (parse_betting_team_Some _ _ Hp) as (Hc & _).
    rewrite (float_default_missing _ _ _ Hk Hc). reflexivity.
Qed.

Lemma parse_betting_team_defaults (team_data : pyval) (t : BO3BettingTeam.t) :
  parse_betting_team team_data = Ok (Some t) ->
  betting_team_defaults (entries team_data) t.
Proof.
  intros H. destruct (parse_betting_team_Some _ _ H) as (H1 & H2 & H3 & H4).
  repeat split; intros Hk.
  - exact (float_default_missing _ _ _ Hk H1).
  - exact (int_default_missing _ _ _ Hk H2).
  - exact (float_default_missing _ _ _ Hk H3).
  - exact (float_default_missing _ _ _ Hk H4).
Qed.

(** C9: in an accepted AI prediction or betting-odds payload an absent
    numeric field becomes [0] or [0.0] in the record; an absent optional
    field of a team, a tournament or a match stays [None]. *)
Theorem absent_field_defaults :
  (forall (prediction_data : pyval) (p : BO3AIPrediction.t),
      parse_ai_prediction prediction_data = Ok (Some p) ->
      let d := entries prediction_data in
      let sd := entries (get d "prediction_scores_data") in
      let scores := BO3AIPrediction.prediction_scores_data p in
      (dict_lookup "prediction_team1_score" d = None ->
       BO3AIPrediction.prediction_team1_score p = 0) /\
      (dict_lookup "prediction_team2_score" d = None ->
       BO3AIPrediction.prediction_team2_score p = 0) /\
      (dict_lookup "prediction_winner_team_id" d = None ->
       BO3AIPrediction.prediction_winner_team_id p = 0) /\
      (dict_lookup "predicted_score" sd = None ->
       BO3PredictionScoresData.predicted_score scores = 0%float) /\
      (dict_lookup "overall_proximity_factor" sd = None ->
       BO3PredictionScoresData.overall_proximity_factor scores = 0%float) /\
      (dict_lookup "neighbor_proximity_factor" sd = None ->
       BO3PredictionScoresData.neighbor_proximity_factor scores = 0%float)) /\
  (forall (odds_data : pyval) (o : BO3BettingOdds.t),
      parse_betting_odds odds_data = Ok (Some o) ->
      let d := entries odds_data in
      betting_team_defaults (entries (get d "team_1")) (BO3BettingOdds.team_1 o) /\
      betting_team_defaults (entries (get d "team_2")) (BO3BettingOdds.team_2 o)) /\
  (forall (team_data : pyval) (t : BO3Team.t),
      parse_team team_data = Ok (Some t) ->
      let d := entries team_data in
      (dict_lookup "slug" d = None -> BO3Team.slug t = PNone) /\
      (dict_lookup "country_code" d = None -> BO3Team.country_code t = PNone) /\
      (dict_lookup "logo_url" d = None -> BO3Team.logo_url t = PNone)) /\
  (forall (tournament_data : pyval) (t : BO3Tournament.t),
      parse_tournament tournament_data = Ok (Some t) ->
      let d := entries tournament_data in
      (dict_lookup "slug" d = None -> BO3Tournament.slug t = PNone) /\
      (dict_lookup "tier" d = None -> BO3Tournament.tier t = PNone) /\
      (dict_lookup "tier_rank" d = None -> BO3Tournament.tier_rank t = PNone) /\
      (dict_lookup "prize" d = None -> BO3Tournament.prize t = PNone) /\
      (dict_lookup "discipline_id" d = None ->
       BO3Tournament.discipline_id t = PNone) /\
      (dict_lookup "status" d = None -> BO3Tournament.status t = PNone) /\
      (dict_lookup "start_date" d = None -> BO3Tournament.start_date t = None) /\
      (dict_lookup "end_date" d = None -> BO3Tournament.end_date t = None)) /\
  (forall (match_data : dict) (m : BO3Match.t),
      parse_match match_data = Ok m ->
      (dict_lookup "slug" match_data = None -> BO3Match.slug m = PNone) /\
      (dict_lookup "start_date" match_data = None ->
       BO3Match.start_date m = None) /\
      (dict_lookup "bo_type" match_data = None -> BO3Match.bo_type m = PNone) /\
      (dict_lookup "tier" match_data = None -> BO3Match.tier m = PNone) /\
      (dict_lookup "team1_score" match_data = None ->
       BO3Match.team1_score m = PNone) /\
      (dict_lookup "team2_score" match_data = None ->
       BO3Match.team2_score m = PNone) /\
      (dict_lookup "winner_team_id" match_data = None ->
       BO3Match.winner_team_id m = PNone) /\
      (dict_lookup "loser_team_id" match_data = None ->
       BO3Match.loser_team_id m = PNone)).
Proof.
  split; [|split; [|split; [|split]]].
  - intros prediction_data p H. cbv zeta.
    destruct (parse_ai_prediction_Some _ _ H) as (H1 & H2 & H3 & Hs).
    destruct (parse_prediction_scores_data_Some _ _ Hs) as (S1 & S2 & S3).
    repeat split; intros Hk.
    + exact (int_default_missing _ _ _ Hk H1).
    + exact (int_default_missing _ _ _ Hk H2).
    + exact (int_default_missing _ _ _ Hk H3).
    + exact (float_default_missing _ _ _ Hk S1).
    + exact (float_default_missing _ _ _ Hk S2).
    + exact (float_default_missing _ _ _ Hk S3).
  - intros odds_data o H. cbv zeta.
    destruct (parse_betting_odds_Some _ _ H) as (H1 & H2 & _).
    split; apply parse_betting_team_defaults; assumption.
  - intros team_data t H. cbv zeta.
    destruct (parse_team_Some _ _ H) as (H1 & H2 & H3).
    rewrite H1, H2, H3. repeat split; apply get_missing.
  - intros tournament_data t H. cbv zeta.
    destruct (parse_tournament_Some _ _ H)
      as (H1 & H2 & H3 & H4 & H5 & H6 & H7 & H8).
    rewrite H1, H2, H3, H4, H5, H6, H7, H8.
    repeat split; intros Hk; rewrite (get_missing _ _ Hk); reflexivity.
  - intros match_data m H.
    destruct (parse_match_Ok _ _ H) as (H1 & H2 & H3 & H4 & H5 & H6 & H7 & H8).
    rewrite H1, H2, H3, H4, H5, H6, H7, H8.
    repeat split; intros Hk; rewrite (get_missing _ _ Hk); reflexivity.
Qed.

(* ------------------------------------------------------------------ *)
(** * Dictionaries and rows *)

Lemma lookup_setitem_same (k : string) (v : pyval) (d : dict) :
  dict_lookup k (setitem k v d) = Some v.
Proof.
  induction d as [|[k' v'] d IH]; cbn.
  - rewrite String.eqb_refl. reflexivity.
  - destruct (String.eqb k k') eqn:E; cbn.
    + rewrite String.eqb_refl. reflexivity.
    + rewrite E. exact IH.
Qed.

Lemma lookup_setitem_other (k k' : string) (v : pyval) (d : dict) :
  k <> k' -> dict_lookup k' (setitem k v d) = dict_lookup k' d.
Proof.
  intros Hne. induction d as [|[k0 v0] d IH]; cbn.
  - destruct (String.eqb_spec k' k); [congruence|reflexivity].
  - destruct (String.eqb_spec k k0) as [->|Hk]; cbn.
    + destruct (String.eqb_spec k' k0); [congruence|reflexivity].
    + destruct (String.eqb k' k0); [reflexivity|exact IH].
Qed.

Lemma lookup_set_all_notin (k : string) (vals cols : dict) :
  ~ In k (keys vals) ->
  dict_lookup k (set_all vals cols) = dict_lookup k cols.
Proof.
  forget_conversions.
  revert cols. induction vals as [|[k' v'] vals IH]; intros cols Hn; cbn.
  - reflexivity.
  - cbn in Hn. unfold set_all in IH. rewrite IH by tauto.
    apply lookup_setitem_other. intros ->. tauto.
Qed.

Lemma lookup_set_all_in (k : string) (vals cols : dict) :
  NoDup (keys vals) -> In k (keys vals) ->
  dict_lookup k (set_all vals cols) = dict_lookup k vals.
Proof.
  revert cols. induction vals as [|[k' v'] vals IH]; intros cols Hnd Hin; cbn.
  - destruct Hin.
  - cbn in Hnd. inversion Hnd as [|? ? Hk' Hnd']; subst.
    destruct (String.eqb_spec k k') as [->|Hne].
    + change (dict_lookup k' (set_all vals (setitem k' v' cols)) = Some v').
      rewrite lookup_set_all_notin by assumption.
      apply lookup_setitem_same.
    + destruct Hin as [Heq|Hin]; [cbn in Heq; congruence|].
      apply (IH _ Hnd' Hin).
Qed.

Lemma lookup_In_keys (k : string) (d : dict) :
  In k (keys d) <-> exists v, dict_lookup k d = Some v.
Proof.
  forget_conversions.
  induction d as [|[k' v'] d IH]; cbn.
  - split; [tauto|intros [v H]; discriminate].
  - destruct (String.eqb_spec k k') as [->|Hne].
    + split; eauto.
    + rewrite IH. split; [intros [H|H]; [congruence|exact H]|auto].
Qed.

Lemma lookup_notin_keys (k : string) (d : dict) :
  ~ In k (keys d) <-> dict_lookup k d = None.
Proof.
  rewrite lookup_In_keys. destruct (dict_lookup k d).
  - split; [intros H; exfalso; eauto|discriminate].
  - split; [reflexivity|intros _ [v H]; discriminate].
Qed.

(** A column of a row after [SET]. *)
Lemma column_assign (vals : dict) (r : row) (c : string) :
  NoDup (keys vals) ->
  column (assign vals r) c
  = if String.eqb c "id" then PUuid (row_id r)
    else match dict_lookup c vals with
         | Some v => v
         | None => column r c
         end.
Proof.
  intros Hnd. unfold column, assign. cbn.
  destruct (String.eqb c "id") eqn:E; [reflexivity|].
  unfold get, get_or.
  destruct (dict_lookup c vals) as [v|] eqn:Hc.
  - rewrite lookup_set_all_in; [rewrite Hc; reflexivity|assumption|].
    apply lookup_In_keys. eauto.
  - rewrite lookup_set_all_notin; [reflexivity|].
    apply lookup_notin_keys. assumption.
Qed.

Lemma lookup_app (conds : list (string * pyval)) (l l' : list row) :
  lookup conds (l ++ l') = (lookup conds l ++ lookup conds l').
Proof. apply filter_app. Qed.

Lemma lookup_map_stable (conds : list (string * pyval)) (f : row -> row)
    (rows : list row) :
  (forall r, row_matches conds (f r) = row_matches conds r) ->
  lookup conds (map f rows) = map f (lookup conds rows).
Proof.
  intros Hf. induction rows as [|r rows IH]; cbn; [reflexivity|].
  unfold lookup in *. cbn. rewrite Hf.
  destruct (row_matches conds r); cbn; rewrite IH; reflexivity.
Qed.

Lemma row_matches_id (i : uuid) (r : row) :
  row_matches [("id", PUuid i)] r = Nat.eqb (row_id r) i.
Proof. unfold row_matches. cbn. apply andb_true_r. Qed.

(* ------------------------------------------------------------------ *)
(** * Runs without failures *)

Arguments lookup : simpl never.
Arguments add_row : simpl never.
Arguments update_rows : simpl never.
Arguments row_matches : simpl never.
Arguments assign : simpl never.

(** Unfolding of the session monad down to the statements' effects. *)
Ltac run_session :=
  cbv beta iota zeta delta
    [call with_session try_except bind lift ret raise select_id
     insert_returning_id update_where commit rollback tick
     fuse view durable clean];
  cbn.

(** What [_get_or_create_team_from_model] does when no operation fails. *)
Lemma get_or_create_team_run now team_data d v :
  _get_or_create_team_from_model now team_data (PStr SOURCE_TYPE)
    {| durable := d; view := v; fuse := None |}
  = match lookup (source_key (BO3Team.id team_data)) (teams v) with
    | [] => (Ok (next_id v), clean (add_row Teams (to_team_dict team_data) v))
    | [r] => (Ok (row_id r), {| durable := d; view := v; fuse := None |})
    | _ :: _ :: _ =>
        (Raise MultipleResultsFound, {| durable := d; view := v; fuse := None |})
    end.
Proof.
  unfold _get_or_create_team_from_model, source_key. cbn.
  destruct (lookup _ (teams v)) as [|r [|r' l]]; reflexivity.
Qed.

Lemma get_or_create_tournament_run now tournament_data d v :
  _get_or_create_tournament_from_model now tournament_data (PStr SOURCE_TYPE)
    {| durable := d; view := v; fuse := None |}
  = match lookup (source_key (BO3Tournament.id tournament_data)) (tournaments v) with
    | [] => (Ok (next_id v),
             clean (add_row Tournaments (to_tournament_dict tournament_data) v))
    | [r] => (Ok (row_id r), {| durable := d; view := v; fuse := None |})
    | _ :: _ :: _ =>
        (Raise MultipleResultsFound, {| durable := d; view := v; fuse := None |})
    end.
Proof.
  unfold _get_or_create_tournament_from_model, source_key. cbn.
  destruct (lookup _ (tournaments v)) as [|r [|r' l]]; reflexivity.
Qed.

Lemma save_ai_prediction_run now match_id p d :
  call (save_ai_prediction now match_id p) None d
  = match lookup (prediction_key match_id) (ai_predictions d) with
    | [] => (Ok (next_id d),
             add_row AIPredictions (to_ai_prediction_dict p match_id) d)
    | [r] =>
        (Ok (row_id r),
         update_rows AIPredictions
           (row_matches [("id", PUuid (row_id r))])
           (assign [("prediction_data",
                      get (to_ai_prediction_dict p match_id) "prediction_data");
                    ("source_id", PInt (BO3AIPrediction.id p));
                    ("updated_at", PDatetime now)]) d)
    | _ :: _ :: _ => (Raise MultipleResultsFound, d)
    end.
Proof.
  unfold save_ai_prediction, prediction_key. run_session.
  destruct (lookup _ (ai_predictions d)) as [|r [|r' l]]; try reflexivity.
Qed.

Lemma save_betting_odds_run now match_id o d :
  call (save_betting_odds now match_id o) None d
  = match lookup (odds_key match_id (BO3BettingOdds.provider o))
                 (betting_odds d) with
    | [] => (Ok (next_id d),
             add_row BettingOdds
               (to_betting_odds_dict o match_id
                  ++ [("fetched_at", PDatetime now)]) d)
    | [r] =>
        let fields := to_betting_odds_dict o match_id in
        (Ok (row_id r),
         update_rows BettingOdds
           (row_matches [("id", PUuid (row_id r))])
           (assign [("team1_odds", get fields "team1_odds");
                    ("team2_odds", get fields "team2_odds");
                    ("team1_implied_prob", get fields "team1_implied_prob");
                    ("team2_implied_prob", get fields "team2_implied_prob");
                    ("odds_data", get fields "odds_data");
                    ("updated_at", PDatetime now);
                    ("fetched_at", PDatetime now)]) d)
    | _ :: _ :: _ => (Raise MultipleResultsFound, d)
    end.
Proof.
  unfold save_betting_odds, odds_key. run_session.
  destruct (lookup _ (betting_odds d)) as [|r [|r' l]]; reflexivity.
Qed.

(** The row a get-or-create inserts is the one its key selects. *)
Lemma team_row_matches (z : Z) (i : uuid) (t : BO3Team.t) :
  row_matches (source_key z) {| row_id := i; columns := to_team_dict t |}
  = (BO3Team.id t =? z).
Proof. unfold row_matches. cbn. apply andb_true_r. Qed.

(** C7: two team records with the same source id saved one after the other
    into a store that has no row for that id leave exactly one row, with
    the first record's fields, and both calls return its id; a
    get-or-create that finds the row of its key returns that row's id and
    changes nothing. *)
Theorem team_identity_first_wins :
  (forall (now1 now2 : datetime) (t1 t2 : BO3Team.t) (d : db),
      BO3Team.id t1 = BO3Team.id t2 ->
      lookup (source_key (BO3Team.id t1)) (teams d) = [] ->
      exists (i : uuid) (d1 : db) (r : row),
        call (_get_or_create_team_from_model now1 t1 (PStr SOURCE_TYPE)) None d
        = (Ok i, d1) /\
        call (_get_or_create_team_from_model now2 t2 (PStr SOURCE_TYPE)) None d1
        = (Ok i, d1) /\
        lookup (source_key (BO3Team.id t1)) (teams d1) = [r] /\
        row_id r = i /\
        columns r = to_team_dict t1 /\
        column r "name" = PStr (BO3Team.name t1)) /\
  (forall (now : datetime) (t : BO3Team.t) (d : db) (r : row),
      lookup (source_key (BO3Team.id t)) (teams d) = [r] ->
      call (_get_or_create_team_from_model now t (PStr SOURCE_TYPE)) None d
      = (Ok (row_id r), d)).
Proof.
  split.
  - intros now1 now2 t1 t2 d Hid Hnone.
    exists (next_id d), (add_row Teams (to_team_dict t1) d),
      {| row_id := next_id d; columns := to_team_dict t1 |}.
    assert (Hone : lookup (source_key (BO3Team.id t1))
                     (teams (add_row Teams (to_team_dict t1) d))
                   = [{| row_id := next_id d; columns := to_team_dict t1 |}]).
    { unfold add_row. cbn. rewrite lookup_app, Hnone. unfold lookup. cbn.
      rewrite team_row_matches, Z.eqb_refl. reflexivity. }
    repeat split.
    + unfold call. fold (clean d). unfold clean at 1.
      rewrite get_or_create_team_run, Hnone. reflexivity.
    + unfold call.
      rewrite get_or_create_team_run, <- Hid, Hone. reflexivity.
    + exact Hone.
  - intros now t d r Hone. unfold call.
    rewrite get_or_create_team_run, Hone. reflexivity.
Qed.

(** ** Updating the row a key selects *)

Lemma column_assign_other (vals : dict) (r : row) (c : string) :
  ~ In c (keys vals) -> column (assign vals r) c = column r c.
Proof.
  intros Hn. unfold column, assign. cbn.
  destruct (String.eqb c "id"); [reflexivity|].
  unfold get, get_or. rewrite lookup_set_all_notin by assumption. reflexivity.
Qed.

Lemma row_matches_ext (conds : list (string * pyval)) (r r' : row) :
  (forall c, In c (map fst conds) -> column r' c = column r c) ->
  row_matches conds r' = row_matches conds r.
Proof.
  unfold row_matches. induction conds as [|[c v] conds IH]; intros H; cbn.
  - reflexivity.
  - rewrite (H c) by (left; reflexivity).
    rewrite IH; [reflexivity|]. intros c' Hc'. apply H. right. exact Hc'.
Qed.

Definition disjoint_keys (conds : list (string * pyval)) (vals : dict) : Prop :=
  forall c, In c (map fst conds) -> ~ In c (keys vals).

Lemma lookup_one_matches (conds : list (string * pyval)) (rows : list row)
    (r : row) :
  lookup conds rows = [r] -> In r rows /\ row_matches conds r = true.
Proof.
  intros H. apply filter_In. unfold lookup in H. rewrite H. left. reflexivity.
Qed.

(** An [UPDATE ... WHERE id = i] that leaves the columns of a key alone
    keeps what the key selects, row for row. *)
Lemma lookup_after_update (conds : list (string * pyval)) (vals : dict)
    (i : uuid) (rows : list row) :
  disjoint_keys conds vals ->
  let g := fun r => if row_matches [("id", PUuid i)] r then assign vals r else r in
  lookup conds (map g rows) = map g (lookup conds rows) /\
  map row_id (map g rows) = map row_id rows.
Proof.
  intros Hd g. split.
  - apply lookup_map_stable. intros r. unfold g.
    destruct (row_matches [("id", PUuid i)] r); [|reflexivity].
    apply row_matches_ext. intros c Hc. apply column_assign_other, Hd, Hc.
  - rewrite map_map. apply map_ext. intros r. unfold g.
    destruct (row_matches _ r); reflexivity.
Qed.

Lemma row_matches_own_id (r : row) :
  row_matches [("id", PUuid (row_id r))] r = true.
Proof. rewrite row_matches_id. apply Nat.eqb_refl. Qed.

(** From [(r, d) = (Ok i, d1)], the equations of the two components, with
    the terms as they stand. *)
Ltac split_result H :=
  let H1 := fresh in
  let H2 := fresh in
  pose proof (f_equal fst H) as H1;
  pose proof (f_equal snd H) as H2;
  cbn [fst snd] in H1, H2; clear H;
  try discriminate H1;
  try (injection H1 as <-); subst.

Ltac prove_nodup :=
  repeat (constructor; [cbn; intuition discriminate|]); constructor.

Ltac prove_disjoint :=
  let c := fresh "c" in
  let H := fresh "H" in
  intros c H; cbn in H |- *; intuition (subst; discriminate).

(** ** AI predictions *)

Lemma prediction_row_matches (m : uuid) (i : uuid) (p : BO3AIPrediction.t) :
  row_matches (prediction_key m)
    {| row_id := i; columns := to_ai_prediction_dict p m |} = true.
Proof. unfold row_matches. cbn. rewrite Nat.eqb_refl. reflexivity. Qed.

(** After a save that succeeded, the key of the prediction selects one row:
    the one whose id was returned, holding the saved fields. *)
Lemma save_ai_prediction_resolved now m p d i d1 :
  call (save_ai_prediction now m p) None d = (Ok i, d1) ->
  exists r,
    lookup (prediction_key m) (ai_predictions d1) = [r] /\
    row_id r = i /\
    column r "prediction_data" = get (to_ai_prediction_dict p m) "prediction_data" /\
    column r "source_id" = PInt (BO3AIPrediction.id p) /\
    (lookup (prediction_key m) (ai_predictions d) <> [] ->
     map row_id (ai_predictions d1) = map row_id (ai_predictions d) /\
     column r "updated_at" = PDatetime now).
Proof.
  forget_conversions.
  rewrite save_ai_prediction_run.
  destruct (lookup _ (ai_predictions d)) as [|r0 [|r1 l]] eqn:Hl;
    intros H; split_result H.
  - exists {| row_id := next_id d; columns := to_ai_prediction_dict p m |}.
    unfold add_row. cbn. rewrite lookup_app, Hl. unfold lookup. cbn.
    rewrite prediction_row_matches. repeat split; congruence.
  - set (vals := [("prediction_data", _); ("source_id", _); ("updated_at", _)]).
    exists (assign vals r0).
    unfold update_rows. cbn [ai_predictions table_rows with_rows].
    destruct (lookup_after_update (prediction_key m) vals (row_id r0)
                (ai_predictions d)) as [H1 H2]; [prove_disjoint|].
    cbv zeta in H1, H2. rewrite H1, H2, Hl. cbn [map].
    rewrite row_matches_own_id.
    assert (Hnd : NoDup (keys vals)) by prove_nodup.
    repeat split; try (rewrite column_assign by exact Hnd; reflexivity).
Qed.

(** ** Betting odds *)

Lemma odds_row_matches (m i : uuid) (o : BO3BettingOdds.t) (provider : string)
    (extra : dict) :
  row_matches (odds_key m provider)
    {| row_id := i; columns := to_betting_odds_dict o m ++ extra |}
  = String.eqb (BO3BettingOdds.provider o) provider.
Proof.
  unfold row_matches. cbn. rewrite Nat.eqb_refl. cbn. apply andb_true_r.
Qed.

Lemma odds_key_provider (m : uuid) (provider : string) (r : row) :
  row_matches (odds_key m provider) r = true ->
  column r "provider" = PStr provider.
Proof.
  unfold row_matches, odds_key. cbn [forallb fst snd].
  intros H. apply andb_prop in H as [_ H]. apply andb_prop in H as [_ H].
  apply andb_prop in H as [H _].
  destruct (column r "provider"); cbn in H; try discriminate.
  apply String.eqb_eq in H. congruence.
Qed.

(** After a save that succeeded, the key of the odds selects one row, the
    one whose id was returned, holding the saved fields; what the key of
    another provider selected, it still selects. *)
Lemma save_betting_odds_resolved now m o d i d1 :
  call (save_betting_odds now m o) None d = (Ok i, d1) ->
  let fields := to_betting_odds_dict o m in
  (exists r,
      lookup (odds_key m (BO3BettingOdds.provider o)) (betting_odds d1) = [r] /\
      row_id r = i /\
      column r "team1_odds" = get fields "team1_odds" /\
      column r "team2_odds" = get fields "team2_odds" /\
      column r "team1_implied_prob" = get fields "team1_implied_prob" /\
      column r "team2_implied_prob" = get fields "team2_implied_prob" /\
      column r "odds_data" = get fields "odds_data" /\
      (lookup (odds_key m (BO3BettingOdds.provider o)) (betting_odds d) <> [] ->
       map row_id (betting_odds d1) = map row_id (betting_odds d) /\
       column r "updated_at" = PDatetime now)) /\
  (forall provider r',
      provider <> BO3BettingOdds.provider o ->
      lookup (odds_key m provider) (betting_odds d) = [r'] ->
      exists r'',
        lookup (odds_key m provider) (betting_odds d1) = [r''] /\
        row_id r'' = row_id r').
Proof.
  forget_conversions.
  rewrite save_betting_odds_run. cbv zeta.
  destruct (lookup _ (betting_odds d)) as [|r0 [|r1 l]] eqn:Hl;
    intros H; split_result H.
  - split.
    + eexists. unfold add_row. cbn [betting_odds table_rows with_rows with_next_id].
      rewrite lookup_app, Hl. unfold lookup at 1. cbn [filter app].
      rewrite odds_row_matches, String.eqb_refl.
      repeat split; congruence.
    + intros provider r' Hp Hr'. exists r'.
      unfold add_row. cbn [betting_odds table_rows with_rows with_next_id].
      rewrite lookup_app, Hr'. unfold lookup at 1. cbn [filter app].
      rewrite odds_row_matches.
      destruct (String.eqb_spec (BO3BettingOdds.provider o) provider);
        [congruence|]. split; reflexivity.
  - set (vals := [("team1_odds", _); ("team2_odds", _);
                  ("team1_implied_prob", _); ("team2_implied_prob", _);
                  ("odds_data", _); ("updated_at", _); ("fetched_at", _)]).
    unfold update_rows. cbn [betting_odds table_rows with_rows].
    split.
    + exists (assign vals r0).
      destruct (lookup_after_update
                  (odds_key m (BO3BettingOdds.provider o)) vals (row_id r0)
                  (betting_odds d)) as [H1 H2]; [prove_disjoint|].
      cbv zeta in H1, H2. rewrite H1, H2, Hl. cbn [map].
      rewrite row_matches_own_id.
      assert (Hnd : NoDup (keys vals)) by prove_nodup.
      repeat split; try (rewrite column_assign by exact Hnd; reflexivity).
    + intros provider r' Hp Hr'.
      destruct (lookup_after_update
                  (odds_key m provider) vals (row_id r0)
                  (betting_odds d)) as [H1 _]; [prove_disjoint|].
      cbv zeta in H1. rewrite H1, Hr'. cbn [map].
      eexists. split; [reflexivity|].
      destruct (row_matches _ r'); reflexivity.
Qed.

(** C8: saving an AI prediction again for the same match, or betting odds
    again for the same match and provider, returns the id of the first
    save, adds no row, overwrites the payload columns of that row and
    stamps [updated_at]; odds of two different providers for one match are
    two different rows. *)
Theorem prediction_and_odds_upsert :
  (forall now1 now2 match_id (p p' : BO3AIPrediction.t) d i d1,
      call (save_ai_prediction now1 match_id p) None d = (Ok i, d1) ->
      exists d2 r,
        call (save_ai_prediction now2 match_id p') None d1 = (Ok i, d2) /\
        map row_id (ai_predictions d2) = map row_id (ai_predictions d1) /\
        lookup (prediction_key match_id) (ai_predictions d2) = [r] /\
        row_id r = i /\
        column r "prediction_data"
        = get (to_ai_prediction_dict p' match_id) "prediction_data" /\
        column r "source_id" = PInt (BO3AIPrediction.id p') /\
        column r "updated_at" = PDatetime now2) /\
  (forall now1 now2 match_id (o o' : BO3BettingOdds.t) d i d1,
      BO3BettingOdds.provider o = BO3BettingOdds.provider o' ->
      call (save_betting_odds now1 match_id o) None d = (Ok i, d1) ->
      exists d2 r,
        let fields := to_betting_odds_dict o' match_id in
        call (save_betting_odds now2 match_id o') None d1 = (Ok i, d2) /\
        map row_id (betting_odds d2) = map row_id (betting_odds d1) /\
        lookup (odds_key match_id (BO3BettingOdds.provider o)) (betting_odds d2)
        = [r] /\
        row_id r = i /\
        column r "team1_odds" = get fields "team1_odds" /\
        column r "team2_odds" = get fields "team2_odds" /\
        column r "team1_implied_prob" = get fields "team1_implied_prob" /\
        column r "team2_implied_prob" = get fields "team2_implied_prob" /\
        column r "odds_data" = get fields "odds_data" /\
        column r "updated_at" = PDatetime now2) /\
  (forall now1 now2 match_id (o1 o2 : BO3BettingOdds.t) d i1 d1 i2 d2,
      BO3BettingOdds.provider o1 <> BO3BettingOdds.provider o2 ->
      call (save_betting_odds now1 match_id o1) None d = (Ok i1, d1) ->
      call (save_betting_odds now2 match_id o2) None d1 = (Ok i2, d2) ->
      exists r1 r2,
        lookup (odds_key match_id (BO3BettingOdds.provider o1)) (betting_odds d2)
        = [r1] /\
        lookup (odds_key match_id (BO3BettingOdds.provider o2)) (betting_odds d2)
        = [r2] /\
        row_id r1 = i1 /\ row_id r2 = i2 /\ r1 <> r2).
Proof.
  split; [|split].
  - intros now1 now2 m p p' d i d1 H1.
    destruct (save_ai_prediction_resolved _ _ _ _ _ _ H1)
      as (r1 & Hl1 & Hi1 & _).
    assert (H2 : exists d2,
               call (save_ai_prediction now2 m p') None d1 = (Ok i, d2))
      by (rewrite save_ai_prediction_run, Hl1, Hi1; eauto).
    destruct H2 as [d2 H2].
    destruct (save_ai_prediction_resolved _ _ _ _ _ _ H2)
      as (r2 & Hl2 & Hi2 & Hc1 & Hc2 & Hup).
    destruct Hup as [Hids Hts]; [rewrite Hl1; discriminate|].
    exists d2, r2. repeat split; assumption.
  - intros now1 now2 m o o' d i d1 Hp H1.
    destruct (save_betting_odds_resolved _ _ _ _ _ _ H1)
      as ((r1 & Hl1 & Hi1 & _) & _).
    assert (H2 : exists d2,
               call (save_betting_odds now2 m o') None d1 = (Ok i, d2))
      by (rewrite save_betting_odds_run, <- Hp, Hl1, Hi1; cbv zeta; eauto).
    destruct H2 as [d2 H2].
    destruct (save_betting_odds_resolved _ _ _ _ _ _ H2)
      as ((r2 & Hl2 & Hi2 & Hc1 & Hc2 & Hc3 & Hc4 & Hc5 & Hup) & _).
    rewrite <- Hp in Hl2, Hup.
    destruct Hup as [Hids Hts]; [rewrite Hl1; discriminate|].
    exists d2, r2. cbv zeta. repeat split; assumption.
  - intros now1 now2 m o1 o2 d i1 d1 i2 d2 Hp H1 H2.
    destruct (save_betting_odds_resolved _ _ _ _ _ _ H1)
      as ((r1 & Hl1 & Hi1 & _) & _).
    destruct (save_betting_odds_resolved _ _ _ _ _ _ H2)
      as ((r2 & Hl2 & Hi2 & _) & Hkeep).
    destruct (Hkeep _ _ Hp Hl1) as (r1' & Hl1' & Hi1').
    exists r1', r2. repeat split; try congruence.
    intros ->.
    apply lookup_one_matches in Hl1' as [_ Hm1].
    apply lookup_one_matches in Hl2 as [_ Hm2].
    apply odds_key_provider in Hm1, Hm2. congruence.
Qed.

(** ** [update_match] *)

Arguments recognized : simpl never.

Lemma update_match_step_spec (sc : list (string * sql_expr)) (ps : dict)
    (kv : string * pyval) :
  update_match_step (sc, ps) kv
  = if recognized (fst kv)
    then (sc ++ [(fst kv, Param (fst kv))], setitem (fst kv) (snd kv) ps)
    else (sc, ps).
Proof.
  destruct kv as [key value]. unfold update_match_step, recognized.
  cbn [fst snd].
  destruct (mem key ["team1_score"; "team2_score"; "status";
                     "winner_team_id"; "loser_team_id"]) eqn:E5.
  - replace (mem key _) with true; [reflexivity|].
    symmetry. unfold mem in *. cbn in *.
    repeat (apply orb_prop in E5 as [E5|E5]; [rewrite E5; cbn;
            rewrite ?orb_true_r; reflexivity|]).
    discriminate.
  - unfold mem in *. cbn in *.
    repeat (apply orb_false_elim in E5 as [-> E5]). cbn.
    destruct (String.eqb_spec key "raw_data") as [->|]; reflexivity.
Qed.

Lemma update_match_fold (updates : dict) (sc : list (string * sql_expr))
    (ps : dict) :
  fold_left update_match_step updates (sc, ps)
  = (sc ++ map (fun kv => (fst kv, Param (fst kv))) (applied updates),
     set_all (applied updates) ps).
Proof.
  revert sc ps. induction updates as [|kv updates IH]; intros sc ps.
  - cbn. rewrite app_nil_r. reflexivity.
  - cbn [fold_left]. rewrite update_match_step_spec.
    unfold applied. cbn [filter]. fold (applied updates).
    destruct (recognized (fst kv)); rewrite IH.
    + cbn [map set_all fold_left]. rewrite <- app_assoc. reflexivity.
    + reflexivity.
Qed.

Lemma keys_applied_recognized (updates : dict) (k : string) :
  In k (keys (applied updates)) -> recognized k = true /\ In k (keys updates).
Proof.
  unfold keys, applied. rewrite !in_map_iff.
  intros ([k' v] & <- & Hin). apply filter_In in Hin as [Hin Hr].
  split; [exact Hr|]. exists (k', v). auto.
Qed.

Lemma NoDup_keys_filter (p : string * pyval -> bool) (l : dict) :
  NoDup (keys l) -> NoDup (keys (filter p l)).
Proof.
  unfold keys. induction l as [|kv l IH]; cbn; intros H; [constructor|].
  inversion H as [|? ? Hn Hnd]; subst.
  destruct (p kv); cbn; [constructor|]; auto.
  intros Hin. apply Hn. apply in_map_iff in Hin as (x & Hx & Hin).
  apply filter_In in Hin as [Hin _]. apply in_map_iff. eauto.
Qed.

Lemma lookup_In_NoDup (l : dict) (k : string) (v : pyval) :
  NoDup (keys l) -> In (k, v) l -> dict_lookup k l = Some v.
Proof.
  induction l as [|[k' v'] l IH]; cbn; intros Hnd Hin; [destruct Hin|].
  inversion Hnd as [|? ? Hn Hnd']; subst.
  destruct Hin as [Heq|Hin].
  - injection Heq as -> ->. rewrite String.eqb_refl. reflexivity.
  - destruct (String.eqb_spec k k') as [->|]; [|auto].
    exfalso. apply Hn. apply in_map_iff. exists (k', v). auto.
Qed.

Lemma bind_values_app (a b : list (string * sql_expr)) (params : dict) now :
  bind_values (a ++ b) params now
  = match bind_values a params now, bind_values b params now with
    | Some x, Some y => Some (x ++ y)
    | _, _ => None
    end.
Proof.
  induction a as [|[c e] a IH]; cbn.
  - destruct (bind_values b params now); reflexivity.
  - rewrite IH.
    destruct (match e with Param p => dict_lookup p params
                         | NOW => Some (PDatetime now) end);
      [|reflexivity].
    destruct (bind_values a params now); [|reflexivity].
    destruct (bind_values b params now); reflexivity.
Qed.

Lemma bind_values_params (l : dict) (params : dict) now :
  (forall k v, In (k, v) l -> dict_lookup k params = Some v) ->
  bind_values (map (fun kv => (fst kv, Param (fst kv))) l) params now = Some l.
Proof.
  induction l as [|[k v] l IH]; intros H; cbn; [reflexivity|].
  rewrite (H k v) by (left; reflexivity).
  rewrite IH; [reflexivity|]. intros k' v' Hin. apply H. right. exact Hin.
Qed.

Lemma dict_lookup_app (k : string) (a b : dict) :
  dict_lookup k (a ++ b)
  = match dict_lookup k a with
    | Some v => Some v
    | None => dict_lookup k b
    end.
Proof.
  induction a as [|[k' v'] a IH]; cbn; [reflexivity|].
  destruct (String.eqb k k'); [reflexivity|exact IH].
Qed.

Lemma dict_lookup_applied (k : string) (updates : dict) :
  dict_lookup k (applied updates)
  = if recognized k then dict_lookup k updates else None.
Proof.
  unfold applied. induction updates as [|[k' v'] l IH]; cbn.
  - destruct (recognized k); reflexivity.
  - destruct (recognized k') eqn:Hr'; cbn.
    + destruct (String.eqb_spec k k') as [->|].
      * rewrite Hr'. reflexivity.
      * exact IH.
    + rewrite IH. destruct (String.eqb_spec k k') as [->|]; [|reflexivity].
      rewrite Hr'. reflexivity.
Qed.

(** What [update_match] does when no operation fails, inside a session
    whose view is [v] and as a call of its own. *)
Lemma update_match_session_none now match_id updates d v :
  applied updates = [] ->
  update_match now match_id updates {| durable := d; view := v; fuse := None |}
  = (Ok tt, {| durable := d; view := v; fuse := None |}).
Proof.
  intros Ha. unfold update_match.
  cbv beta iota zeta delta [with_session try_except fuse view durable].
  rewrite update_match_fold, Ha. reflexivity.
Qed.

Lemma update_match_session_some now match_id updates d v :
  NoDup (keys updates) ->
  applied updates <> [] ->
  update_match now match_id updates {| durable := d; view := v; fuse := None |}
  = (Ok tt,
     {| durable := update_rows Matches (row_matches [("id", PUuid match_id)])
                     (assign (applied updates ++ stamps now)) d;
        view := v; fuse := None |}).
Proof.
  intros Hnd Hne. unfold update_match.
  cbv beta iota zeta delta [with_session try_except fuse view durable].
  rewrite update_match_fold.
  cbn [app].
  assert (Hnd' : NoDup (keys (applied updates)))
    by (apply NoDup_keys_filter; exact Hnd).
  set (params := set_all (applied updates) [("match_id", PUuid match_id)]).
  assert (Hvals :
    bind_values
      ((map (fun kv => (fst kv, Param (fst kv))) (applied updates)
          ++ [("updated_at", NOW)]) ++ [("last_fetched_at", NOW)]) params now
    = Some (applied updates ++ stamps now)).
  { rewrite <- app_assoc, bind_values_app, bind_values_params; [reflexivity|].
    intros k v' Hin. unfold params.
    rewrite lookup_set_all_in; [apply lookup_In_NoDup; assumption|assumption|].
    apply in_map_iff. exists (k, v'). auto. }
  assert (Hwhere : bind_where [("id", "match_id")] params
                   = Some [("id", PUuid match_id)]).
  { cbn. unfold params. rewrite lookup_set_all_notin; [reflexivity|].
    intros Hin. apply keys_applied_recognized in Hin as [Hr _]. discriminate. }
  destruct (map _ (applied updates)) as [|c cs] eqn:Hm.
  { apply map_eq_nil in Hm. contradiction. }
  rewrite <- Hm in Hvals |- *. clear c cs Hm.
  cbv beta iota zeta delta [update_where commit bind tick fuse view durable].
  rewrite Hvals, Hwhere. reflexivity.
Qed.

Lemma update_match_run_none now match_id updates d :
  applied updates = [] ->
  call (update_match now match_id updates) None d = (Ok tt, d).
Proof.
  intros Ha. unfold call. rewrite update_match_session_none by exact Ha.
  reflexivity.
Qed.

Lemma update_match_run_some now match_id updates d :
  NoDup (keys updates) ->
  applied updates <> [] ->
  call (update_match now match_id updates) None d
  = (Ok tt,
     update_rows Matches (row_matches [("id", PUuid match_id)])
       (assign (applied updates ++ stamps now)) d).
Proof.
  intros Hnd Hne. unfold call.
  rewrite update_match_session_some by assumption. reflexivity.
Qed.

Lemma mem_keys_lookup (c : string) (d : dict) :
  mem c (keys d) = match dict_lookup c d with Some _ => true | None => false end.
Proof.
  unfold mem, keys. induction d as [|[k v] d IH]; cbn; [reflexivity|].
  destruct (String.eqb c k); [reflexivity|exact IH].
Qed.

Lemma applied_nil_iff (updates : dict) :
  existsb recognized (keys updates) = false <-> applied updates = [].
Proof.
  unfold applied, keys. induction updates as [|[k v] l IH]; cbn.
  - tauto.
  - destruct (recognized k); cbn; [split; discriminate|exact IH].
Qed.

Lemma Forall2_map_r {A B} (R : A -> B -> Prop) (g : A -> B) (l : list A) :
  (forall x, R x (g x)) -> Forall2 R l (map g l).
Proof. intros H. induction l; cbn; constructor; auto. Qed.

Lemma NoDup_applied_stamps now (updates : dict) :
  NoDup (keys updates) -> NoDup (keys (applied updates ++ stamps now)).
Proof.
  intros Hnd. unfold keys. rewrite map_app. apply NoDup_app.
  - apply (NoDup_keys_filter _ _ Hnd).
  - prove_nodup.
  - intros k Hk Hs. apply keys_applied_recognized in Hk as [Hr _].
    cbn in Hs. destruct Hs as [<-|[<-|[]]]; discriminate Hr.
Qed.

(** The value of a column after [update_match] has rewritten the row. *)
Lemma column_after_update_match now (updates : dict) (r : row) (c : string) :
  NoDup (keys updates) ->
  column (assign (applied updates ++ stamps now) r) c
  = if recognized c && mem c (keys updates) then get updates c
    else if mem c ["updated_at"; "last_fetched_at"] then PDatetime now
    else column r c.
Proof.
  intros Hnd. rewrite column_assign by (apply NoDup_applied_stamps, Hnd).
  rewrite dict_lookup_app, dict_lookup_applied, mem_keys_lookup.
  destruct (String.eqb_spec c "id") as [->|Hid]; [reflexivity|].
  unfold get, get_or.
  destruct (recognized c) eqn:Hr; cbn [andb].
  - destruct (dict_lookup c updates) as [v|]; [reflexivity|].
    unfold mem. cbn.
    destruct (String.eqb_spec c "updated_at") as [->|]; [discriminate Hr|].
    destruct (String.eqb_spec c "last_fetched_at") as [->|];
      [discriminate Hr|reflexivity].
  - unfold mem. cbn.
    destruct (String.eqb c "updated_at"); [reflexivity|].
    destruct (String.eqb c "last_fetched_at"); reflexivity.
Qed.

(** C4: [update_match] writes the entries of [updates] whose key is in the
    allow-list and nothing else of [updates]; without such an entry the
    database is unchanged; with one, the rows of that id get the given
    values in those columns, the clock in [updated_at] and
    [last_fetched_at], and keep every other column, and no other row or
    table changes. *)
Theorem update_match_allow_list now match_id (updates : dict) (d : db) :
  NoDup (keys updates) ->
  exists d',
    call (update_match now match_id updates) None d = (Ok tt, d') /\
    teams d' = teams d /\
    tournaments d' = tournaments d /\
    ai_predictions d' = ai_predictions d /\
    betting_odds d' = betting_odds d /\
    next_id d' = next_id d /\
    if existsb recognized (keys updates)
    then Forall2
           (fun r r' =>
              row_id r' = row_id r /\
              if Nat.eqb (row_id r) match_id
              then forall c,
                  column r' c
                  = if recognized c && mem c (keys updates) then get updates c
                    else if mem c ["updated_at"; "last_fetched_at"]
                         then PDatetime now
                         else column r c
              else r' = r)
           (matches d) (matches d')
    else d' = d.
Proof.
  intros Hnd.
  destruct (existsb recognized (keys updates)) eqn:Hex.
  - assert (Hne : applied updates <> []).
    { intros Ha. apply applied_nil_iff in Ha. congruence. }
    eexists. split; [apply update_match_run_some; assumption|].
    unfold update_rows. cbn [teams tournaments ai_predictions betting_odds
                             next_id matches with_rows table_rows].
    repeat (split; [reflexivity|]).
    apply Forall2_map_r. intros r. rewrite row_matches_id.
    destruct (Nat.eqb (row_id r) match_id).
    + split; [reflexivity|]. intros c.
      apply column_after_update_match, Hnd.
    + split; reflexivity.
  - apply applied_nil_iff in Hex. exists d.
    split; [apply update_match_run_none; assumption|]. repeat split.
Qed.

(** ** [save_match] *)

Lemma tournament_row_matches (z : Z) (i : uuid) (t : BO3Tournament.t) :
  row_matches (source_key z) {| row_id := i; columns := to_tournament_dict t |}
  = (BO3Tournament.id t =? z).
Proof. unfold row_matches. cbn. apply andb_true_r. Qed.

Lemma table_rows_add_row_other (t t' : table) (cols : dict) (v : db) :
  t' <> t -> table_rows t' (add_row t cols v) = table_rows t' v.
Proof. destruct t, t'; intros H; try reflexivity; congruence. Qed.

Lemma table_rows_add_row (t : table) (cols : dict) (v : db) :
  table_rows t (add_row t cols v)
  = table_rows t v ++ [{| row_id := next_id v; columns := cols |}].
Proof. destruct t; reflexivity. Qed.

Lemma team_step now (t : BO3Team.t) (v : db) res s' :
  _get_or_create_team_from_model now t (PStr SOURCE_TYPE) (clean v) = (res, s') ->
  match res with
  | Ok i => exists v', s' = clean v' /\ resolved Teams (BO3Team.id t) i v v'
  | Raise _ => s' = clean v
  end.
Proof.
  unfold clean at 1. rewrite get_or_create_team_run.
  destruct (lookup _ (teams v)) as [|r [|r' l]] eqn:Hl; intros H; split_result H.
  - eexists. split; [reflexivity|]. split; [|split].
    + eexists. rewrite table_rows_add_row. cbn [table_rows].
      rewrite lookup_app, Hl. unfold lookup. cbn [filter app].
      rewrite team_row_matches, Z.eqb_refl. split; reflexivity.
    + intros z' r Hr. rewrite table_rows_add_row. cbn [table_rows] in *.
      rewrite lookup_app, Hr. unfold lookup at 1. cbn [filter].
      rewrite team_row_matches.
      destruct (Z.eqb_spec (BO3Team.id t) z') as [<-|]; [congruence|reflexivity].
    + intros t' Ht'. apply table_rows_add_row_other, Ht'.
  - exists v. split; [reflexivity|]. split; [|split]; eauto.
  - reflexivity.
Qed.

Lemma tournament_step now (t : BO3Tournament.t) (v : db) res s' :
  _get_or_create_tournament_from_model now t (PStr SOURCE_TYPE) (clean v)
  = (res, s') ->
  match res with
  | Ok i => exists v', s' = clean v' /\
                       resolved Tournaments (BO3Tournament.id t) i v v'
  | Raise _ => s' = clean v
  end.
Proof.
  unfold clean at 1. rewrite get_or_create_tournament_run.
  destruct (lookup _ (tournaments v)) as [|r [|r' l]] eqn:Hl;
    intros H; split_result H.
  - eexists. split; [reflexivity|]. split; [|split].
    + eexists. rewrite table_rows_add_row. cbn [table_rows].
      rewrite lookup_app, Hl. unfold lookup. cbn [filter app].
      rewrite tournament_row_matches, Z.eqb_refl. split; reflexivity.
    + intros z' r Hr. rewrite table_rows_add_row. cbn [table_rows] in *.
      rewrite lookup_app, Hr. unfold lookup at 1. cbn [filter].
      rewrite tournament_row_matches.
      destruct (Z.eqb_spec (BO3Tournament.id t) z') as [<-|];
        [congruence|reflexivity].
    + intros t' Ht'. apply table_rows_add_row_other, Ht'.
  - exists v. split; [reflexivity|]. split; [|split]; eauto.
  - reflexivity.
Qed.

Lemma save_match_steps now (m : BO3Match.t) :
  save_match now m
  = with_session
      (try_except
         match BO3Match.team1 m, BO3Match.team2 m with
         | Some t1, Some t2 =>
             (team1_id <- _get_or_create_team_from_model now t1 (PStr SOURCE_TYPE) ;;
              team2_id <- _get_or_create_team_from_model now t2 (PStr SOURCE_TYPE) ;;
              tournament_id <- resolve_tournament now (BO3Match.tournament m) ;;
              write_match now m team1_id team2_id tournament_id)%session
         | _, _ => raise (ValueError "Match must have team1 and team2 data")
         end
         reraise).
Proof.
  unfold save_match, write_match, resolve_tournament, reraise.
  destruct (BO3Match.team1 m) eqn:E1, (BO3Match.team2 m) eqn:E2;
  cbv beta iota zeta delta [to_match_dict _team1 _team2 _tournament];
  rewrite ?E1, ?E2; reflexivity.
Qed.

(** ** Stepping through a session *)

Lemma bind_Ok {A B} (m : M A) (k : A -> M B) s a s1 :
  m s = (Ok a, s1) -> bind m k s = k a s1.
Proof. unfold bind. intros ->. reflexivity. Qed.

Lemma bind_inv_Ok {A B} (m : M A) (k : A -> M B) s b s2 :
  bind m k s = (Ok b, s2) ->
  exists a s1, m s = (Ok a, s1) /\ k a s1 = (Ok b, s2).
Proof.
  unfold bind. destruct (m s) as [[a|e] s1]; intros H; [eauto|discriminate].
Qed.

Lemma try_reraise_inv_Ok {A} (m : M A) s a s1 :
  try_except m reraise s = (Ok a, s1) -> m s = (Ok a, s1).
Proof.
  unfold try_except. destruct (m s) as [[a'|e] s']; intros H; [exact H|].
  discriminate H.
Qed.

Lemma try_Ok {A} (m : M A) (h : exn -> M A) s a s1 :
  m s = (Ok a, s1) -> try_except m h s = (Ok a, s1).
Proof. unfold try_except. intros ->. reflexivity. Qed.

Lemma call_with_session_inv {A} (body : M A) (f : option nat) d r d1 :
  call (with_session body) f d = (r, d1) ->
  exists s1, body {| durable := d; view := d; fuse := f |} = (r, s1) /\
             d1 = durable s1.
Proof.
  unfold call, with_session. cbn [durable view fuse].
  destruct (body _) as [r' s1]. intros H. split_result H. eauto.
Qed.

Lemma call_with_session {A} (body : M A) (f : option nat) d r s1 :
  body {| durable := d; view := d; fuse := f |} = (r, s1) ->
  call (with_session body) f d = (r, durable s1).
Proof.
  unfold call, with_session. cbn [durable view fuse]. intros ->. reflexivity.
Qed.

(** ** The match row *)

Lemma NoDup_match_items (m : BO3Match.t) : NoDup (keys (items (to_match_dict m))).
Proof. cbn. prove_nodup. Qed.

Lemma applied_match_items (m : BO3Match.t) :
  applied (items (to_match_dict m)) <> [].
Proof. intros H. vm_compute in H. discriminate H. Qed.

Lemma disjoint_source_key_applied z now (updates : dict) :
  disjoint_keys (source_key z) (applied updates ++ stamps now).
Proof.
  forget_conversions.
  intros c Hc Hin. unfold keys in Hin. rewrite map_app in Hin.
  apply in_app_or in Hin as [Hin|Hin].
  - apply keys_applied_recognized in Hin as [Hr _].
    cbn in Hc. destruct Hc as [<-|[<-|[]]]; discriminate Hr.
  - cbn in Hc, Hin. intuition (subst; discriminate).
Qed.

(** The update of a match that is there: only the [matches] table changes,
    row for row, and every identity key selects the row of the same id. *)
Lemma update_match_post now i (m : BO3Match.t) d v :
  exists d',
    update_match now i (items (to_match_dict m))
      {| durable := d; view := v; fuse := None |}
    = (Ok tt, {| durable := d'; view := v; fuse := None |}) /\
    call (update_match now i (items (to_match_dict m))) None d = (Ok tt, d') /\
    (forall t, t <> Matches -> table_rows t d' = table_rows t d) /\
    next_id d' = next_id d /\
    map row_id (matches d') = map row_id (matches d) /\
    (forall z r, lookup (source_key z) (matches d) = [r] ->
                 exists r', lookup (source_key z) (matches d') = [r'] /\
                            row_id r' = row_id r).
Proof.
  eexists. split; [|split].
  - apply update_match_session_some;
      [apply NoDup_match_items|apply applied_match_items].
  - apply update_match_run_some;
      [apply NoDup_match_items|apply applied_match_items].
  - unfold update_rows. cbn [table_rows with_rows matches next_id].
    split; [|split; [reflexivity|]].
    { intros t Ht. destruct t; try reflexivity. congruence. }
    set (vals := applied (items (to_match_dict m)) ++ stamps now).
    split.
    + apply (lookup_after_update (source_key 0) vals i (matches d)).
      apply disjoint_source_key_applied.
    + intros z r Hr.
      destruct (lookup_after_update (source_key z) vals i (matches d))
        as [H1 _]; [apply disjoint_source_key_applied|].
      cbv zeta in H1. rewrite H1, Hr. cbn [map]. eexists. split; [reflexivity|].
      destruct (row_matches _ r); reflexivity.
Qed.

Lemma match_row_matches (z : Z) (i : uuid) (m : BO3Match.t) a b c now :
  row_matches (source_key z)
    {| row_id := i;
       columns := match_insert_params (PStr SOURCE_TYPE) (PInt (BO3Match.id m))
                    (items (to_match_dict m)) a b c now |}
  = (BO3Match.id m =? z).
Proof. unfold row_matches. cbn. apply andb_true_r. Qed.

Lemma bind_values_match_columns params_st params_id md a b c now :
  bind_values (named match_columns)
    (match_insert_params params_st params_id md a b c now) now
  = Some (match_insert_params params_st params_id md a b c now).
Proof. reflexivity. Qed.

Lemma select_id_run t w params conds d v :
  bind_where w params = Some conds ->
  select_id t w params {| durable := d; view := v; fuse := None |}
  = (scalar_one_or_none (map row_id (lookup conds (table_rows t v))),
     {| durable := d; view := v; fuse := None |}).
Proof.
  intros H. unfold select_id.
  cbv beta iota zeta delta [bind tick fuse view]. rewrite H. reflexivity.
Qed.

(** What [write_match] does when no operation fails. *)
Lemma write_match_run now (m : BO3Match.t) a b c (v : db) :
  write_match now m a b c (clean v)
  = match lookup (source_key (BO3Match.id m)) (matches v) with
    | [] =>
        (Ok (next_id v),
         clean (add_row Matches
                  (match_insert_params (PStr SOURCE_TYPE) (PInt (BO3Match.id m))
                     (items (to_match_dict m)) a b c now) v))
    | [r] =>
        (Ok (row_id r),
         {| durable := update_rows Matches
                         (row_matches [("id", PUuid (row_id r))])
                         (assign (applied (items (to_match_dict m))
                                    ++ stamps now)) v;
            view := v; fuse := None |})
    | _ :: _ :: _ => (Raise MultipleResultsFound, clean v)
    end.
Proof.
  unfold write_match, clean.
  cbv beta iota zeta delta [bind select_id tick fuse view durable ret].
  cbn [bind_where dict_lookup String.eqb Ascii.eqb Bool.eqb source_key
       table_rows scalar_one_or_none map].
  fold (source_key (BO3Match.id m)).
  destruct (lookup _ (matches v)) as [|r [|r' l]]; cbn [map scalar_one_or_none].
  - cbv beta iota zeta delta [insert_returning_id commit bind tick fuse view
                              durable].
    rewrite bind_values_match_columns. reflexivity.
  - rewrite update_match_session_some;
      [reflexivity|apply NoDup_match_items|apply applied_match_items].
  - reflexivity.
Qed.

Lemma resolve_tournament_step now o (v : db) it s' :
  resolve_tournament now o (clean v) = (Ok it, s') ->
  exists v', s' = clean v' /\ tournament_resolved o it v v'.
Proof.
  destruct o as [t|]; cbn [resolve_tournament tournament_resolved].
  - intros H. apply bind_inv_Ok in H as (i & s1 & H1 & H2).
    apply tournament_step in H1 as (v' & -> & Hres).
    unfold ret in H2. split_result H2. eauto.
  - unfold ret. intros H. split_result H. eauto.
Qed.

(** The steps a successful [save_match] went through. *)
Lemma save_match_inv now (m : BO3Match.t) d i d1 :
  call (save_match now m) None d = (Ok i, d1) ->
  exists t1 t2 i1 i2 it v1 v2 v3 s3,
    BO3Match.team1 m = Some t1 /\
    BO3Match.team2 m = Some t2 /\
    resolved Teams (BO3Team.id t1) i1 d v1 /\
    resolved Teams (BO3Team.id t2) i2 v1 v2 /\
    tournament_resolved (BO3Match.tournament m) it v2 v3 /\
    write_match now m i1 i2 it (clean v3) = (Ok i, s3) /\
    d1 = durable s3.
Proof.
  rewrite save_match_steps. intros H.
  apply call_with_session_inv in H as (s1 & H & ->).
  apply try_reraise_inv_Ok in H.
  destruct (BO3Match.team1 m) as [t1|]; [|discriminate H].
  destruct (BO3Match.team2 m) as [t2|]; [|discriminate H].
  apply bind_inv_Ok in H as (i1 & sa & Ha & H).
  apply (team_step now t1 d) in Ha as (v1 & -> & R1).
  apply bind_inv_Ok in H as (i2 & sb & Hb & H).
  apply team_step in Hb as (v2 & -> & R2).
  apply bind_inv_Ok in H as (it & sc & Hc & H).
  apply resolve_tournament_step in Hc as (v3 & -> & R3).
  exists t1, t2, i1, i2, it, v1, v2, v3, s1.
  repeat (split; [first [reflexivity | assumption]|]). reflexivity.
Qed.

Lemma write_match_post now (m : BO3Match.t) a b c (v : db) i s :
  write_match now m a b c (clean v) = (Ok i, s) ->
  (forall t, t <> Matches -> table_rows t (durable s) = table_rows t v) /\
  exists r, lookup (source_key (BO3Match.id m)) (matches (durable s)) = [r] /\
            row_id r = i.
Proof.
  rewrite write_match_run.
  destruct (lookup _ (matches v)) as [|r [|r' l]] eqn:Hl;
    intros H; split_result H; cbn [durable clean].
  - split.
    + intros t Ht. apply table_rows_add_row_other, Ht.
    + eexists. change (matches ?x) with (table_rows Matches x).
      rewrite table_rows_add_row. cbn [table_rows].
      rewrite lookup_app, Hl. unfold lookup. cbn [filter app].
      rewrite match_row_matches, Z.eqb_refl. split; reflexivity.
  - split.
    + intros t Ht. destruct t; try reflexivity. congruence.
    + unfold update_rows. cbn [table_rows with_rows matches].
      destruct (lookup_after_update (source_key (BO3Match.id m))
                  (applied (items (to_match_dict m)) ++ stamps now)
                  (row_id r) (matches v)) as [H1 _];
        [apply disjoint_source_key_applied|].
      cbv zeta in H1. rewrite H1, Hl. cbn [map].
      rewrite row_matches_own_id. eexists. split; reflexivity.
Qed.

Lemma write_match_existing now (m : BO3Match.t) a b c (v : db) r s' :
  lookup (source_key (BO3Match.id m)) (matches v) = [r] ->
  update_match now (row_id r) (items (to_match_dict m)) (clean v) = (Ok tt, s') ->
  write_match now m a b c (clean v) = (Ok (row_id r), s').
Proof.
  intros Hl Hu. unfold write_match.
  erewrite bind_Ok.
  2:{ unfold clean. erewrite select_id_run by reflexivity.
      cbn [table_rows]. fold (source_key (BO3Match.id m)). rewrite Hl.
      reflexivity. }
  cbv beta iota.
  erewrite bind_Ok; [|exact Hu]. reflexivity.
Qed.

(** C1: a second [save_match] of the same match, after one that succeeded,
    finds the teams, the tournament and the match by their identity keys,
    applies [update_match] to the match row and returns the id the first
    call returned; it adds no team, tournament or match row. *)
Theorem save_match_idempotent now1 now2 (m : BO3Match.t) (d : db) i d1 :
  call (save_match now1 m) None d = (Ok i, d1) ->
  exists d2 r1,
    call (save_match now2 m) None d1 = (Ok i, d2) /\
    lookup (source_key (BO3Match.id m)) (matches d1) = [r1] /\
    row_id r1 = i /\
    call (update_match now2 i (items (to_match_dict m))) None d1 = (Ok tt, d2) /\
    teams d2 = teams d1 /\
    tournaments d2 = tournaments d1 /\
    map row_id (matches d2) = map row_id (matches d1) /\
    ai_predictions d2 = ai_predictions d1 /\
    betting_odds d2 = betting_odds d1 /\
    next_id d2 = next_id d1.
Proof.
  intros H.
  apply save_match_inv in H
    as (t1 & t2 & i1 & i2 & it & v1 & v2 & v3 & s3
        & E1 & E2 & R1 & R2 & R3 & Hw & ->).
  apply write_match_post in Hw as (Hother & r1 & Hm & Hi).
  (* what the keys of the teams and of the tournament select in [d1] *)
  destruct R1 as ((ra & Ha & Hia) & _ & _).
  destruct R2 as ((rb & Hb & Hib) & Hkeep2 & Hother2).
  apply Hkeep2 in Ha. cbn [table_rows] in Ha, Hb.
  assert (Ht3 : teams v3 = teams v2).
  { destruct (BO3Match.tournament m); cbn in R3.
    - destruct R3 as (j & _ & _ & _ & Ho). apply (Ho Teams). discriminate.
    - destruct R3 as [_ ->]. reflexivity. }
  assert (Hteams : teams (durable s3) = teams v2).
  { rewrite <- Ht3. apply (Hother Teams). discriminate. }
  assert (Htour : tournaments (durable s3) = tournaments v3).
  { apply (Hother Tournaments). discriminate. }
  destruct (update_match_post now2 i m (durable s3) (durable s3))
    as (d2 & Hu & Hcall & Ho2 & Hn2 & Hids & _).
  exists d2, r1.
  split; [|repeat split; try assumption;
           try (apply (Ho2 Teams) || apply (Ho2 Tournaments)
                || apply (Ho2 AIPredictions) || apply (Ho2 BettingOdds));
           discriminate].
  assert (Hrt : exists it',
             resolve_tournament now2 (BO3Match.tournament m)
               (clean (durable s3))
             = (Ok it', clean (durable s3))).
  { destruct (BO3Match.tournament m) as [t|]; cbn [resolve_tournament].
    - destruct R3 as (j & -> & (rt & Ht & Hit) & _).
      cbn [table_rows] in Ht. exists (Some (row_id rt)).
      erewrite bind_Ok; [reflexivity|]. unfold clean.
      rewrite get_or_create_tournament_run, Htour, Ht. reflexivity.
    - exists None. reflexivity. }
  destruct Hrt as [it' Hrt].
  rewrite save_match_steps, E1, E2.
  erewrite call_with_session; cycle 1.
  { fold (clean (durable s3)).
    apply try_Ok.
    erewrite bind_Ok;
      [|unfold clean; rewrite get_or_create_team_run, Hteams, Ha; reflexivity].
    erewrite bind_Ok;
      [|rewrite get_or_create_team_run, Hteams, Hb; reflexivity].
    erewrite bind_Ok; [|exact Hrt].
    rewrite <- Hi.
    apply write_match_existing; [exact Hm|]. rewrite Hi. exact Hu. }
  rewrite Hi. reflexivity.
Qed.

(** ** Runs under any fault plan *)

Lemma grows_refl d : grows d d.
Proof. repeat split; auto. Qed.

Lemma has_id_app rows rows' i :
  has_id (rows ++ rows') i <-> has_id rows i \/ has_id rows' i.
Proof. unfold has_id. rewrite existsb_app. apply orb_true_iff. Qed.

Lemma resolves_mono rows rows' v :
  (forall i, has_id rows i -> has_id rows' i) ->
  resolves rows v = true -> resolves rows' v = true.
Proof. intros H. destruct v; cbn; auto. apply H. Qed.

Lemma resolves_or_null_mono rows rows' v :
  (forall i, has_id rows i -> has_id rows' i) ->
  resolves_or_null rows v = true -> resolves_or_null rows' v = true.
Proof. intros H. destruct v; cbn; auto. apply H. Qed.

Lemma references_resolve_mono ts ts' us us' r :
  (forall i, has_id ts i -> has_id ts' i) ->
  (forall i, has_id us i -> has_id us' i) ->
  references_resolve ts us r = true -> references_resolve ts' us' r = true.
Proof.
  unfold references_resolve. intros Ht Hu H.
  apply andb_prop in H as [H H3]. apply andb_prop in H as [H1 H2].
  rewrite (resolves_mono _ _ _ Ht H1), (resolves_mono _ _ _ Ht H2),
    (resolves_or_null_mono _ _ _ Hu H3). reflexivity.
Qed.

Lemma integrity_grows d d' :
  grows d d' -> referential_integrity d = true ->
  referential_integrity d' = true.
Proof.
  intros (Hm & Ht & Hu). unfold referential_integrity. rewrite Hm.
  rewrite !forallb_forall. intros H r Hr.
  apply (references_resolve_mono _ _ _ _ _ Ht Hu), H, Hr.
Qed.

Lemma grows_add_team cols d : grows d (add_row Teams cols d).
Proof.
  unfold add_row. repeat split; cbn; auto.
  intros i H. apply has_id_app. auto.
Qed.

Lemma grows_add_tournament cols d : grows d (add_row Tournaments cols d).
Proof.
  unfold add_row. repeat split; cbn; auto.
  intros i H. apply has_id_app. auto.
Qed.

Lemma has_id_lookup conds rows r :
  lookup conds rows = [r] -> has_id rows (row_id r).
Proof.
  intros H. apply lookup_one_matches in H as [Hin _].
  apply existsb_exists. exists r. split; [exact Hin|apply Nat.eqb_refl].
Qed.

Lemma has_id_last rows cols i : has_id (rows ++ [{| row_id := i; columns := cols |}]) i.
Proof. apply has_id_app. right. unfold has_id. cbn. rewrite Nat.eqb_refl. reflexivity. Qed.

(** A get-or-create of a team, from a state with nothing uncommitted: when
    it returns, nothing is uncommitted, rows were only added and the id it
    returns is the key of a team row; when it raises, nothing was
    committed. *)
Lemma team_step_any now (t : BO3Team.t) d f res s' :
  _get_or_create_team_from_model now t (PStr SOURCE_TYPE) (synced d f)
  = (res, s') ->
  match res with
  | Ok i => exists d' f', s' = synced d' f' /\ grows d d' /\ has_id (teams d') i
  | Raise _ => durable s' = d
  end.
Proof.
  unfold _get_or_create_team_from_model, synced. fold (source_key (BO3Team.id t)).
  destruct f as [[|[|[|n]]]|]; run_session;
    try match goal with
        | |- context [lookup ?c (teams d)] =>
            destruct (lookup c (teams d)) as [|r [|r' l]] eqn:Hl
        end;
    cbn; intros H; split_result H; cbn; try reflexivity.
  all: try (exists d; eexists; split; [reflexivity|];
            split; [apply grows_refl|apply (has_id_lookup _ _ _ Hl)]).
  all: eexists; eexists; split; [reflexivity|];
       split; [apply grows_add_team|]; apply has_id_last.
Qed.

Lemma tournament_step_any now (t : BO3Tournament.t) d f res s' :
  _get_or_create_tournament_from_model now t (PStr SOURCE_TYPE) (synced d f)
  = (res, s') ->
  match res with
  | Ok i => exists d' f', s' = synced d' f' /\ grows d d' /\
                          has_id (tournaments d') i
  | Raise _ => durable s' = d
  end.
Proof.
  unfold _get_or_create_tournament_from_model, synced.
  fold (source_key (BO3Tournament.id t)).
  destruct f as [[|[|[|n]]]|]; run_session;
    try match goal with
        | |- context [lookup ?c (tournaments d)] =>
            destruct (lookup c (tournaments d)) as [|r [|r' l]] eqn:Hl
        end;
    cbn; intros H; split_result H; cbn; try reflexivity.
  all: try (exists d; eexists; split; [reflexivity|];
            split; [apply grows_refl|apply (has_id_lookup _ _ _ Hl)]).
  all: eexists; eexists; split; [reflexivity|];
       split; [apply grows_add_tournament|]; apply has_id_last.
Qed.

Lemma bind_inv {A B} (m : M A) (k : A -> M B) s r s2 :
  bind m k s = (r, s2) ->
  (exists a s1, m s = (Ok a, s1) /\ k a s1 = (r, s2)) \/
  (exists e, m s = (Raise e, s2) /\ r = Raise e).
Proof.
  unfold bind. destruct (m s) as [[a|e] s1]; intros H.
  - left. eauto.
  - right. split_result H. eauto.
Qed.

Lemma try_reraise_inv {A} (m : M A) s (r : result A) s2 :
  try_except m reraise s = (r, s2) ->
  exists s1, m s = (r, s1) /\ durable s2 = durable s1.
Proof.
  unfold try_except, reraise. destruct (m s) as [[a|e] s1]; intros H.
  - split_result H. eauto.
  - cbv beta iota zeta delta [bind rollback raise] in H.
    split_result H. eauto.
Qed.

Lemma resolve_tournament_any now o d f res s' :
  resolve_tournament now o (synced d f) = (res, s') ->
  match res with
  | Ok it => exists d' f', s' = synced d' f' /\ grows d d' /\
                           forall j, it = Some j -> has_id (tournaments d') j
  | Raise _ => durable s' = d
  end.
Proof.
  destruct o as [t|]; cbn [resolve_tournament].
  - intros H. apply bind_inv in H as [(i & s1 & H1 & H2)|(e & H1 & ->)].
    + apply tournament_step_any in H1 as (d' & f' & -> & Hg & Hi).
      unfold ret in H2. split_result H2.
      exists d', f'. repeat split; try apply Hg. intros j [= <-]. exact Hi.
    + apply tournament_step_any in H1. exact H1.
  - unfold ret. intros H. split_result H.
    exists d, f. split; [reflexivity|]. split; [apply grows_refl|].
    intros j Hj. discriminate Hj.
Qed.

(** [update_match] leaves the references of every match row alone. *)
Lemma references_after_update_match now (updates : dict) ts us (r : row) :
  references_resolve ts us (assign (applied updates ++ stamps now) r)
  = references_resolve ts us r.
Proof.
  forget_conversions.
  assert (Hk : forall c, In c ["team1_id"; "team2_id"; "tournament_id"] ->
                         ~ In c (keys (applied updates ++ stamps now))).
  { intros c Hc Hin. unfold keys in Hin. rewrite map_app in Hin.
    apply in_app_or in Hin as [Hin|Hin].
    - apply keys_applied_recognized in Hin as [Hr _].
      cbn in Hc. destruct Hc as [<-|[<-|[<-|[]]]]; discriminate Hr.
    - cbn in Hc, Hin. intuition (subst; discriminate). }
  unfold references_resolve.
  rewrite !column_assign_other by (apply Hk; cbn; auto). reflexivity.
Qed.

Lemma integrity_update_match now i (updates : dict) d :
  referential_integrity d = true ->
  referential_integrity
    (update_rows Matches (row_matches [("id", PUuid i)])
       (assign (applied updates ++ stamps now)) d) = true.
Proof.
  unfold referential_integrity, update_rows.
  cbn [table_rows with_rows teams tournaments matches].
  rewrite !forallb_forall. intros H r Hr.
  apply in_map_iff in Hr as (r0 & <- & Hr0).
  destruct (row_matches _ r0); [rewrite references_after_update_match|];
    apply H, Hr0.
Qed.

Lemma has_row_update_match now i j (updates : dict) d :
  has_id (matches d) j ->
  has_id (matches (update_rows Matches (row_matches [("id", PUuid i)])
                     (assign (applied updates ++ stamps now)) d)) j.
Proof.
  unfold has_id, update_rows. cbn [table_rows with_rows matches].
  rewrite !existsb_exists. intros (r & Hr & Hid).
  eexists. split; [apply in_map, Hr|].
  destruct (row_matches _ r); exact Hid.
Qed.

(** [update_match] under any fault plan: the view of the enclosing session
    is untouched, and the durable state is the one before or the one with
    the update applied; it is the latter when the call returns and some
    entry is applied. *)
Lemma update_match_any now i (updates : dict) d v f r s' :
  NoDup (keys updates) ->
  update_match now i updates {| durable := d; view := v; fuse := f |} = (r, s') ->
  view s' = v /\
  (durable s' = d \/
   durable s' = update_rows Matches (row_matches [("id", PUuid i)])
                  (assign (applied updates ++ stamps now)) d).
Proof.
  intros Hnd. unfold update_match.
  cbv beta iota zeta delta [with_session try_except fuse view durable].
  rewrite update_match_fold. cbn [app].
  destruct (applied updates) as [|kv l] eqn:Ha.
  { cbn. intros H. split_result H. auto. }
  rewrite <- Ha. 
  assert (Hnd' : NoDup (keys (applied updates)))
    by (apply NoDup_keys_filter; exact Hnd).
  set (params := set_all (applied updates) [("match_id", PUuid i)]).
  assert (Hvals :
    bind_values
      ((map (fun kv => (fst kv, Param (fst kv))) (applied updates)
          ++ [("updated_at", NOW)]) ++ [("last_fetched_at", NOW)]) params now
    = Some (applied updates ++ stamps now)).
  { rewrite <- app_assoc, bind_values_app, bind_values_params; [reflexivity|].
    intros k v' Hin. unfold params.
    rewrite lookup_set_all_in; [apply lookup_In_NoDup; assumption|assumption|].
    apply in_map_iff. exists (k, v'). auto. }
  assert (Hwhere : bind_where [("id", "match_id")] params
                   = Some [("id", PUuid i)]).
  { cbn. unfold params. rewrite lookup_set_all_notin; [reflexivity|].
    intros Hin. apply keys_applied_recognized in Hin as [Hr _]. discriminate. }
  destruct (map _ (applied updates)) as [|c cs] eqn:Hm.
  { apply map_eq_nil in Hm. rewrite Hm in Ha. discriminate Ha. }
  rewrite <- Hm in Hvals |- *. clear c cs Hm.
  cbv beta iota zeta delta [update_where commit bind tick rollback raise
                            fuse view durable].
  destruct f as [[|[|n]]|]; cbv beta iota; rewrite ?Hvals, ?Hwhere;
    cbv beta iota zeta delta [fuse view durable];
    intros H; split_result H; cbn [view durable]; auto.
Qed.

Lemma integrity_add_match st sid md a b c now d :
  referential_integrity d = true ->
  has_id (teams d) a -> has_id (teams d) b ->
  (forall j, c = Some j -> has_id (tournaments d) j) ->
  referential_integrity
    (add_row Matches (match_insert_params st sid md a b c now) d) = true.
Proof.
  intros Hd Ha Hb Hc. unfold referential_integrity, add_row in *.
  cbn [table_rows with_rows with_next_id teams tournaments matches].
  rewrite forallb_app, Hd. cbn [forallb andb]. rewrite andb_true_r.
  unfold references_resolve, column. cbn.
  unfold has_id in Ha, Hb. rewrite Ha, Hb. cbn.
  destruct c as [j|]; [apply (Hc j eq_refl)|reflexivity].
Qed.

Lemma select_id_any (t : table) (w : where_clause) (params : dict)
    (conds : list (string * pyval)) (d v : db) (f : option nat)
    (r : result (option uuid)) (s' : session) :
  bind_where w params = Some conds ->
  select_id t w params {| durable := d; view := v; fuse := f |} = (r, s') ->
  exists f', s' = {| durable := d; view := v; fuse := f' |} /\
             (r = Raise DBError \/
              r = scalar_one_or_none
                    (map row_id (lookup conds (table_rows t v)))).
Proof.
  intros Hw. unfold select_id.
  cbv beta iota zeta delta [bind tick fuse view durable]. rewrite Hw.
  destruct f as [[|n]|]; intros H; split_result H; eauto.
Qed.

(** The write of the match row under any fault plan, from a state with
    nothing uncommitted in which the resolved ids are those of rows:
    integrity is kept whatever happens, and a returned id is the id of a
    match row. *)
Lemma write_match_any now (m : BO3Match.t) a b c d f r s' :
  referential_integrity d = true ->
  has_id (teams d) a -> has_id (teams d) b ->
  (forall j, c = Some j -> has_id (tournaments d) j) ->
  write_match now m a b c (synced d f) = (r, s') ->
  referential_integrity (durable s') = true /\
  (forall i, r = Ok i -> has_id (matches (durable s')) i).
Proof.
  intros Hd Ha Hb Hc. unfold write_match, synced.
  intros H. apply bind_inv in H as [(ex & s1 & Hs & H)|(e & Hs & ->)];
    (eapply select_id_any in Hs as (f1 & -> & Hex); [|reflexivity]).
  2:{ split; [exact Hd|intros i Hi; discriminate Hi]. }
  destruct Hex as [Hex|Hex]; [discriminate Hex|].
  cbn [table_rows] in Hex. fold (synced d f1) in H.
  destruct ex as [match_id|].
  - apply bind_inv in H as [(u & s2 & Hu & H)|(e & Hu & ->)];
      apply update_match_any in Hu as [_ Hu]; try apply NoDup_match_items.
    + unfold ret in H. split_result H.
      assert (Hrow : has_id (matches d) match_id).
      { destruct (lookup _ (matches d)) as [|r0 [|r1 l]] eqn:Hl;
          try discriminate Hex.
        cbn in Hex. injection Hex as Hex. subst match_id.
        apply (has_id_lookup _ _ _ Hl). }
      destruct Hu as [-> | ->].
      * split; [exact Hd|]. intros i [= <-]. exact Hrow.
      * split; [apply integrity_update_match, Hd|].
        intros i [= <-]. apply has_row_update_match, Hrow.
    + split; [|intros i Hi; discriminate Hi].
      destruct Hu as [-> | ->];
        [exact Hd|apply integrity_update_match, Hd].
  - revert H.
    cbv beta iota zeta delta [insert_returning_id commit bind tick ret synced
                              fuse view durable].
    rewrite bind_values_match_columns.
    destruct f1 as [[|[|n]]|]; cbv beta iota zeta delta [fuse view durable];
      intros H; split_result H; cbn [durable];
      try (split; [exact Hd|intros i Hi; discriminate Hi]).
    all: split; [apply integrity_add_match; assumption|].
    all: intros i [= <-]; unfold add_row;
         cbn [table_rows with_rows with_next_id matches]; apply has_id_last.
Qed.

(** C3: [save_match] keeps referential integrity, whether it returns or
    fails and wherever it fails: the team and tournament rows a match row
    refers to are committed before the match row is written.  The id it
    returns is that of a match row whose references resolve. *)
Theorem save_match_referential_integrity now (m : BO3Match.t)
    (fault : option nat) (d : db) (r : result uuid) (d1 : db) :
  referential_integrity d = true ->
  call (save_match now m) fault d = (r, d1) ->
  referential_integrity d1 = true /\
  (forall i, r = Ok i ->
             exists row, In row (matches d1) /\ row_id row = i /\
                         references_resolve (teams d1) (tournaments d1) row
                         = true).
Proof.
  intros Hd H.
  assert (Hmain : referential_integrity d1 = true /\
                  (forall i, r = Ok i -> has_id (matches d1) i)).
  { rewrite save_match_steps in H.
    apply call_with_session_inv in H as (s1 & H & ->).
    apply try_reraise_inv in H as (s2 & H & ->).
    fold (synced d fault) in H.
    destruct (BO3Match.team1 m) as [t1|].
    2:{ unfold raise in H. split_result H.
        split; [exact Hd|intros i Hi; discriminate Hi]. }
    destruct (BO3Match.team2 m) as [t2|].
    2:{ unfold raise in H. split_result H.
        split; [exact Hd|intros i Hi; discriminate Hi]. }
    apply bind_inv in H as [(i1 & sa & Ha & H)|(e & Ha & ->)];
      apply team_step_any in Ha.
    2:{ rewrite Ha. split; [exact Hd|intros i Hi; discriminate Hi]. }
    destruct Ha as (da & fa & -> & Ga & Ia).
    pose proof (integrity_grows _ _ Ga Hd) as Hda.
    apply bind_inv in H as [(i2 & sb & Hb & H)|(e & Hb & ->)];
      apply team_step_any in Hb.
    2:{ rewrite Hb. split; [exact Hda|intros i Hi; discriminate Hi]. }
    destruct Hb as (db & fb & -> & Gb & Ib).
    pose proof (integrity_grows _ _ Gb Hda) as Hdb.
    apply bind_inv in H as [(it & sc & Hc & H)|(e & Hc & ->)];
      apply resolve_tournament_any in Hc.
    2:{ rewrite Hc. split; [exact Hdb|intros i Hi; discriminate Hi]. }
    destruct Hc as (dc & fc & -> & Gc & Ic).
    pose proof (integrity_grows _ _ Gc Hdb) as Hdc.
    apply (write_match_any now m i1 i2 it dc fc r s2); try assumption.
    - apply Gc, Gb, Ia.
    - apply Gc, Ib. }
  destruct Hmain as [Hri Hrow]. split; [exact Hri|].
  intros i Hi. apply Hrow in Hi. apply existsb_exists in Hi as (row & Hin & Hid).
  exists row. split; [exact Hin|]. split; [apply Nat.eqb_eq, Hid|].
  unfold referential_integrity in Hri. rewrite forallb_forall in Hri.
  apply Hri, Hin.
Qed.

(** ** The failure path of [save_match] *)

(** C2 (not met by the code): when the [INSERT INTO matches] of a new match
    fails, the error reaches the caller, but the two team rows and the
    tournament row the call had created stay committed:
    [_get_or_create_team_from_model] and
    [_get_or_create_tournament_from_model] commit on their own, and the
    rollback of [save_match] only undoes what came after. *)
Theorem save_match_failure_keeps_rows now :
  exists d',
    call (save_match now example_match) (Some 10%nat) empty_db
    = (Raise DBError, d') /\
    map (fun r => column r "source_id") (teams d') = [PInt 736; PInt 7631] /\
    map (fun r => column r "source_id") (tournaments d') = [PInt 3578] /\
    matches d' = [] /\
    d' <> empty_db.
Proof.
  eexists. split; [vm_compute; reflexivity|].
  repeat split. discriminate.
Qed.

(* ------------------------------------------------------------------ *)
(** * Further properties of the parser *)

Lemma replace_Z_suffix (s : string) :
  endswith_Z s = true ->
  replace_Z (drop_last s ++ "+00:00")%string = replace_Z s.
Proof.
  induction s as [|c s IH]; [discriminate|].
  destruct s as [|c' s'].
  - cbn. intros ->. reflexivity.
  - intros H. change (endswith_Z (String c' s') = true) in H.
    change (drop_last (String c (String c' s')))
      with (String c (drop_last (String c' s'))).
    cbn [append replace_Z]. rewrite (IH H). reflexivity.
Qed.

(** X1: [parse_datetime] gives [None] for every value that is not a
    non-empty text, and for a non-empty text what [fromisoformat] makes of
    it with every [Z] replaced by [+00:00]: the special case of a trailing
    [Z] changes nothing. *)
Theorem parse_datetime_spec (date_str : pyval) :
  parse_datetime date_str
  = match date_str with
    | PStr (String c s) => fromisoformat (replace_Z (String c s))
    | _ => None
    end.
Proof.
  unfold parse_datetime.
  destruct date_str as [| | | |s| | | |]; try reflexivity;
    try (destruct (negb _); reflexivity).
  destruct s as [|c s]; [reflexivity|].
  cbn [truthy negb].
  destruct (endswith_Z (String c s)) eqn:E; [|reflexivity].
  rewrite (replace_Z_suffix _ E). reflexivity.
Qed.

(** X2: an AI prediction without usable scores data, and betting odds
    without a provider or without the data of one of the two teams, are
    absent ([None]), whatever else the payload holds. *)
Theorem nested_objects_rejected :
  (forall prediction_data : pyval,
      let scores := get (entries prediction_data) "prediction_scores_data" in
      truthy scores = false \/ isinstance_dict scores = false ->
      parse_ai_prediction prediction_data = Ok None) /\
  (forall odds_data : pyval,
      let d := entries odds_data in
      truthy (get d "provider") = false \/
      truthy (get d "team_1") = false \/
      truthy (get d "team_2") = false ->
      parse_betting_odds odds_data = Ok None).
Proof.
  split.
  - intros prediction_data scores H. unfold parse_ai_prediction.
    destruct (negb (truthy prediction_data) || _); [reflexivity|].
    cbv zeta. destruct (negb (truthy (get _ "id")) || _); [reflexivity|].
    fold scores. unfold parse_prediction_scores_data.
    destruct H as [-> | ->]; cbn [negb orb rbind]; [reflexivity|].
    rewrite orb_true_r. reflexivity.
  - intros odds_data d H. unfold parse_betting_odds.
    destruct (negb (truthy odds_data) || _); [reflexivity|].
    cbv zeta. fold d.
    destruct H as [-> | [-> | ->]]; cbn [negb orb];
      rewrite ?orb_true_r; reflexivity.
Qed.

Lemma parse_match_nested (match_data : dict) (m : BO3Match.t) :
  parse_match match_data = Ok m ->
  py_int (get match_data "id") = Ok (BO3Match.id m) /\
  BO3Match.raw_data m = Some match_data /\
  match_data <> [] /\
  parse_team (get match_data "team1") = Ok (BO3Match.team1 m) /\
  parse_team (get match_data "team2") = Ok (BO3Match.team2 m) /\
  parse_tournament (get match_data "tournament") = Ok (BO3Match.tournament m) /\
  BO3Match.team1_id m = match BO3Match.team1 m with
                        | Some t => PInt (BO3Team.id t)
                        | None => get match_data "team1_id"
                        end /\
  BO3Match.team2_id m = match BO3Match.team2 m with
                        | Some t => PInt (BO3Team.id t)
                        | None => get match_data "team2_id"
                        end /\
  BO3Match.tournament_id m = match BO3Match.tournament m with
                             | Some t => PInt (BO3Tournament.id t)
                             | None => get match_data "tournament_id"
                             end.
Proof.
  unfold parse_match.
  destruct (negb (truthy (get match_data "id"))) eqn:Hid; [discriminate|].
  intros H. invert_rbind H. injection H as <-.
  assert (Hne : match_data <> []).
  { intros ->. discriminate Hid. }
  repeat split; try assumption; reflexivity.
Qed.

(** X3: what [parse_match] returns keeps the payload it was given, and the
    mutation stores that payload as [raw_data]; the nested team and
    tournament objects are those [parse_team] and [parse_tournament] make,
    their ids take precedence over [team1_id], [team2_id] and
    [tournament_id] of the payload, and the ids the mutation derives again
    are the ones [parse_match] had already put in the model. *)
Theorem parse_match_keeps_payload (match_data : dict) (m : BO3Match.t) :
  parse_match match_data = Ok m ->
  py_int (get match_data "id") = Ok (BO3Match.id m) /\
  BO3Match.raw_data m = Some match_data /\
  get (items (to_match_dict m)) "raw_data" = PDict match_data /\
  parse_team (get match_data "team1") = Ok (BO3Match.team1 m) /\
  parse_team (get match_data "team2") = Ok (BO3Match.team2 m) /\
  parse_tournament (get match_data "tournament") = Ok (BO3Match.tournament m) /\
  (forall t, BO3Match.team1 m = Some t ->
             BO3Match.team1_id m = PInt (BO3Team.id t)) /\
  (forall t, BO3Match.team2 m = Some t ->
             BO3Match.team2_id m = PInt (BO3Team.id t)) /\
  (forall t, BO3Match.tournament m = Some t ->
             BO3Match.tournament_id m = PInt (BO3Tournament.id t)) /\
  get (items (to_match_dict m)) "_team1_id" = BO3Match.team1_id m /\
  get (items (to_match_dict m)) "_team2_id" = BO3Match.team2_id m /\
  get (items (to_match_dict m)) "_tournament_id" = BO3Match.tournament_id m.
Proof.
  intros H.
  apply parse_match_nested in H
    as (Hid & Hraw & Hne & Ht1 & Ht2 & Hto & H1 & H2 & H3).
  repeat split; try assumption.
  - unfold to_match_dict, get, get_or. cbn. rewrite Hraw.
    destruct match_data; [contradiction|reflexivity].
  - intros t Ht. rewrite H1, Ht. reflexivity.
  - intros t Ht. rewrite H2, Ht. reflexivity.
  - intros t Ht. rewrite H3, Ht. reflexivity.
  - unfold to_match_dict, get, get_or. cbn. rewrite H1.
    destruct (BO3Match.team1 m); reflexivity.
  - unfold to_match_dict, get, get_or. cbn. rewrite H2.
    destruct (BO3Match.team2 m); reflexivity.
  - unfold to_match_dict, get, get_or. cbn. rewrite H3.
    destruct (BO3Match.tournament m); reflexivity.
Qed.

(** X4: a nested team whose id is a text [int()] rejects makes
    [parse_match] raise [ValueError]: such a payload is not parsed into a
    match without the team. *)
Theorem parse_match_nested_id_rejected (match_data team_data : dict)
    (s : string) :
  truthy (get match_data "id") = true ->
  get match_data "team1" = PDict team_data ->
  get team_data "id" = PStr s ->
  s <> "" ->
  int_of_str s = None ->
  truthy (get team_data "name") = true ->
  exists msg, parse_match match_data = Raise (ValueError msg).
Proof.
  intros Hid Ht Hs Hne Hint Hname. unfold parse_match.
  rewrite Hid, Ht. cbn [negb].
  assert (Hteam : exists msg, parse_team (PDict team_data)
                              = Raise (ValueError msg)).
  { unfold parse_team. cbn [entries isinstance_dict negb orb].
    destruct team_data as [|e l]; [discriminate Hs|].
    cbn [truthy negb orb]. rewrite Hs, Hname.
    destruct s as [|c s']; [contradiction|].
    cbn [truthy negb orb py_int]. rewrite Hint. cbn. eauto. }
  destruct Hteam as [msg ->]. exists msg. reflexivity.
Qed.

(* ------------------------------------------------------------------ *)
(** * The committed state under any fault plan *)

Lemma team_step_created now (t : BO3Team.t) d f res s' :
  _get_or_create_team_from_model now t (PStr SOURCE_TYPE) (synced d f)
  = (res, s') ->
  match res with
  | Ok i => exists d' f', s' = synced d' f' /\
                          created Teams (BO3Team.id t) (to_team_dict t) d d' /\
                          has_id (teams d') i
  | Raise _ => durable s' = d
  end.
Proof.
  unfold _get_or_create_team_from_model, synced, created.
  fold (source_key (BO3Team.id t)).
  destruct f as [[|[|[|n]]]|]; run_session;
    try match goal with
        | |- context [lookup ?c (teams d)] =>
            destruct (lookup c (teams d)) as [|r [|r' l]] eqn:Hl
        end;
    cbn; intros H; split_result H; cbn; try reflexivity.
  all: try (exists d; eexists; split; [reflexivity|];
            split; [left; reflexivity|apply (has_id_lookup _ _ _ Hl)]).
  all: eexists; eexists; split; [reflexivity|];
       split; [right; split; [exact Hl|reflexivity]|]; apply has_id_last.
Qed.

Lemma tournament_step_created now (t : BO3Tournament.t) d f res s' :
  _get_or_create_tournament_from_model now t (PStr SOURCE_TYPE) (synced d f)
  = (res, s') ->
  match res with
  | Ok i => exists d' f',
      s' = synced d' f' /\
      created Tournaments (BO3Tournament.id t) (to_tournament_dict t) d d'
  | Raise _ => durable s' = d
  end.
Proof.
  unfold _get_or_create_tournament_from_model, synced, created.
  fold (source_key (BO3Tournament.id t)).
  destruct f as [[|[|[|n]]]|]; run_session;
    try match goal with
        | |- context [lookup ?c (tournaments d)] =>
            destruct (lookup c (tournaments d)) as [|r [|r' l]] eqn:Hl
        end;
    cbn; intros H; split_result H; cbn; try reflexivity.
  all: try (exists d; eexists; split; [reflexivity|]; left; reflexivity).
  all: eexists; eexists; split; [reflexivity|];
       right; split; [exact Hl|reflexivity].
Qed.

Lemma resolve_tournament_created now o d f res s' :
  resolve_tournament now o (synced d f) = (res, s') ->
  match res with
  | Ok _ => exists d' f', s' = synced d' f' /\ tournament_created o d d'
  | Raise _ => durable s' = d
  end.
Proof.
  destruct o as [t|]; cbn [resolve_tournament tournament_created].
  - intros H. apply bind_inv in H as [(i & s1 & H1 & H2)|(e & H1 & ->)].
    + apply tournament_step_created in H1 as (d' & f' & -> & Hc).
      unfold ret in H2. split_result H2. eauto.
    + apply tournament_step_created in H1. exact H1.
  - unfold ret. intros H. split_result H. eauto.
Qed.

(** [update_match] with something to apply, under any fault plan: the
    update is committed when the call returns and nothing is when it
    raises. *)
Lemma update_match_outcome now i (updates : dict) d v f r s' :
  NoDup (keys updates) ->
  applied updates <> [] ->
  update_match now i updates {| durable := d; view := v; fuse := f |} = (r, s') ->
  (r = Ok tt /\
   durable s' = update_rows Matches (row_matches [("id", PUuid i)])
                  (assign (applied updates ++ stamps now)) d) \/
  (exists e, r = Raise e /\ durable s' = d).
Proof.
  intros Hnd Hne. unfold update_match.
  cbv beta iota zeta delta [with_session try_except fuse view durable].
  rewrite update_match_fold. cbn [app].
  destruct (applied updates) as [|kv l] eqn:Ha; [contradiction|].
  rewrite <- Ha.
  assert (Hnd' : NoDup (keys (applied updates)))
    by (apply NoDup_keys_filter; exact Hnd).
  set (params := set_all (applied updates) [("match_id", PUuid i)]).
  assert (Hvals :
    bind_values
      ((map (fun kv => (fst kv, Param (fst kv))) (applied updates)
          ++ [("updated_at", NOW)]) ++ [("last_fetched_at", NOW)]) params now
    = Some (applied updates ++ stamps now)).
  { rewrite <- app_assoc, bind_values_app, bind_values_params; [reflexivity|].
    intros k v' Hin. unfold params.
    rewrite lookup_set_all_in; [apply lookup_In_NoDup; assumption|assumption|].
    apply in_map_iff. exists (k, v'). auto. }
  assert (Hwhere : bind_where [("id", "match_id")] params
                   = Some [("id", PUuid i)]).
  { cbn. unfold params. rewrite lookup_set_all_notin; [reflexivity|].
    intros Hin. apply keys_applied_recognized in Hin as [Hr _]. discriminate. }
  destruct (map _ (applied updates)) as [|c cs] eqn:Hm.
  { apply map_eq_nil in Hm. rewrite Hm in Ha. discriminate Ha. }
  rewrite <- Hm in Hvals |- *. clear c cs Hm.
  cbv beta iota zeta delta [update_where commit bind tick rollback raise
                            fuse view durable].
  destruct f as [[|[|n]]|]; cbv beta iota; rewrite ?Hvals, ?Hwhere;
    cbv beta iota zeta delta [fuse view durable];
    intros H; split_result H; cbn [view durable];
    first [left; split; reflexivity | right; eexists; split; reflexivity].
Qed.

Lemma write_match_written now (m : BO3Match.t) a b c d f r s' :
  write_match now m a b c (synced d f) = (r, s') ->
  written now m r d (durable s').
Proof.
  unfold write_match, synced, written.
  intros H. apply bind_inv in H as [(ex & s1 & Hs & H)|(e & Hs & ->)];
    (eapply select_id_any in Hs as (f1 & -> & Hex); [|reflexivity]).
  2:{ left. eauto. }
  destruct Hex as [Hex|Hex]; [discriminate Hex|].
  cbn [table_rows] in Hex. fold (source_key (BO3Match.id m)) in Hex.
  destruct (lookup (source_key (BO3Match.id m)) (matches d))
    as [|r0 [|r1 l]] eqn:Hl; try discriminate Hex;
    cbn in Hex; injection Hex as ->.
  - revert H.
    cbv beta iota zeta delta [insert_returning_id commit bind tick ret synced
                              fuse view durable].
    rewrite bind_values_match_columns.
    destruct f1 as [[|[|n]]|]; cbv beta iota zeta delta [fuse view durable];
      intros H; split_result H; cbn [durable];
      first [left; eexists; split; reflexivity
            |right; right; exists a, b, c; repeat split; reflexivity].
  - apply bind_inv in H as [(u & s2 & Hu & H)|(e & Hu & ->)];
      apply update_match_outcome in Hu as [[Hr Hu]|(e' & Hr & Hu)];
      try apply NoDup_match_items; try apply applied_match_items;
      try discriminate Hr.
    + unfold ret in H. split_result H. right. left. exists r0. auto.
    + left. exists e. rewrite Hu. auto.
Qed.

(** [save_match] under any fault plan: without both teams nothing happens;
    with them, the committed state goes through the get-or-create of the
    first team, of the second team and of the tournament, each of which may
    add its row, and then through the write of the match row. *)
Lemma save_match_any now (m : BO3Match.t) fault d r d1 :
  call (save_match now m) fault d = (r, d1) ->
  ((BO3Match.team1 m = None \/ BO3Match.team2 m = None) /\
   r = Raise (ValueError "Match must have team1 and team2 data") /\ d1 = d) \/
  exists t1 t2 da db dc,
    BO3Match.team1 m = Some t1 /\
    BO3Match.team2 m = Some t2 /\
    created Teams (BO3Team.id t1) (to_team_dict t1) d da /\
    created Teams (BO3Team.id t2) (to_team_dict t2) da db /\
    tournament_created (BO3Match.tournament m) db dc /\
    written now m r dc d1.
Proof.
  intros H. rewrite save_match_steps in H.
  apply call_with_session_inv in H as (s1 & H & ->).
  apply try_reraise_inv in H as (s2 & H & ->).
  fold (synced d fault) in H.
  destruct (BO3Match.team1 m) as [t1|].
  2:{ unfold raise in H. split_result H. left. auto. }
  destruct (BO3Match.team2 m) as [t2|].
  2:{ unfold raise in H. split_result H. left. auto. }
  right. exists t1, t2.
  assert (Hsame : forall t z cols x, created t z cols x x) by (left; reflexivity).
  assert (Htsame : forall o x, tournament_created o x x).
  { intros [t|] x; cbn; [left|]; reflexivity. }
  apply bind_inv in H as [(i1 & sa & Ha & H)|(e & Ha & ->)];
    apply team_step_created in Ha.
  2:{ exists d, d, d. rewrite Ha. repeat split; auto. left. eauto. }
  destruct Ha as (da & fa & -> & Ca & _). exists da.
  apply bind_inv in H as [(i2 & sb & Hb & H)|(e & Hb & ->)];
    apply team_step_created in Hb.
  2:{ exists da, da. rewrite Hb. repeat split; auto. left. eauto. }
  destruct Hb as (db & fb & -> & Cb & _). exists db.
  apply bind_inv in H as [(it & sc & Hc & H)|(e & Hc & ->)];
    apply resolve_tournament_created in Hc.
  2:{ exists db. rewrite Hc. repeat split; auto. left. eauto. }
  destruct Hc as (dc & fc & -> & Cc). exists dc.
  repeat split; auto.
  apply (write_match_written now m i1 i2 it dc fc r s2 H).
Qed.

Lemma created_frame (t : table) (z : Z) (cols : dict) (d d' : db) :
  created t z cols d d' ->
  (forall t', t' <> t -> table_rows t' d' = table_rows t' d) /\
  (exists l, table_rows t d' = table_rows t d ++ l /\
             (List.length l <= 1)%nat) /\
  (next_id d <= next_id d')%nat.
Proof.
  intros [-> | [_ ->]].
  - split; [reflexivity|]. split; [|lia].
    exists []. rewrite app_nil_r. split; [reflexivity|cbn; lia].
  - split; [intros t' Ht; apply table_rows_add_row_other, Ht|].
    split; [|unfold add_row; destruct t; cbn; lia].
    eexists. rewrite table_rows_add_row. split; [reflexivity|cbn; lia].
Qed.

Lemma tournament_created_frame (o : option BO3Tournament.t) (d d' : db) :
  tournament_created o d d' ->
  (forall t', t' <> Tournaments -> table_rows t' d' = table_rows t' d) /\
  (exists l, tournaments d' = tournaments d ++ l /\
             (List.length l <= 1)%nat) /\
  (next_id d <= next_id d')%nat.
Proof.
  destruct o as [t|]; cbn [tournament_created].
  - apply created_frame.
  - intros ->. split; [reflexivity|]. split; [|lia].
    exists []. rewrite app_nil_r. split; [reflexivity|cbn; lia].
Qed.

Lemma row_ids_update_rows (i : uuid) (vals : dict) (rows : list row) :
  map row_id
    (map (fun r => if row_matches [("id", PUuid i)] r then assign vals r else r)
       rows)
  = map row_id rows.
Proof.
  rewrite map_map. apply map_ext. intros r.
  destruct (row_matches _ r); reflexivity.
Qed.

Lemma written_frame now (m : BO3Match.t) (r : result uuid) (d d' : db) :
  written now m r d d' ->
  (forall t, t <> Matches -> table_rows t d' = table_rows t d) /\
  (exists l, map row_id (matches d') = map row_id (matches d) ++ l /\
             (List.length l <= 1)%nat) /\
  (forall e, r = Raise e -> d' = d) /\
  (next_id d <= next_id d')%nat.
Proof.
  intros [(e & -> & ->)|[(r0 & -> & Hl & ->)|(a & b & c & -> & Hl & ->)]].
  - split; [reflexivity|]. split; [|split; [reflexivity|lia]].
    exists []. rewrite app_nil_r. split; [reflexivity|cbn; lia].
  - split; [intros t Ht; destruct t; try contradiction; reflexivity|].
    split; [|split; [intros e He; discriminate He|unfold update_rows; cbn; lia]].
    exists []. rewrite app_nil_r. split; [|cbn; lia].
    unfold update_rows. cbn [table_rows with_rows matches].
    apply row_ids_update_rows.
  - split; [intros t Ht; apply table_rows_add_row_other, Ht|].
    split; [|split; [intros e He; discriminate He|unfold add_row; cbn; lia]].
    eexists. change (matches ?x) with (table_rows Matches x).
    rewrite table_rows_add_row, map_app. split; [reflexivity|cbn; lia].
Qed.

(** X5: a match without one of its two team objects is refused before
    any statement is sent to the database, whatever the fault plan; a
    payload that gives a team by [team1_id] only is parsed, and then
    refused in this way. *)
Theorem save_match_requires_team_objects :
  (forall now (m : BO3Match.t) (fault : option nat) (d : db),
      BO3Match.team1 m = None \/ BO3Match.team2 m = None ->
      call (save_match now m) fault d
      = (Raise (ValueError "Match must have team1 and team2 data"), d)) /\
  (forall now (match_data : dict) (m : BO3Match.t) (fault : option nat)
          (d : db),
      parse_match match_data = Ok m ->
      truthy (get match_data "team1") = false \/
      truthy (get match_data "team2") = false ->
      call (save_match now m) fault d
      = (Raise (ValueError "Match must have team1 and team2 data"), d)).
Proof.
  assert (H1 : forall now (m : BO3Match.t) (fault : option nat) (d : db),
             BO3Match.team1 m = None \/ BO3Match.team2 m = None ->
             call (save_match now m) fault d
             = (Raise (ValueError "Match must have team1 and team2 data"), d)).
  { intros now m fault d H. rewrite save_match_steps.
    erewrite call_with_session; cycle 1.
    - unfold try_except, reraise, raise.
      destruct H as [-> | ->]; [|destruct (BO3Match.team1 m)];
        cbv beta iota zeta delta [bind rollback raise]; reflexivity.
    - reflexivity. }
  split; [exact H1|].
  intros now match_data m fault d Hp H. apply H1.
  apply parse_match_nested in Hp as (_ & _ & _ & Ht1 & Ht2 & _).
  unfold parse_team in Ht1, Ht2.
  destruct H as [H | H]; [left|right]; rewrite H in *; cbn in *; congruence.
Qed.

(** X6: whatever [save_match] does and wherever it fails, it leaves the AI
    predictions and the betting odds as they were, adds at most two team
    rows and one tournament row after the existing ones, and keeps the
    primary keys of the match rows, with at most one added; when it raises,
    the match rows are as they were. *)
Theorem save_match_frame now (m : BO3Match.t) (fault : option nat) (d : db)
    (r : result uuid) (d1 : db) :
  call (save_match now m) fault d = (r, d1) ->
  ai_predictions d1 = ai_predictions d /\
  betting_odds d1 = betting_odds d /\
  (exists ts, teams d1 = teams d ++ ts /\ (List.length ts <= 2)%nat) /\
  (exists us, tournaments d1 = tournaments d ++ us /\
              (List.length us <= 1)%nat) /\
  (exists ms, map row_id (matches d1) = map row_id (matches d) ++ ms /\
              (List.length ms <= 1)%nat) /\
  (forall e, r = Raise e -> matches d1 = matches d).
Proof.
  intros H. apply save_match_any in H
    as [(_ & _ & ->)|(t1 & t2 & da & db & dc & _ & _ & Ca & Cb & Cc & Cw)].
  { repeat split; try reflexivity.
    1-3: exists []; rewrite app_nil_r; split; [reflexivity|cbn; lia]. }
  apply created_frame in Ca as (Fa & (la & Ta & La) & _).
  apply created_frame in Cb as (Fb & (lb & Tb & Lb) & _).
  apply tournament_created_frame in Cc as (Fc & (lc & Tc & Lc) & _).
  apply written_frame in Cw as (Fw & (lw & Tw & Lw) & Rw & _).
  assert (Hother : forall t, t <> Teams -> t <> Tournaments -> t <> Matches ->
                             table_rows t d1 = table_rows t d).
  { intros t H1 H2 H3.
    rewrite Fw, Fc, Fb, Fa by assumption. reflexivity. }
  split; [apply (Hother AIPredictions); discriminate|].
  split; [apply (Hother BettingOdds); discriminate|].
  split.
  { exists (la ++ lb).
    change (table_rows Teams d1 = table_rows Teams d ++ la ++ lb /\
            (List.length (la ++ lb) <= 2)%nat).
    rewrite Fw, Fc by discriminate. cbn [table_rows] in *.
    rewrite Tb, Ta, <- app_assoc, length_app. split; [reflexivity|lia]. }
  split.
  { exists lc.
    change (table_rows Tournaments d1 = table_rows Tournaments d ++ lc /\
            (List.length lc <= 1)%nat).
    rewrite Fw by discriminate. cbn [table_rows]. rewrite Tc.
    change (tournaments db) with (table_rows Tournaments db).
    rewrite Fb, Fa by discriminate. split; [reflexivity|exact Lc]. }
  assert (Hm : matches dc = matches d).
  { change (table_rows Matches dc = table_rows Matches d).
    rewrite Fc, Fb, Fa by discriminate. reflexivity. }
  split.
  { exists lw. rewrite Tw, Hm. split; [reflexivity|exact Lw]. }
  intros e He. rewrite (Rw e He). exact Hm.
Qed.

(** ** Operations with one commit *)

Lemma update_match_raise now i (updates : dict) d v f e s' :
  NoDup (keys updates) ->
  update_match now i updates {| durable := d; view := v; fuse := f |}
  = (Raise e, s') ->
  durable s' = d.
Proof.
  intros Hnd H.
  destruct (applied updates) as [|kv l] eqn:Ha.
  - revert H. unfold update_match.
    cbv beta iota zeta delta [with_session try_except fuse view durable].
    rewrite update_match_fold, Ha. cbn. discriminate.
  - apply update_match_outcome in H as [[H _]|(e' & _ & H)];
      [discriminate H|exact H|exact Hnd|].
    rewrite Ha. discriminate.
Qed.

(** X7: [save_ai_prediction], [save_betting_odds] and [update_match] are
    atomic: when one of them raises, wherever the failure occurred, the
    committed state is the one before the call. *)
Theorem single_commit_operations_atomic :
  (forall now match_id (p : BO3AIPrediction.t) (fault : option nat) (d : db)
          (e : exn) (d1 : db),
      call (save_ai_prediction now match_id p) fault d = (Raise e, d1) ->
      d1 = d) /\
  (forall now match_id (o : BO3BettingOdds.t) (fault : option nat) (d : db)
          (e : exn) (d1 : db),
      call (save_betting_odds now match_id o) fault d = (Raise e, d1) ->
      d1 = d) /\
  (forall now match_id (updates : dict) (fault : option nat) (d : db)
          (e : exn) (d1 : db),
      NoDup (keys updates) ->
      call (update_match now match_id updates) fault d = (Raise e, d1) ->
      d1 = d).
Proof.
  split; [|split].
  - intros now match_id p fault d e d1. unfold save_ai_prediction.
    destruct fault as [[|[|[|n]]]|]; run_session;
      try match goal with
          | |- context [lookup ?c (ai_predictions d)] =>
              destruct (lookup c (ai_predictions d)) as [|r [|r' l]]
          end;
      cbn; intros H; split_result H; reflexivity.
  - intros now match_id o fault d e d1. unfold save_betting_odds.
    destruct fault as [[|[|[|n]]]|]; run_session;
      try match goal with
          | |- context [lookup ?c (betting_odds d)] =>
              destruct (lookup c (betting_odds d)) as [|r [|r' l]]
          end;
      cbn; intros H; split_result H; reflexivity.
  - intros now match_id updates fault d e d1 Hnd H.
    unfold call in H.
    destruct (update_match now match_id updates _) as [r s] eqn:Hu.
    split_result H. apply (update_match_raise _ _ _ _ _ _ _ _ Hnd Hu).
Qed.

(** ** Identity keys stay unique *)

Lemma unique_keys_add (rows : list row) (z : Z) (i : uuid) (cols : dict) :
  (forall z', row_matches (source_key z') {| row_id := i; columns := cols |}
              = (z =? z')) ->
  unique_keys rows ->
  lookup (source_key z) rows = [] ->
  unique_keys (rows ++ [{| row_id := i; columns := cols |}]).
Proof.
  intros Hm Hu Hl z'. rewrite lookup_app, length_app.
  unfold lookup at 2. cbn [filter]. rewrite Hm.
  destruct (z =? z') eqn:E.
  - apply Z.eqb_eq in E. subst z'. rewrite Hl. cbn. lia.
  - cbn [List.length]. rewrite Nat.add_0_r. apply Hu.
Qed.

Lemma unique_keys_update_match now (i : uuid) (updates : dict)
    (rows : list row) :
  unique_keys rows ->
  unique_keys
    (map (fun r => if row_matches [("id", PUuid i)] r
                   then assign (applied updates ++ stamps now) r else r) rows).
Proof.
  intros Hu z.
  destruct (lookup_after_update (source_key z)
              (applied updates ++ stamps now) i rows
              (disjoint_source_key_applied z now updates)) as [-> _].
  rewrite length_map. apply Hu.
Qed.

Lemma keyed_created_team (t : BO3Team.t) (d d' : db) :
  keyed d -> created Teams (BO3Team.id t) (to_team_dict t) d d' -> keyed d'.
Proof.
  intros (Ht & Hu & Hm) [-> | [Hl ->]]; [repeat split; assumption|].
  unfold keyed, add_row. cbn [table_rows with_rows with_next_id teams
                             tournaments matches] in *.
  repeat split; try assumption.
  apply unique_keys_add with (z := BO3Team.id t); try assumption.
  intros z'. apply team_row_matches.
Qed.

Lemma keyed_created_tournament (o : option BO3Tournament.t) (d d' : db) :
  keyed d -> tournament_created o d d' -> keyed d'.
Proof.
  destruct o as [t|]; cbn [tournament_created]; [|intros H ->; exact H].
  intros (Ht & Hu & Hm) [-> | [Hl ->]]; [repeat split; assumption|].
  unfold keyed, add_row. cbn [table_rows with_rows with_next_id teams
                             tournaments matches] in *.
  repeat split; try assumption.
  apply unique_keys_add with (z := BO3Tournament.id t); try assumption.
  intros z'. apply tournament_row_matches.
Qed.

Lemma keyed_written now (m : BO3Match.t) (r : result uuid) (d d' : db) :
  keyed d -> written now m r d d' -> keyed d'.
Proof.
  intros (Ht & Hu & Hm)
    [(e & _ & ->)|[(r0 & _ & Hl & ->)|(a & b & c & _ & Hl & ->)]].
  - repeat split; assumption.
  - unfold keyed, update_rows. cbn [table_rows with_rows teams tournaments
                                    matches].
    repeat split; try assumption. apply unique_keys_update_match, Hm.
  - unfold keyed, add_row. cbn [table_rows with_rows with_next_id teams
                               tournaments matches] in *.
    repeat split; try assumption.
    apply unique_keys_add with (z := BO3Match.id m); try assumption.
    intros z'. apply match_row_matches.
Qed.

(** X8: [save_match] never gives two rows of [teams], of [tournaments] or
    of [matches] the same identity key: from a state in which the keys are
    unique it leaves one in which they are, whether it returns or fails and
    wherever it fails. *)
Theorem save_match_keeps_keys_unique now (m : BO3Match.t)
    (fault : option nat) (d : db) (r : result uuid) (d1 : db) :
  keyed d ->
  call (save_match now m) fault d = (r, d1) ->
  keyed d1.
Proof.
  intros Hk H. apply save_match_any in H
    as [(_ & _ & ->)|(t1 & t2 & da & db & dc & _ & _ & Ca & Cb & Cc & Cw)];
    [exact Hk|].
  eapply keyed_written; [|exact Cw].
  eapply keyed_created_tournament; [|exact Cc].
  eapply keyed_created_team; [|exact Cb].
  eapply keyed_created_team; [|exact Ca].
  exact Hk.
Qed.

Lemma unique_keys_lookup (rows : list row) (z : Z) :
  unique_keys rows ->
  lookup (source_key z) rows = [] \/
  exists r, lookup (source_key z) rows = [r].
Proof.
  intros Hu. specialize (Hu z).
  destruct (lookup (source_key z) rows) as [|r [|r' l]]; eauto.
  cbn in Hu. lia.
Qed.

Lemma team_step_succeeds now (t : BO3Team.t) (v : db) :
  unique_keys (teams v) ->
  exists i v',
    _get_or_create_team_from_model now t (PStr SOURCE_TYPE) (clean v)
    = (Ok i, clean v') /\
    created Teams (BO3Team.id t) (to_team_dict t) v v'.
Proof.
  intros Hu. unfold clean at 1. rewrite get_or_create_team_run.
  destruct (unique_keys_lookup _ (BO3Team.id t) Hu) as [Hl | [r Hl]];
    rewrite Hl.
  - eexists. eexists. split; [reflexivity|]. right. auto.
  - exists (row_id r), v. split; [reflexivity|]. left. reflexivity.
Qed.

Lemma tournament_step_succeeds now (o : option BO3Tournament.t) (v : db) :
  unique_keys (tournaments v) ->
  exists it v',
    resolve_tournament now o (clean v) = (Ok it, clean v') /\
    tournament_created o v v'.
Proof.
  intros Hu. destruct o as [t|]; cbn [resolve_tournament tournament_created].
  - unfold bind, clean at 1. rewrite get_or_create_tournament_run.
    destruct (unique_keys_lookup _ (BO3Tournament.id t) Hu) as [Hl | [r Hl]];
      rewrite Hl.
    + eexists. eexists. split; [reflexivity|]. right. auto.
    + exists (Some (row_id r)), v. split; [reflexivity|]. left. reflexivity.
  - exists None, v. split; reflexivity.
Qed.

(** X9: in a run without failures, [save_match] returns an id for every
    match that has both team objects, from every state in which the
    identity keys are unique. *)
Theorem save_match_succeeds now (m : BO3Match.t) (t1 t2 : BO3Team.t)
    (d : db) :
  keyed d ->
  BO3Match.team1 m = Some t1 ->
  BO3Match.team2 m = Some t2 ->
  exists i d1, call (save_match now m) None d = (Ok i, d1).
Proof.
  intros Hk H1 H2. rewrite save_match_steps, H1, H2.
  destruct (team_step_succeeds now t1 d) as (i1 & da & Ha & Ca);
    [apply Hk|].
  pose proof (keyed_created_team _ _ _ Hk Ca) as Hka.
  destruct (team_step_succeeds now t2 da) as (i2 & db & Hb & Cb);
    [apply Hka|].
  pose proof (keyed_created_team _ _ _ Hka Cb) as Hkb.
  destruct (tournament_step_succeeds now (BO3Match.tournament m) db)
    as (it & dc & Hc & Cc); [apply Hkb|].
  pose proof (keyed_created_tournament _ _ _ Hkb Cc) as Hkc.
  assert (Hw : exists i s, write_match now m i1 i2 it (clean dc) = (Ok i, s)).
  { rewrite write_match_run.
    destruct (unique_keys_lookup _ (BO3Match.id m) (proj2 (proj2 Hkc)))
      as [Hl | [r Hl]]; rewrite Hl; eauto. }
  destruct Hw as (i & s & Hw). exists i, (durable s).
  apply call_with_session. apply try_Ok.
  fold (clean d).
  rewrite (bind_Ok _ _ _ _ _ Ha), (bind_Ok _ _ _ _ _ Hb),
    (bind_Ok _ _ _ _ _ Hc).
  exact Hw.
Qed.

(** ** The match row after [save_match] *)

Lemma save_match_resolved now (m : BO3Match.t) (d : db) (i : uuid) (d1 : db) :
  call (save_match now m) None d = (Ok i, d1) ->
  exists t1 t2 r1 r2 it v3 s3,
    BO3Match.team1 m = Some t1 /\
    BO3Match.team2 m = Some t2 /\
    lookup (source_key (BO3Team.id t1)) (teams d1) = [r1] /\
    lookup (source_key (BO3Team.id t2)) (teams d1) = [r2] /\
    match BO3Match.tournament m with
    | Some t =>
        exists r3, it = Some (row_id r3) /\
                   lookup (source_key (BO3Tournament.id t)) (tournaments d1)
                   = [r3]
    | None => it = None
    end /\
    matches v3 = matches d /\
    write_match now m (row_id r1) (row_id r2) it (clean v3) = (Ok i, s3) /\
    d1 = durable s3.
Proof.
  intros H. apply save_match_inv in H
    as (t1 & t2 & i1 & i2 & it & v1 & v2 & v3 & s3 & H1 & H2 & Ra & Rb & Rc
        & Hw & ->).
  destruct Ra as ((r1 & La & <-) & _ & Fa).
  destruct Rb as ((r2 & Lb & <-) & Kb & Fb).
  cbn [table_rows] in *.
  apply Kb in La.
  pose proof (write_match_post _ _ _ _ _ _ _ _ Hw) as [Fw _].
  assert (Hc : teams v3 = teams v2 /\ matches v3 = matches v2 /\
               match BO3Match.tournament m with
               | Some t =>
                   exists r3, it = Some (row_id r3) /\
                              lookup (source_key (BO3Tournament.id t))
                                (tournaments v3) = [r3]
               | None => it = None
               end).
  { destruct (BO3Match.tournament m) as [t|]; cbn [tournament_resolved] in Rc.
    - destruct Rc as (j & -> & (r3 & Lc & <-) & _ & Fc).
      split; [apply (Fc Teams); discriminate|].
      split; [apply (Fc Matches); discriminate|].
      exists r3. auto.
    - destruct Rc as [-> ->]. auto. }
  destruct Hc as (Tc & Mc & Hc).
  exists t1, t2, r1, r2, it, v3, s3.
  split; [exact H1|]. split; [exact H2|].
  change (teams (durable s3)) with (table_rows Teams (durable s3)).
  change (tournaments (durable s3)) with (table_rows Tournaments (durable s3)).
  rewrite !Fw by discriminate. cbn [table_rows]. rewrite Tc.
  split; [exact La|]. split; [exact Lb|]. split; [exact Hc|].
  split; [|split; [exact Hw|reflexivity]].
  rewrite Mc. change (table_rows Matches v2 = table_rows Matches d).
  rewrite Fb, Fa by discriminate. reflexivity.
Qed.

(** X10: a match saved for the first time gets one new row, after the
    existing ones.  Its team references are the primary keys of the rows
    the identity keys of its two teams select, and its tournament reference
    that of the row the tournament's key selects, or NULL without a
    tournament; it holds the fields of the match, with the upstream winner
    and loser ids as text, and [last_fetched_at] is the time of the call. *)
Theorem save_match_new_row now (m : BO3Match.t) (d : db) (i : uuid) (d1 : db) :
  lookup (source_key (BO3Match.id m)) (matches d) = [] ->
  call (save_match now m) None d = (Ok i, d1) ->
  exists t1 t2 r r1 r2,
    BO3Match.team1 m = Some t1 /\
    BO3Match.team2 m = Some t2 /\
    matches d1 = matches d ++ [r] /\
    row_id r = i /\
    lookup (source_key (BO3Team.id t1)) (teams d1) = [r1] /\
    lookup (source_key (BO3Team.id t2)) (teams d1) = [r2] /\
    column r "team1_id" = PUuid (row_id r1) /\
    column r "team2_id" = PUuid (row_id r2) /\
    match BO3Match.tournament m with
    | Some t =>
        exists r3,
          lookup (source_key (BO3Tournament.id t)) (tournaments d1) = [r3] /\
          column r "tournament_id" = PUuid (row_id r3)
    | None => column r "tournament_id" = PNone
    end /\
    column r "source_type" = PStr SOURCE_TYPE /\
    column r "source_id" = PInt (BO3Match.id m) /\
    column r "slug" = BO3Match.slug m /\
    column r "status" = PStr (BO3Match.status m) /\
    column r "start_date" = opt_datetime (BO3Match.start_date m) /\
    column r "winner_team_id" = str_or_none (BO3Match.winner_team_id m) /\
    column r "loser_team_id" = str_or_none (BO3Match.loser_team_id m) /\
    column r "raw_data" = get (items (to_match_dict m)) "raw_data" /\
    column r "last_fetched_at" = PDatetime now.
Proof.
  intros Hnew H. apply save_match_resolved in H
    as (t1 & t2 & r1 & r2 & it & v3 & s3 & H1 & H2 & L1 & L2 & Ht & Hm
        & Hw & ->).
  rewrite write_match_run, Hm, Hnew in Hw. split_result Hw.
  cbn [durable clean] in *.
  exists t1, t2.
  eexists. exists r1, r2.
  split; [exact H1|]. split; [exact H2|].
  split.
  { change (matches ?x) with (table_rows Matches x).
    rewrite table_rows_add_row. cbn [table_rows]. rewrite Hm. reflexivity. }
  split; [reflexivity|].
  split; [exact L1|]. split; [exact L2|].
  split; [reflexivity|]. split; [reflexivity|].
  split.
  { destruct (BO3Match.tournament m) as [t|].
    - destruct Ht as (r3 & -> & L3). exists r3. split; [exact L3|reflexivity].
    - subst it. reflexivity. }
  repeat split; reflexivity.
Qed.


Lemma get_team_by_source_run (source_type : string) (source_id : Z) (d : db) :
  call (get_team_by_source source_type source_id) None d
  = (scalar_one_or_none
       (map row_id
          (lookup [("source_type", PStr source_type);
                   ("source_id", PInt source_id)] (teams d))), d).
Proof.
  unfold get_team_by_source. run_session.
  destruct (scalar_one_or_none _); reflexivity.
Qed.

(** X12: after [save_match] has returned, [get_team_by_source] finds a
    team for each of the two teams of the match and changes nothing; for a
    match saved for the first time, these are the teams its row refers
    to. *)
Theorem get_team_by_source_after_save now (m : BO3Match.t)
    (t1 t2 : BO3Team.t) (d : db) (i : uuid) (d1 : db) :
  BO3Match.team1 m = Some t1 ->
  BO3Match.team2 m = Some t2 ->
  call (save_match now m) None d = (Ok i, d1) ->
  exists j1 j2,
    call (get_team_by_source SOURCE_TYPE (BO3Team.id t1)) None d1
    = (Ok (Some j1), d1) /\
    call (get_team_by_source SOURCE_TYPE (BO3Team.id t2)) None d1
    = (Ok (Some j2), d1) /\
    (lookup (source_key (BO3Match.id m)) (matches d) = [] ->
     exists r, In r (matches d1) /\ row_id r = i /\
               column r "team1_id" = PUuid j1 /\
               column r "team2_id" = PUuid j2).
Proof.
  intros E1 E2 H. apply save_match_resolved in H
    as (t1' & t2' & r1 & r2 & it & v3 & s3 & H1 & H2 & L1 & L2 & Ht & Hm
        & Hw & ->).
  rewrite E1 in H1. rewrite E2 in H2.
  injection H1 as <-. injection H2 as <-.
  exists (row_id r1), (row_id r2).
  rewrite !get_team_by_source_run. fold (source_key (BO3Team.id t1)).
  fold (source_key (BO3Team.id t2)). rewrite L1, L2.
  split; [reflexivity|]. split; [reflexivity|].
  intros Hnew. rewrite write_match_run, Hm, Hnew in Hw. split_result Hw.
  cbn [durable clean].
  eexists. split.
  { change (matches ?x) with (table_rows Matches x).
    rewrite table_rows_add_row. apply in_or_app. right. left. reflexivity. }
  repeat split; reflexivity.
Qed.

(* ------------------------------------------------------------------ *)
(** * Reading back *)

Ltac run_read :=
  cbv beta iota zeta delta
    [call with_session try_except bind lift ret raise select_id select_rows
     commit rollback tick fuse view durable clean];
  cbn.

(** X13: the four read operations never change the committed state,
    whether they return or fail. *)
Theorem reads_leave_database (fault : option nat) (d : db) :
  (forall source_type source_id,
      snd (call (get_team_by_source source_type source_id) fault d) = d) /\
  (forall match_id, snd (call (get_match match_id) fault d) = d) /\
  (forall match_id, snd (call (get_ai_predictions match_id) fault d) = d) /\
  (forall match_id provider,
      snd (call (get_betting_odds match_id provider) fault d) = d).
Proof.
  repeat split.
  - intros source_type source_id. unfold get_team_by_source.
    destruct fault as [[|n]|]; run_read; try reflexivity;
      destruct (scalar_one_or_none _); reflexivity.
  - intros match_id. unfold get_match.
    destruct fault as [[|n]|]; run_read; try reflexivity;
      destruct (lookup _ _); reflexivity.
  - intros match_id. unfold get_ai_predictions.
    destruct fault as [[|n]|]; run_read; reflexivity.
  - intros match_id provider. unfold get_betting_odds.
    destruct provider as [[|c p]|]; cbn [truthy];
      destruct fault as [[|n]|]; run_read; try reflexivity;
      destruct (map_result _ _); reflexivity.
Qed.

Lemma get_match_run (match_id : uuid) (d : db) :
  call (get_match match_id) None d
  = (Ok match lookup [("id", PUuid match_id)] (matches d) with
        | [] => None
        | result :: _ => Some (match_view result)
        end, d).
Proof.
  unfold get_match. run_read. destruct (lookup _ _); reflexivity.
Qed.

Lemma lookup_id_NoDup (rows : list row) (r : row) :
  NoDup (map row_id rows) -> In r rows ->
  lookup [("id", PUuid (row_id r))] rows = [r].
Proof.
  unfold lookup. induction rows as [|r0 rows IH]; [contradiction|].
  cbn [map filter]. intros Hnd Hin. inversion Hnd as [|x l Hx Hl]; subst.
  rewrite row_matches_id. destruct Hin as [-> | Hin].
  - rewrite Nat.eqb_refl. f_equal.
    clear IH Hnd Hl. induction rows as [|r1 rows IH]; [reflexivity|].
    cbn [filter]. rewrite row_matches_id.
    destruct (Nat.eqb (row_id r1) (row_id r)) eqn:E.
    + apply Nat.eqb_eq in E. exfalso. apply Hx. left. exact E.
    + apply IH. intros H. apply Hx. right. exact H.
  - destruct (Nat.eqb (row_id r0) (row_id r)) eqn:E.
    + apply Nat.eqb_eq in E. exfalso. apply Hx. rewrite E.
      apply in_map, Hin.
    + apply IH; assumption.
Qed.

Lemma lookup_id_none (rows : list row) (i : uuid) :
  (forall r, In r rows -> row_id r <> i) ->
  lookup [("id", PUuid i)] rows = [].
Proof.
  unfold lookup. induction rows as [|r0 rows IH]; [reflexivity|].
  intros H. cbn [filter]. rewrite row_matches_id.
  destruct (Nat.eqb (row_id r0) i) eqn:E.
  - apply Nat.eqb_eq in E. exfalso. apply (H r0); [left; reflexivity|exact E].
  - apply IH. intros r Hr. apply H. right. exact Hr.
Qed.

Lemma primary_keys_created (t : table) (z : Z) (cols : dict) (d d' : db) :
  t <> Matches -> primary_keys d -> created t z cols d d' -> primary_keys d'.
Proof.
  intros Ht [Hnd Hlt] Hc.
  apply created_frame in Hc as (F & _ & Hn).
  unfold primary_keys. change (matches d') with (table_rows Matches d').
  rewrite F by congruence. cbn [table_rows]. split; [exact Hnd|].
  eapply Forall_impl; [|exact Hlt]. cbn. intros r Hr. lia.
Qed.

Lemma primary_keys_written now (m : BO3Match.t) (r : result uuid) (d d' : db) :
  primary_keys d -> written now m r d d' -> primary_keys d'.
Proof.
  intros [Hnd Hlt]
    [(e & _ & ->)|[(r0 & _ & Hl & ->)|(a & b & c & _ & Hl & ->)]].
  - split; assumption.
  - unfold primary_keys, update_rows. cbn [table_rows with_rows matches next_id].
    rewrite row_ids_update_rows. split; [exact Hnd|].
    rewrite Forall_forall in *. intros x Hx.
    apply in_map_iff in Hx as (r1 & <- & Hr1).
    specialize (Hlt r1 Hr1). destruct (row_matches _ r1); exact Hlt.
  - unfold primary_keys, add_row.
    cbn [table_rows with_rows with_next_id matches next_id].
    rewrite map_app. cbn [map row_id]. split.
    + apply NoDup_app; [exact Hnd|repeat constructor; intros []|].
      intros x Hx [<- | []].
      apply in_map_iff in Hx as (r1 & Hid & Hr1).
      rewrite Forall_forall in Hlt. specialize (Hlt r1 Hr1). cbn in Hlt. lia.
    + apply Forall_app. split.
      * eapply Forall_impl; [|exact Hlt]. cbn. intros r1 Hr1. lia.
      * repeat constructor.
Qed.

Lemma primary_keys_save_match now (m : BO3Match.t) (fault : option nat)
    (d : db) (r : result uuid) (d1 : db) :
  primary_keys d ->
  call (save_match now m) fault d = (r, d1) ->
  primary_keys d1.
Proof.
  intros Hk H. apply save_match_any in H
    as [(_ & _ & ->)|(t1 & t2 & da & db & dc & _ & _ & Ca & Cb & Cc & Cw)];
    [exact Hk|].
  eapply primary_keys_written; [|exact Cw].
  assert (Hb : primary_keys db).
  { eapply primary_keys_created; [|
      eapply primary_keys_created; [|exact Hk|exact Ca]|exact Cb];
      discriminate. }
  destruct (BO3Match.tournament m) as [t|]; cbn [tournament_created] in Cc.
  - eapply primary_keys_created; [|exact Hb|exact Cc]. discriminate.
  - subst dc. exact Hb.
Qed.

Lemma source_key_columns (z : Z) (r : row) :
  row_matches (source_key z) r = true ->
  column r "source_type" = PStr SOURCE_TYPE /\ column r "source_id" = PInt z.
Proof.
  unfold row_matches, source_key. cbn [forallb fst snd].
  intros H. apply andb_prop in H as [H1 H]. apply andb_prop in H as [H2 _].
  split.
  - destruct (column r "source_type"); cbn in H1; try discriminate.
    apply String.eqb_eq in H1. congruence.
  - destruct (column r "source_id"); cbn in H2; try discriminate.
    apply Z.eqb_eq in H2. congruence.
Qed.

Lemma get_match_after_save now (m : BO3Match.t) (d : db) (i : uuid) (d1 : db) :
  primary_keys d ->
  call (save_match now m) None d = (Ok i, d1) ->
  exists r,
    lookup (source_key (BO3Match.id m)) (matches d1) = [r] /\
    row_id r = i /\
    call (get_match i) None d1 = (Ok (Some (match_view r)), d1) /\
    get (match_view r) "id" = PStr (py_str (PUuid i)) /\
    get (match_view r) "source_type" = PStr SOURCE_TYPE /\
    get (match_view r) "source_id" = PInt (BO3Match.id m) /\
    get (match_view r) "status" = PStr (BO3Match.status m) /\
    get (match_view r) "raw_data" = get (items (to_match_dict m)) "raw_data".
Proof.
  intros Hk H.
  pose proof (primary_keys_save_match _ _ _ _ _ _ Hk H) as [Hnd _].
  assert (Hraw : exists r,
             lookup (source_key (BO3Match.id m)) (matches d1) = [r] /\
             row_id r = i /\
             column r "status" = PStr (BO3Match.status m) /\
             column r "raw_data" = get (items (to_match_dict m)) "raw_data").
  { apply save_match_resolved in H
      as (t1 & t2 & r1 & r2 & it & v3 & s3 & _ & _ & _ & _ & _ & Hm
          & Hw & ->).
    rewrite write_match_run in Hw.
    destruct (lookup _ (matches v3)) as [|r0 [|r0' l]] eqn:Hl;
      split_result Hw; cbn [durable clean].
    - eexists. unfold add_row.
      cbn [table_rows with_rows with_next_id matches].
      rewrite lookup_app, Hl. unfold lookup. cbn [filter app].
      rewrite match_row_matches, Z.eqb_refl.
      split; [reflexivity|]. split; [reflexivity|]. split; reflexivity.
    - unfold update_rows. cbn [table_rows with_rows matches].
      destruct (lookup_after_update (source_key (BO3Match.id m))
                  (applied (items (to_match_dict m)) ++ stamps now)
                  (row_id r0) (matches v3)
                  (disjoint_source_key_applied _ now _)) as [Hlk _].
      exists (assign (applied (items (to_match_dict m)) ++ stamps now) r0).
      rewrite Hlk, Hl. cbn [map]. rewrite row_matches_own_id.
      split; [reflexivity|]. split; [reflexivity|].
      rewrite !column_after_update_match by apply NoDup_match_items.
      split; reflexivity. }
  destruct Hraw as (r & Hl & Hid & Hstatus & Hraw).
  exists r. split; [exact Hl|]. split; [exact Hid|].
  apply lookup_one_matches in Hl as [Hin Hmatch].
  apply source_key_columns in Hmatch as [Hst Hsid].
  rewrite get_match_run, <- Hid, (lookup_id_NoDup _ _ Hnd Hin).
  split; [reflexivity|]. split; [reflexivity|].
  split; [exact Hst|]. split; [exact Hsid|].
  split; [exact Hstatus|exact Hraw].
Qed.

(** X14: when the primary keys of the match rows are distinct, [get_match]
    with the id [save_match] has returned gives the dictionary of the row
    the key of the match selects, under the text of that id and with the
    source id, the status and the raw data of the match, and changes
    nothing; with an id no match row has, it gives [None]. *)
Theorem get_match_round_trip :
  (forall now (m : BO3Match.t) (d : db) (i : uuid) (d1 : db),
      primary_keys d ->
      call (save_match now m) None d = (Ok i, d1) ->
      exists r,
        lookup (source_key (BO3Match.id m)) (matches d1) = [r] /\
        row_id r = i /\
        call (get_match i) None d1 = (Ok (Some (match_view r)), d1) /\
        get (match_view r) "id" = PStr (py_str (PUuid i)) /\
        get (match_view r) "source_type" = PStr SOURCE_TYPE /\
        get (match_view r) "source_id" = PInt (BO3Match.id m) /\
        get (match_view r) "status" = PStr (BO3Match.status m) /\
        get (match_view r) "raw_data"
        = get (items (to_match_dict m)) "raw_data") /\
  (forall (d : db) (i : uuid),
      (forall r, In r (matches d) -> row_id r <> i) ->
      call (get_match i) None d = (Ok None, d)).
Proof.
  split.
  - apply get_match_after_save.
  - intros d i H. rewrite get_match_run, (lookup_id_none _ _ H). reflexivity.
Qed.

(** X15: a payload that is parsed, saved and read back: the dictionary
    [get_match] returns for the id [save_match] gave holds the payload
    itself as raw data, whether the match was new or not, and the integer
    the payload's id converts to as source id. *)
Theorem payload_round_trip now (match_data : dict) (m : BO3Match.t) (d : db)
    (i : uuid) (d1 : db) :
  primary_keys d ->
  parse_match match_data = Ok m ->
  call (save_match now m) None d = (Ok i, d1) ->
  exists v,
    call (get_match i) None d1 = (Ok (Some v), d1) /\
    get v "raw_data" = PDict match_data /\
    py_int (get match_data "id") = Ok (BO3Match.id m) /\
    get v "source_id" = PInt (BO3Match.id m) /\
    get v "source_type" = PStr SOURCE_TYPE.
Proof.
  intros Hk Hp H.
  apply parse_match_nested in Hp as (Hid & Hraw & Hne & _).
  apply (get_match_after_save _ _ _ _ _ Hk) in H
    as (r & _ & _ & Hget & _ & Hst & Hsid & _ & Hdata).
  exists (match_view r). split; [exact Hget|].
  split.
  { rewrite Hdata. unfold to_match_dict, get, get_or. cbn. rewrite Hraw.
    destruct match_data; [contradiction|reflexivity]. }
  split; [exact Hid|]. split; [exact Hsid|exact Hst].
Qed.

Lemma get_ai_predictions_run (match_id : uuid) (d : db) :
  call (get_ai_predictions match_id) None d
  = (Ok (map prediction_view
           (lookup [("match_id", PUuid match_id)] (ai_predictions d))), d).
Proof. unfold get_ai_predictions. run_read. reflexivity. Qed.

(** X16: after [save_ai_prediction] has returned, [get_ai_predictions] for
    that match returns the dictionary of the row whose id was returned,
    with the prediction data just saved, among dictionaries of prediction
    rows of that match only. *)
Theorem get_ai_predictions_after_save now (match_id : uuid)
    (p : BO3AIPrediction.t) (d : db) (i : uuid) (d1 : db) :
  call (save_ai_prediction now match_id p) None d = (Ok i, d1) ->
  exists l r,
    call (get_ai_predictions match_id) None d1 = (Ok l, d1) /\
    In (prediction_view r) l /\
    row_id r = i /\
    get (prediction_view r) "id" = PStr (py_str (PUuid i)) /\
    get (prediction_view r) "source_id" = PInt (BO3AIPrediction.id p) /\
    get (prediction_view r) "prediction_data"
    = get (to_ai_prediction_dict p match_id) "prediction_data" /\
    (forall v, In v l ->
               exists r', In r' (ai_predictions d1) /\
                          column r' "match_id" = PUuid match_id /\
                          v = prediction_view r').
Proof.
  intros H. apply save_ai_prediction_resolved in H
    as (r & Hl & Hid & Hdata & Hsid & _).
  eexists. exists r. rewrite get_ai_predictions_run.
  split; [reflexivity|].
  apply lookup_one_matches in Hl as [Hin Hmatch].
  split.
  { apply in_map. unfold lookup. apply filter_In. split; [exact Hin|].
    unfold row_matches, prediction_key in *. cbn [forallb fst snd] in *.
    apply andb_prop in Hmatch as [-> _]. reflexivity. }
  split; [exact Hid|].
  split; [unfold prediction_view, get, get_or; cbn; rewrite <- Hid; reflexivity|].
  split; [exact Hsid|]. split; [exact Hdata|].
  intros v Hv. apply in_map_iff in Hv as (r' & <- & Hr').
  unfold lookup in Hr'. apply filter_In in Hr' as [Hin' Hm'].
  exists r'. split; [exact Hin'|]. split; [|reflexivity].
  unfold row_matches in Hm'. cbn [forallb fst snd] in Hm'.
  apply andb_prop in Hm' as [Hm' _].
  destruct (column r' "match_id"); cbn in Hm'; try discriminate.
  apply Nat.eqb_eq in Hm'. congruence.
Qed.

Lemma match_id_of_odds_key (m : uuid) (provider : string) (r : row) :
  row_matches (odds_key m provider) r = true ->
  row_matches [("match_id", PUuid m)] r = true.
Proof.
  unfold row_matches, odds_key. cbn [forallb fst snd].
  intros H. apply andb_prop in H as [-> _]. reflexivity.
Qed.

Lemma lookup_nil_weaken (conds conds' : list (string * pyval))
    (rows : list row) :
  (forall r, row_matches conds' r = true -> row_matches conds r = true) ->
  lookup conds rows = [] -> lookup conds' rows = [].
Proof.
  intros Hw. unfold lookup. induction rows as [|r rows IH]; [reflexivity|].
  cbn [filter]. destruct (row_matches conds r) eqn:E; [discriminate|].
  intros H. destruct (row_matches conds' r) eqn:E'.
  - rewrite (Hw r E') in E. discriminate E.
  - apply IH, H.
Qed.

Lemma get_betting_odds_run (match_id : uuid) (provider : option string)
    (d : db) :
  call (get_betting_odds match_id provider) None d
  = (map_result odds_view
       (lookup (odds_filter match_id provider) (betting_odds d)), d).
Proof.
  unfold get_betting_odds, odds_filter.
  destruct provider as [[|c p]|]; cbn [truthy]; run_read;
    destruct (map_result _ _); reflexivity.
Qed.

Lemma odds_view_saved now (match_id i : uuid) (o : BO3BettingOdds.t) :
  let c1 := BO3BettingTeam.coeff (BO3BettingOdds.team_1 o) in
  let c2 := BO3BettingTeam.coeff (BO3BettingOdds.team_2 o) in
  exists v,
    odds_view {| row_id := i;
                 columns := to_betting_odds_dict o match_id
                              ++ [("fetched_at", PDatetime now)] |} = Ok v /\
    get v "id" = PStr (py_str (PUuid i)) /\
    get v "provider" = PStr (BO3BettingOdds.provider o) /\
    get v "team1_odds" = (if (c1 =? 0)%float then PNone else PFloat c1) /\
    get v "team2_odds" = (if (c2 =? 0)%float then PNone else PFloat c2) /\
    get v "team1_implied_prob"
    = (if (c1 =? 0)%float || (1 / c1 =? 0)%float then PNone
       else PFloat (1 / c1)%float) /\
    get v "team2_implied_prob"
    = (if (c2 =? 0)%float || (1 / c2 =? 0)%float then PNone
       else PFloat (1 / c2)%float) /\
    get v "odds_data" = get (to_betting_odds_dict o match_id) "odds_data" /\
    get v "fetched_at" = PDatetime now.
Proof.
  intros c1 c2. unfold odds_view, float_or_none, column.
  cbn. unfold implied_prob. cbn [truthy]. fold c1 c2.
  destruct (c1 =? 0)%float eqn:E1; destruct (c2 =? 0)%float eqn:E2;
    cbn;
    destruct (1 / c1 =? 0)%float eqn:E3;
    destruct (1 / c2 =? 0)%float eqn:E4;
    cbn;
    eexists; (split; [reflexivity|]); repeat split; reflexivity.
Qed.

(** X17: the odds of a provider saved for a match that had none are what
    [get_betting_odds] returns for that match: without a provider, with
    the empty text as provider, which does not filter, and with the
    provider of the odds; another provider gets nothing.  A coefficient of
    zero is stored as zero and read back as [None], as is an implied
    probability of zero; the other coefficients come back as saved. *)
Theorem get_betting_odds_after_save now (match_id : uuid)
    (o : BO3BettingOdds.t) (d : db) (i : uuid) (d1 : db) :
  lookup [("match_id", PUuid match_id)] (betting_odds d) = [] ->
  call (save_betting_odds now match_id o) None d = (Ok i, d1) ->
  let c1 := BO3BettingTeam.coeff (BO3BettingOdds.team_1 o) in
  let c2 := BO3BettingTeam.coeff (BO3BettingOdds.team_2 o) in
  exists v r,
    call (get_betting_odds match_id None) None d1 = (Ok [v], d1) /\
    call (get_betting_odds match_id (Some "")) None d1 = (Ok [v], d1) /\
    (BO3BettingOdds.provider o <> "" ->
     call (get_betting_odds match_id (Some (BO3BettingOdds.provider o))) None d1
     = (Ok [v], d1)) /\
    (forall provider,
        provider <> "" -> provider <> BO3BettingOdds.provider o ->
        call (get_betting_odds match_id (Some provider)) None d1
        = (Ok [], d1)) /\
    betting_odds d1 = betting_odds d ++ [r] /\
    row_id r = i /\
    column r "team1_odds" = PFloat c1 /\
    column r "team2_odds" = PFloat c2 /\
    get v "id" = PStr (py_str (PUuid i)) /\
    get v "provider" = PStr (BO3BettingOdds.provider o) /\
    get v "team1_odds" = (if (c1 =? 0)%float then PNone else PFloat c1) /\
    get v "team2_odds" = (if (c2 =? 0)%float then PNone else PFloat c2) /\
    get v "team1_implied_prob"
    = (if (c1 =? 0)%float || (1 / c1 =? 0)%float then PNone
       else PFloat (1 / c1)%float) /\
    get v "team2_implied_prob"
    = (if (c2 =? 0)%float || (1 / c2 =? 0)%float then PNone
       else PFloat (1 / c2)%float) /\
    get v "odds_data" = get (to_betting_odds_dict o match_id) "odds_data" /\
    get v "fetched_at" = PDatetime now.
Proof.
  intros Hempty H c1 c2.
  assert (Hnone : forall conds,
             (forall r, row_matches conds r = true ->
                        row_matches [("match_id", PUuid match_id)] r = true) ->
             lookup conds (betting_odds d) = []).
  { intros conds Hw. apply (lookup_nil_weaken _ _ _ Hw Hempty). }
  rewrite save_betting_odds_run in H.
  rewrite (Hnone _ (match_id_of_odds_key match_id _)) in H.
  split_result H.
  destruct (odds_view_saved now match_id (next_id d) o) as (v & Hv & Hprops).
  set (r := {| row_id := next_id d;
               columns := to_betting_odds_dict o match_id
                            ++ [("fetched_at", PDatetime now)] |}) in *.
  assert (Hrows : betting_odds
                    (add_row BettingOdds
                       (to_betting_odds_dict o match_id
                          ++ [("fetched_at", PDatetime now)]) d)
                  = betting_odds d ++ [r]) by reflexivity.
  assert (Hget : forall provider,
             call (get_betting_odds match_id provider) None
               (add_row BettingOdds
                  (to_betting_odds_dict o match_id
                     ++ [("fetched_at", PDatetime now)]) d)
             = (map_result odds_view
                  (if row_matches (odds_filter match_id provider) r
                   then [r] else []),
                add_row BettingOdds
                  (to_betting_odds_dict o match_id
                     ++ [("fetched_at", PDatetime now)]) d)).
  { intros provider. rewrite get_betting_odds_run, Hrows, lookup_app.
    rewrite Hnone.
    - reflexivity.
    - intros r0. unfold odds_filter, row_matches. cbn [forallb fst snd].
      intros Hr0. apply andb_prop in Hr0 as [-> _]. reflexivity. }
  assert (Hmid : row_matches [("match_id", PUuid match_id)] r = true).
  { unfold row_matches. cbn. rewrite Nat.eqb_refl. reflexivity. }
  exists v, r.
  split; [rewrite Hget; unfold odds_filter; rewrite Hmid; cbn [map_result];
          rewrite Hv; reflexivity|].
  split; [rewrite Hget; unfold odds_filter; rewrite Hmid; cbn [map_result];
          rewrite Hv; reflexivity|].
  split.
  { intros Hne. rewrite Hget. unfold odds_filter.
    destruct (BO3BettingOdds.provider o) as [|c p] eqn:Hp; [contradiction|].
    assert (Hm : row_matches
                   [("match_id", PUuid match_id); ("provider", PStr (String c p))]
                   r = true).
    { unfold row_matches. cbn. rewrite Nat.eqb_refl, Hp, String.eqb_refl.
      reflexivity. }
    rewrite Hm. cbn [map_result]. rewrite Hv. reflexivity. }
  split.
  { intros provider Hne Hother. rewrite Hget. unfold odds_filter.
    destruct provider as [|c p]; [contradiction|].
    assert (Hm : row_matches
                   [("match_id", PUuid match_id); ("provider", PStr (String c p))]
                   r = false).
    { unfold row_matches. cbn. rewrite Nat.eqb_refl.
      destruct (String.eqb_spec (BO3BettingOdds.provider o) (String c p))
        as [E|E]; [symmetry in E; contradiction|reflexivity]. }
    rewrite Hm. reflexivity. }
  split; [exact Hrows|].
  split; [reflexivity|]. split; [reflexivity|]. split; [reflexivity|].
  exact Hprops.
Qed.

(* ------------------------------------------------------------------ *)
(** * The dictionary entry points and tournaments *)

Lemma get_or_create_team_run_dict now (team_data : dict) (z : Z) (d : db) :
  get team_data "id" = PInt z -> z <> 0 ->
  call (get_or_create_team now team_data SOURCE_TYPE) None d
  = match lookup (source_key z) (teams d) with
    | [] => (Ok (next_id d),
             add_row Teams (legacy_team_columns SOURCE_TYPE team_data) d)
    | [r] => (Ok (row_id r), d)
    | _ :: _ :: _ => (Raise MultipleResultsFound, d)
    end.
Proof.
  intros Hid Hz. unfold get_or_create_team, _get_or_create_team,
    legacy_team_columns, source_key.
  rewrite Hid. cbn [truthy negb].
  destruct (z =? 0) eqn:E; [apply Z.eqb_eq in E; contradiction|].
  cbn [negb]. run_session.
  destruct (lookup _ (teams d)) as [|r [|r' l]]; reflexivity.
Qed.

Lemma legacy_team_row_matches (z z' : Z) (i : uuid) (team_data : dict) :
  get team_data "id" = PInt z ->
  row_matches (source_key z')
    {| row_id := i; columns := legacy_team_columns SOURCE_TYPE team_data |}
  = (z =? z').
Proof.
  intros Hid. unfold row_matches, legacy_team_columns. cbn. rewrite Hid.
  cbn. apply andb_true_r.
Qed.

Lemma team_model_call now (t : BO3Team.t) (d : db) :
  call (_get_or_create_team_from_model now t (PStr SOURCE_TYPE)) None d
  = match lookup (source_key (BO3Team.id t)) (teams d) with
    | [] => (Ok (next_id d), add_row Teams (to_team_dict t) d)
    | [r] => (Ok (row_id r), d)
    | _ :: _ :: _ => (Raise MultipleResultsFound, d)
    end.
Proof.
  unfold call. rewrite get_or_create_team_run.
  destruct (lookup _ (teams d)) as [|r [|r' l]]; reflexivity.
Qed.

(** X18: [get_or_create_team], the entry point for a team given as a
    dictionary, refuses a dictionary without a usable id before any
    statement and leaves the database alone, whatever the fault plan.  It
    shares the identity of teams with the typed path: a team one of the two
    has created is found by the other under the same id, and by
    [get_team_by_source], and nothing is added.  The row it creates has the
    name of the dictionary, or the empty text without one, and the whole
    dictionary as metadata. *)
Theorem get_or_create_team_shares_identity :
  (forall now (team_data : dict) (source_type : string) (fault : option nat)
          (d : db),
      truthy (get team_data "id") = false ->
      call (get_or_create_team now team_data source_type) fault d
      = (Raise (ValueError "Team data must include 'id' field"), d)) /\
  (forall now1 now2 (t : BO3Team.t) (team_data : dict) (d : db) (i : uuid)
          (d1 : db),
      get team_data "id" = PInt (BO3Team.id t) ->
      BO3Team.id t <> 0 ->
      call (_get_or_create_team_from_model now1 t (PStr SOURCE_TYPE)) None d
      = (Ok i, d1) ->
      call (get_or_create_team now2 team_data SOURCE_TYPE) None d1
      = (Ok i, d1)) /\
  (forall now1 now2 (t : BO3Team.t) (team_data : dict) (d : db) (i : uuid)
          (d1 : db),
      get team_data "id" = PInt (BO3Team.id t) ->
      BO3Team.id t <> 0 ->
      call (get_or_create_team now1 team_data SOURCE_TYPE) None d
      = (Ok i, d1) ->
      call (_get_or_create_team_from_model now2 t (PStr SOURCE_TYPE)) None d1
      = (Ok i, d1) /\
      call (get_or_create_team now2 team_data SOURCE_TYPE) None d1
      = (Ok i, d1) /\
      call (get_team_by_source SOURCE_TYPE (BO3Team.id t)) None d1
      = (Ok (Some i), d1) /\
      (lookup (source_key (BO3Team.id t)) (teams d) = [] ->
       exists r,
         teams d1 = teams d ++ [r] /\
         row_id r = i /\
         column r "source_id" = PInt (BO3Team.id t) /\
         column r "name" = get_or team_data "name" (PStr "") /\
         column r "metadata" = PDict team_data)).
Proof.
  split; [|split].
  - intros now team_data source_type fault d Hid.
    unfold get_or_create_team, _get_or_create_team. rewrite Hid.
    cbn [negb]. reflexivity.
  - intros now1 now2 t team_data d i d1 Hid Hz H.
    rewrite team_model_call in H.
    rewrite (get_or_create_team_run_dict _ _ _ _ Hid Hz).
    destruct (lookup _ (teams d)) as [|r [|r' l]] eqn:Hl; split_result H.
    + unfold add_row. cbn [table_rows with_rows with_next_id teams].
      rewrite lookup_app, Hl. unfold lookup. cbn [filter app].
      rewrite team_row_matches, Z.eqb_refl. reflexivity.
    + rewrite Hl. reflexivity.
  - intros now1 now2 t team_data d i d1 Hid Hz H.
    rewrite (get_or_create_team_run_dict _ _ _ _ Hid Hz) in H.
    rewrite team_model_call, (get_or_create_team_run_dict _ _ _ _ Hid Hz),
      get_team_by_source_run.
    fold (source_key (BO3Team.id t)).
    destruct (lookup _ (teams d)) as [|r [|r' l]] eqn:Hl; split_result H.
    + unfold add_row. cbn [table_rows with_rows with_next_id teams].
      rewrite lookup_app, Hl. unfold lookup at 1 2 3. cbn [filter app].
      rewrite (legacy_team_row_matches _ _ _ _ Hid), Z.eqb_refl.
      cbn [map row_id scalar_one_or_none].
      repeat split. intros _. eexists. split; [reflexivity|].
      repeat split. unfold column, legacy_team_columns. cbn. exact Hid.
    + rewrite Hl. cbn [map scalar_one_or_none].
      repeat split. intros Hnil. discriminate Hnil.
Qed.

Lemma get_or_create_tournament_run_dict now (tournament_data : dict) (z : Z)
    (d : db) :
  get tournament_data "id" = PInt z -> z <> 0 ->
  call (get_or_create_tournament now tournament_data SOURCE_TYPE) None d
  = match lookup (source_key z) (tournaments d) with
    | [] => (Ok (next_id d),
             add_row Tournaments
               (legacy_tournament_columns SOURCE_TYPE tournament_data) d)
    | [r] => (Ok (row_id r), d)
    | _ :: _ :: _ => (Raise MultipleResultsFound, d)
    end.
Proof.
  intros Hid Hz. unfold get_or_create_tournament, _get_or_create_tournament,
    legacy_tournament_columns, source_key.
  rewrite Hid. cbn [truthy negb].
  destruct (z =? 0) eqn:E; [apply Z.eqb_eq in E; contradiction|].
  cbn [negb]. run_session.
  destruct (lookup _ (tournaments d)) as [|r [|r' l]]; reflexivity.
Qed.

Lemma tournament_model_call now (t : BO3Tournament.t) (d : db) :
  call (_get_or_create_tournament_from_model now t (PStr SOURCE_TYPE)) None d
  = match lookup (source_key (BO3Tournament.id t)) (tournaments d) with
    | [] => (Ok (next_id d), add_row Tournaments (to_tournament_dict t) d)
    | [r] => (Ok (row_id r), d)
    | _ :: _ :: _ => (Raise MultipleResultsFound, d)
    end.
Proof.
  unfold call. rewrite get_or_create_tournament_run.
  destruct (lookup _ (tournaments d)) as [|r [|r' l]]; reflexivity.
Qed.

(** X19: for tournaments as for teams the first record of a source id
    wins.  Two tournament records with the same source id saved one after
    the other into a store without a row for that id leave one row, with
    the fields of the first, the prize in the column [prize_pool], and both
    calls return its id; the entry point for dictionaries finds that row
    too, and refuses a dictionary without a usable id. *)
Theorem tournament_identity_first_wins :
  (forall now1 now2 (t1 t2 : BO3Tournament.t) (d : db),
      BO3Tournament.id t1 = BO3Tournament.id t2 ->
      lookup (source_key (BO3Tournament.id t1)) (tournaments d) = [] ->
      exists (i : uuid) (d1 : db) (r : row),
        call (_get_or_create_tournament_from_model now1 t1 (PStr SOURCE_TYPE))
          None d = (Ok i, d1) /\
        call (_get_or_create_tournament_from_model now2 t2 (PStr SOURCE_TYPE))
          None d1 = (Ok i, d1) /\
        tournaments d1 = tournaments d ++ [r] /\
        lookup (source_key (BO3Tournament.id t1)) (tournaments d1) = [r] /\
        row_id r = i /\
        column r "name" = PStr (BO3Tournament.name t1) /\
        column r "prize_pool" = BO3Tournament.prize t1 /\
        column r "start_date" = opt_datetime (BO3Tournament.start_date t1) /\
        (forall now3 (tournament_data : dict),
            get tournament_data "id" = PInt (BO3Tournament.id t1) ->
            BO3Tournament.id t1 <> 0 ->
            call (get_or_create_tournament now3 tournament_data SOURCE_TYPE)
              None d1 = (Ok i, d1))) /\
  (forall now (tournament_data : dict) (source_type : string)
          (fault : option nat) (d : db),
      truthy (get tournament_data "id") = false ->
      call (get_or_create_tournament now tournament_data source_type) fault d
      = (Raise (ValueError "Tournament data must include 'id' field"), d)) /\
  (forall now (tournament_data : dict) (z : Z) (d : db),
      get tournament_data "id" = PInt z -> z <> 0 ->
      lookup (source_key z) (tournaments d) = [] ->
      exists i d1 r,
        call (get_or_create_tournament now tournament_data SOURCE_TYPE) None d
        = (Ok i, d1) /\
        tournaments d1 = tournaments d ++ [r] /\
        row_id r = i /\
        column r "source_id" = PInt z /\
        column r "prize_pool" = get tournament_data "prize" /\
        column r "metadata" = PDict tournament_data).
Proof.
  split; [|split].
  - intros now1 now2 t1 t2 d Hid Hnone.
    exists (next_id d), (add_row Tournaments (to_tournament_dict t1) d),
      {| row_id := next_id d; columns := to_tournament_dict t1 |}.
    assert (Hone : lookup (source_key (BO3Tournament.id t1))
                     (tournaments (add_row Tournaments (to_tournament_dict t1) d))
                   = [{| row_id := next_id d;
                         columns := to_tournament_dict t1 |}]).
    { unfold add_row. cbn. rewrite lookup_app, Hnone. unfold lookup. cbn.
      rewrite tournament_row_matches, Z.eqb_refl. reflexivity. }
    split; [rewrite tournament_model_call, Hnone; reflexivity|].
    split; [rewrite tournament_model_call, <- Hid, Hone; reflexivity|].
    split; [reflexivity|]. split; [exact Hone|].
    split; [reflexivity|]. split; [reflexivity|]. split; [reflexivity|].
    split; [reflexivity|].
    intros now3 tournament_data Hd Hz.
    rewrite (get_or_create_tournament_run_dict _ _ _ _ Hd Hz), Hone.
    reflexivity.
  - intros now tournament_data source_type fault d Hid.
    unfold get_or_create_tournament, _get_or_create_tournament. rewrite Hid.
    cbn [negb]. reflexivity.
  - intros now tournament_data z d Hid Hz Hnone.
    rewrite (get_or_create_tournament_run_dict _ _ _ _ Hid Hz), Hnone.
    eexists. eexists. eexists. split; [reflexivity|].
    split; [reflexivity|]. split; [reflexivity|].
    split; [unfold column, legacy_tournament_columns; cbn; exact Hid|].
    split; reflexivity.
Qed.

(* ------------------------------------------------------------------ *)
(** * Further edge behaviour *)

Lemma map_unselected (i : uuid) (f : row -> row) (rows : list row) :
  (forall r, In r rows -> row_id r <> i) ->
  map (fun r => if row_matches [("id", PUuid i)] r then f r else r) rows
  = rows.
Proof.
  intros H. rewrite <- (map_id rows) at 2. apply map_ext_in.
  intros r Hr. rewrite row_matches_id.
  destruct (Nat.eqb (row_id r) i) eqn:E; [|reflexivity].
  apply Nat.eqb_eq in E. exfalso. apply (H r Hr E).
Qed.

(** X20: [update_match] with the id of no match row returns without an
    error and leaves the database as it was. *)
Theorem update_match_unknown_id now (match_id : uuid) (updates : dict)
    (d : db) :
  NoDup (keys updates) ->
  (forall r, In r (matches d) -> row_id r <> match_id) ->
  call (update_match now match_id updates) None d = (Ok tt, d).
Proof.
  intros Hnd Hno.
  destruct (applied updates) as [|kv l] eqn:Ha.
  - apply update_match_run_none, Ha.
  - rewrite update_match_run_some; [|exact Hnd|rewrite Ha; discriminate].
    unfold update_rows. cbn [table_rows with_rows].
    rewrite (map_unselected _ _ _ Hno). destruct d; reflexivity.
Qed.

Ltac frame_of_save :=
  split; [reflexivity|]; split; [reflexivity|]; split; [reflexivity|];
  split; [reflexivity|];
  first
    [ exists []; rewrite app_nil_r; split; [reflexivity|cbn; lia]
    | exists []; rewrite app_nil_r; split;
      [unfold update_rows;
       cbn [table_rows with_rows ai_predictions betting_odds];
       apply row_ids_update_rows
      |cbn; lia]
    | eexists; unfold add_row;
      cbn [table_rows with_rows with_next_id ai_predictions betting_odds];
      rewrite map_app; split; [reflexivity|cbn; lia] ].

(** X21: [save_ai_prediction] and [save_betting_odds] write to their own
    table only, whether they return or fail: the other four tables are as
    they were, and the rows of their table keep their primary keys, with at
    most one row added after them. *)
Theorem prediction_and_odds_frame :
  (forall now match_id (p : BO3AIPrediction.t) (fault : option nat) (d : db)
          (r : result uuid) (d1 : db),
      call (save_ai_prediction now match_id p) fault d = (r, d1) ->
      teams d1 = teams d /\
      tournaments d1 = tournaments d /\
      matches d1 = matches d /\
      betting_odds d1 = betting_odds d /\
      exists l, map row_id (ai_predictions d1)
                = map row_id (ai_predictions d) ++ l /\
                (List.length l <= 1)%nat) /\
  (forall now match_id (o : BO3BettingOdds.t) (fault : option nat) (d : db)
          (r : result uuid) (d1 : db),
      call (save_betting_odds now match_id o) fault d = (r, d1) ->
      teams d1 = teams d /\
      tournaments d1 = tournaments d /\
      matches d1 = matches d /\
      ai_predictions d1 = ai_predictions d /\
      exists l, map row_id (betting_odds d1)
                = map row_id (betting_odds d) ++ l /\
                (List.length l <= 1)%nat).
Proof.
  split.
  - intros now match_id p fault d r d1. unfold save_ai_prediction.
    destruct fault as [[|[|[|n]]]|]; run_session;
      try match goal with
          | |- context [lookup ?c (ai_predictions d)] =>
              destruct (lookup c (ai_predictions d)) as [|r0 [|r' l]]
          end;
      cbn; intros H; split_result H; frame_of_save.
  - intros now match_id o fault d r d1. unfold save_betting_odds.
    destruct fault as [[|[|[|n]]]|]; run_session;
      try match goal with
          | |- context [lookup ?c (betting_odds d)] =>
              destruct (lookup c (betting_odds d)) as [|r0 [|r' l]]
          end;
      cbn; intros H; split_result H; frame_of_save.
Qed.

End Pipeline.

(* ------------------------------------------------------------------ *)
(** * The statements at concrete inputs *)

(** C1 on the running example: saved twice into an empty database. *)
Lemma save_match_idempotent_witness :
  call (save_match no_repr example_now1 example_match) None empty_db
  = (Ok 4%nat, example_saved no_repr) /\
  exists d2,
    call (save_match no_repr example_now2 example_match) None
      (example_saved no_repr) = (Ok 4%nat, d2) /\
    teams d2 = teams (example_saved no_repr) /\
    tournaments d2 = tournaments (example_saved no_repr) /\
    map row_id (matches d2) = [4%nat].
Proof.
  assert (H : call (save_match no_repr example_now1 example_match) None empty_db
              = (Ok 4%nat, example_saved no_repr)) by (vm_compute; reflexivity).
  split; [exact H|].
  destruct (save_match_idempotent no_repr example_now1 example_now2
              example_match empty_db 4%nat (example_saved no_repr) H)
    as (d2 & r1 & H2 & _ & _ & _ & Ht & Hu & Hm & _).
  exists d2. repeat split; assumption.
Defined.

(** C3 on the running example. *)
Lemma save_match_referential_integrity_witness :
  referential_integrity empty_db = true /\
  call (save_match no_repr example_now1 example_match) None empty_db
  = (Ok 4%nat, example_saved no_repr) /\
  referential_integrity (example_saved no_repr) = true /\
  exists row, In row (matches (example_saved no_repr)) /\ row_id row = 4%nat /\
              references_resolve (teams (example_saved no_repr))
                (tournaments (example_saved no_repr)) row = true.
Proof.
  assert (H0 : referential_integrity empty_db = true) by reflexivity.
  assert (H : call (save_match no_repr example_now1 example_match) None empty_db
              = (Ok 4%nat, example_saved no_repr)) by (vm_compute; reflexivity).
  destruct (save_match_referential_integrity no_repr example_now1 example_match
              None empty_db (Ok 4%nat) (example_saved no_repr) H0 H)
    as [Hri Hrow].
  repeat split; try assumption. exact (Hrow 4%nat eq_refl).
Defined.

(** C4 on the update of the specification, with a key outside the
    allow-list. *)
Lemma update_match_allow_list_witness :
  let updates := [("status", PStr "finished"); ("team1_score", PInt 2);
                  ("unrelated_field", PStr "x")] in
  NoDup (keys updates) /\
  exists d',
    call (update_match example_now2 4%nat updates) None (example_saved no_repr)
    = (Ok tt, d') /\
    teams d' = teams (example_saved no_repr) /\
    next_id d' = next_id (example_saved no_repr).
Proof.
  cbv zeta.
  assert (Hnd : NoDup (keys [("status", PStr "finished");
                             ("team1_score", PInt 2);
                             ("unrelated_field", PStr "x")]))
    by (repeat (constructor; [cbn; intuition discriminate|]); constructor).
  split; [exact Hnd|].
  destruct (update_match_allow_list example_now2 4%nat _
              (example_saved no_repr) Hnd)
    as (d' & Hc & Ht & _ & _ & _ & Hn & _).
  exists d'. repeat split; assumption.
Defined.

(** C5 for a side whose payload has no coefficient. *)
Lemma implied_probability_witness :
  dict_lookup "coeff" (entries (PDict [("name", PStr "Bravo")])) = None /\
  exists t,
    parse_betting_team no_int no_float no_repr (PDict [("name", PStr "Bravo")])
    = Ok (Some t) /\
    implied_prob (BO3BettingTeam.coeff t) = PNone.
Proof.
  split; [reflexivity|]. eexists. split; [vm_compute; reflexivity|].
  destruct (implied_probability no_int no_float no_repr) as (_ & _ & _ & H).
  apply (H (PDict [("name", PStr "Bravo")])); [reflexivity|].
  vm_compute. reflexivity.
Defined.

(** C6 on payloads without [name], [id] and [id]. *)
Lemma missing_identity_field_witness :
  parse_team no_int no_repr (PDict [("name", PStr "Alpha")]) = Ok None /\
  parse_tournament no_datetime no_int no_repr (PDict [("id", PInt 3578)])
  = Ok None /\
  parse_match no_datetime no_int no_float no_repr no_pairs
    [("slug", PStr "alpha-vs-bravo")]
  = Raise (ValueError "Match data must include 'id' field").
Proof.
  destruct (missing_identity_field no_datetime no_int no_float no_repr no_pairs)
    as (H1 & H2 & H3).
  split; [apply H1; left; reflexivity|].
  split; [apply H2; right; reflexivity|].
  apply H3. reflexivity.
Defined.

(** C10 on payloads with an [id] of [0] and an empty [name]. *)
Lemma falsy_identity_field_witness :
  parse_team no_int no_repr (PDict [("id", PInt 0); ("name", PStr "Alpha")])
  = Ok None /\
  parse_tournament no_datetime no_int no_repr
    (PDict [("id", PInt 3578); ("name", PStr "")]) = Ok None /\
  parse_match no_datetime no_int no_float no_repr no_pairs
    [("id", PInt 0); ("slug", PStr "alpha-vs-bravo")]
  = Raise (ValueError "Match data must include 'id' field").
Proof.
  destruct (falsy_identity_field no_datetime no_int no_float no_repr no_pairs)
    as (H1 & H2 & H3).
  split; [apply H1; left; reflexivity|].
  split; [apply H2; right; reflexivity|].
  apply H3. reflexivity.
Defined.

(** C7 on a team saved under two names. *)
Lemma team_identity_first_wins_witness :
  BO3Team.id example_team1 = BO3Team.id example_team1_renamed /\
  lookup (source_key (BO3Team.id example_team1)) (teams empty_db) = [] /\
  exists i d1 r,
    call (_get_or_create_team_from_model example_now1 example_team1
            (PStr SOURCE_TYPE)) None empty_db = (Ok i, d1) /\
    call (_get_or_create_team_from_model example_now2 example_team1_renamed
            (PStr SOURCE_TYPE)) None d1 = (Ok i, d1) /\
    lookup (source_key 736) (teams d1) = [r] /\
    column r "name" = PStr "Alpha".
Proof.
  assert (H1 : BO3Team.id example_team1 = BO3Team.id example_team1_renamed)
    by reflexivity.
  assert (H2 : lookup (source_key (BO3Team.id example_team1)) (teams empty_db)
               = []) by reflexivity.
  split; [exact H1|]. split; [exact H2|].
  destruct team_identity_first_wins as [H _].
  destruct (H example_now1 example_now2 example_team1 example_team1_renamed
              empty_db H1 H2) as (i & d1 & r & Ha & Hb & Hl & _ & _ & Hn).
  exists i, d1, r. repeat split; assumption.
Defined.

(** C8 on the match of the running example. *)
Lemma prediction_and_odds_upsert_witness :
  (call (save_ai_prediction example_now1 4%nat example_prediction) None
     (example_saved no_repr) = (Ok 5%nat, example_with_prediction no_repr) /\
   exists d2 r,
     call (save_ai_prediction example_now2 4%nat example_prediction_later)
       None (example_with_prediction no_repr) = (Ok 5%nat, d2) /\
     map row_id (ai_predictions d2) = [5%nat] /\
     row_id r = 5%nat /\
     column r "source_id" = PInt 56 /\
     column r "updated_at" = PDatetime example_now2) /\
  (call (save_betting_odds example_now1 4%nat
           (example_odds "bookmaker-a" 2 1.5)) None (example_saved no_repr)
   = (Ok 5%nat, example_with_odds no_repr) /\
   exists d2 r,
     call (save_betting_odds example_now2 4%nat
             (example_odds "bookmaker-a" 4 1.25)) None
       (example_with_odds no_repr) = (Ok 5%nat, d2) /\
     map row_id (betting_odds d2) = [5%nat] /\
     row_id r = 5%nat /\
     column r "team1_implied_prob" = PFloat 0.25 /\
     column r "updated_at" = PDatetime example_now2) /\
  ("bookmaker-a" <> "bookmaker-b" /\
   call (save_betting_odds example_now2 4%nat
           (example_odds "bookmaker-b" 2 2)) None (example_with_odds no_repr)
   = (Ok 6%nat, example_with_two_odds no_repr) /\
   exists r1 r2,
     lookup (odds_key 4%nat "bookmaker-a")
       (betting_odds (example_with_two_odds no_repr)) = [r1] /\
     lookup (odds_key 4%nat "bookmaker-b")
       (betting_odds (example_with_two_odds no_repr)) = [r2] /\
     row_id r1 = 5%nat /\ row_id r2 = 6%nat /\ r1 <> r2).
Proof.
  destruct prediction_and_odds_upsert as (P1 & P2 & P3).
  assert (H1 : call (save_ai_prediction example_now1 4%nat example_prediction)
                 None (example_saved no_repr)
               = (Ok 5%nat, example_with_prediction no_repr))
    by (vm_compute; reflexivity).
  assert (H2 : call (save_betting_odds example_now1 4%nat
                       (example_odds "bookmaker-a" 2 1.5)) None
                 (example_saved no_repr)
               = (Ok 5%nat, example_with_odds no_repr))
    by (vm_compute; reflexivity).
  assert (H3 : call (save_betting_odds example_now2 4%nat
                       (example_odds "bookmaker-b" 2 2)) None
                 (example_with_odds no_repr)
               = (Ok 6%nat, example_with_two_odds no_repr))
    by (vm_compute; reflexivity).
  assert (Hne : "bookmaker-a" <> "bookmaker-b") by discriminate.
  split; [|split].
  - split; [exact H1|].
    destruct (P1 example_now1 example_now2 4%nat example_prediction
                example_prediction_later _ _ _ H1)
      as (d2 & r & Hc & Hids & _ & Hi & _ & Hs & Hu).
    exists d2, r. repeat split; assumption.
  - split; [exact H2|].
    destruct (P2 example_now1 example_now2 4%nat
                (example_odds "bookmaker-a" 2 1.5)
                (example_odds "bookmaker-a" 4 1.25) _ _ _ eq_refl H2)
      as (d2 & r & Hc & Hids & _ & Hi & _ & _ & Hp & _ & _ & Hu).
    exists d2, r. repeat split; assumption.
  - split; [exact Hne|]. split; [exact H3|].
    exact (P3 example_now1 example_now2 4%nat
             (example_odds "bookmaker-a" 2 1.5)
             (example_odds "bookmaker-b" 2 2) _ _ _ _ _ Hne H2 H3).
Defined.

(** C9 on payloads that have the required fields only. *)
Lemma absent_field_defaults_witness :
  (exists p,
      parse_ai_prediction no_int no_float no_pairs example_prediction_payload
      = Ok (Some p) /\
      BO3AIPrediction.prediction_team1_score p = 0 /\
      BO3AIPrediction.prediction_winner_team_id p = 0 /\
      BO3PredictionScoresData.predicted_score
        (BO3AIPrediction.prediction_scores_data p) = 0%float) /\
  (exists o,
      parse_betting_odds no_int no_float no_repr example_odds_payload
      = Ok (Some o) /\
      BO3BettingTeam.coeff (BO3BettingOdds.team_2 o) = 0%float /\
      BO3BettingTeam.max_coeff (BO3BettingOdds.team_1 o) = 0%float) /\
  (exists t,
      parse_team no_int no_repr example_team_payload = Ok (Some t) /\
      BO3Team.slug t = PNone) /\
  (exists t,
      parse_tournament no_datetime no_int no_repr example_tournament_payload
      = Ok (Some t) /\
      BO3Tournament.tier t = PNone /\ BO3Tournament.start_date t = None) /\
  (exists m,
      parse_match no_datetime no_int no_float no_repr no_pairs
        example_match_payload = Ok m /\
      BO3Match.slug m = PNone /\ BO3Match.team1_score m = PNone).
Proof.
  destruct (absent_field_defaults no_datetime no_int no_float no_repr no_pairs)
    as (A1 & A2 & A3 & A4 & A5).
  split; [|split; [|split; [|split]]].
  - eexists. split; [vm_compute; reflexivity|].
    match goal with
    | |- context [BO3AIPrediction.prediction_team1_score ?p] =>
        destruct (A1 example_prediction_payload p ltac:(vm_compute; reflexivity))
          as (H1 & _ & H3 & H4 & _)
    end.
    split; [apply H1; reflexivity|].
    split; [apply H3; reflexivity|apply H4; reflexivity].
  - eexists. split; [vm_compute; reflexivity|].
    match goal with
    | |- context [BO3BettingOdds.team_2 ?o] =>
        destruct (A2 example_odds_payload o ltac:(vm_compute; reflexivity))
          as ((_ & _ & H1 & _) & (H2 & _))
    end.
    split; [apply H2; reflexivity|apply H1; reflexivity].
  - eexists. split; [vm_compute; reflexivity|].
    match goal with
    | |- BO3Team.slug ?t = _ =>
        destruct (A3 example_team_payload t ltac:(vm_compute; reflexivity))
          as (H1 & _)
    end.
    apply H1. reflexivity.
  - eexists. split; [vm_compute; reflexivity|].
    match goal with
    | |- BO3Tournament.tier ?t = _ /\ _ =>
        destruct (A4 example_tournament_payload t ltac:(vm_compute; reflexivity))
          as (_ & H2 & _ & _ & _ & _ & H7 & _)
    end.
    split; [apply H2; reflexivity|apply H7; reflexivity].
  - eexists. split; [vm_compute; reflexivity|].
    match goal with
    | |- BO3Match.slug ?m = _ /\ _ =>
        destruct (A5 example_match_payload m ltac:(vm_compute; reflexivity))
          as (H1 & _ & _ & _ & H5 & _)
    end.
    split; [apply H1; reflexivity|apply H5; reflexivity].
Defined.

(** X2 on payloads that lack the scores data or the second team. *)
Lemma nested_objects_rejected_witness :
  parse_ai_prediction no_int no_float no_pairs
    (PDict [("id", PInt 55); ("match_id", PInt 103084)]) = Ok None /\
  parse_betting_odds no_int no_float no_repr
    (PDict [("provider", PStr "bookmaker-a");
            ("team_1", PDict [("name", PStr "Alpha")])]) = Ok None.
Proof.
  destruct (nested_objects_rejected no_int no_float no_repr no_pairs)
    as [H1 H2].
  split.
  - apply H1. left. reflexivity.
  - apply H2. right. right. reflexivity.
Defined.

(** X3 on the payload with both teams and a tournament. *)
Lemma parse_match_keeps_payload_witness :
  parse_match no_datetime no_int no_float no_repr no_pairs example_full_payload
  = Ok (example_parsed no_datetime no_int no_float no_repr no_pairs) /\
  BO3Match.raw_data (example_parsed no_datetime no_int no_float no_repr no_pairs)
  = Some example_full_payload /\
  get (items (to_match_dict
                (example_parsed no_datetime no_int no_float no_repr no_pairs)))
    "raw_data" = PDict example_full_payload.
Proof.
  assert (H : parse_match no_datetime no_int no_float no_repr no_pairs
                example_full_payload
              = Ok (example_parsed no_datetime no_int no_float no_repr no_pairs))
    by (vm_compute; reflexivity).
  split; [exact H|].
  destruct (parse_match_keeps_payload no_datetime no_int no_float no_repr
              no_pairs example_full_payload _ H) as (_ & H1 & H2 & _).
  split; assumption.
Defined.

(** X4 on a nested team whose id is not a number. *)
Lemma parse_match_nested_id_rejected_witness :
  exists msg,
    parse_match no_datetime no_int no_float no_repr no_pairs
      [("id", PInt 103084);
       ("team1", PDict [("id", PStr "abc"); ("name", PStr "Alpha")])]
    = Raise (ValueError msg).
Proof.
  apply (parse_match_nested_id_rejected no_datetime no_int no_float no_repr
           no_pairs _ [("id", PStr "abc"); ("name", PStr "Alpha")] "abc");
    try reflexivity.
  discriminate.
Defined.

(** X5 on the payload that names its teams by id only. *)
Lemma save_match_requires_team_objects_witness :
  parse_match no_datetime no_int no_float no_repr no_pairs example_ids_payload
  = Ok (example_parsed_ids no_datetime no_int no_float no_repr no_pairs) /\
  BO3Match.team1_id
    (example_parsed_ids no_datetime no_int no_float no_repr no_pairs)
  = PInt 736 /\
  call (save_match no_repr example_now1
          (example_parsed_ids no_datetime no_int no_float no_repr no_pairs))
    None empty_db
  = (Raise (ValueError "Match must have team1 and team2 data"), empty_db).
Proof.
  assert (H : parse_match no_datetime no_int no_float no_repr no_pairs
                example_ids_payload
              = Ok (example_parsed_ids no_datetime no_int no_float no_repr
                      no_pairs)) by (vm_compute; reflexivity).
  split; [exact H|]. split; [reflexivity|].
  destruct (save_match_requires_team_objects no_datetime no_int no_float
              no_repr no_pairs) as [_ H2].
  apply (H2 example_now1 example_ids_payload _ None empty_db H).
  left. reflexivity.
Defined.

(** X6 on the running example, with the failure of the tenth operation. *)
Lemma save_match_frame_witness :
  call (save_match no_repr example_now1 example_match) (Some 10%nat) empty_db
  = (Raise DBError, example_partial no_repr) /\
  ai_predictions (example_partial no_repr) = [] /\
  betting_odds (example_partial no_repr) = [] /\
  matches (example_partial no_repr) = [] /\
  exists ts, teams (example_partial no_repr) = ts /\
             (List.length ts <= 2)%nat.
Proof.
  assert (H : call (save_match no_repr example_now1 example_match)
                (Some 10%nat) empty_db
              = (Raise DBError, example_partial no_repr))
    by (vm_compute; reflexivity).
  split; [exact H|].
  destruct (save_match_frame no_repr example_now1 example_match (Some 10%nat)
              empty_db _ _ H) as (Hp & Ho & (ts & Ht & Hl) & _ & _ & Hm).
  split; [exact Hp|]. split; [exact Ho|].
  split; [exact (Hm DBError eq_refl)|].
  exists ts. split; [exact Ht|exact Hl].
Defined.

(** X7 on the match of the running example, with the failure of the
    commit. *)
Lemma single_commit_operations_atomic_witness :
  snd (call (save_ai_prediction example_now1 4%nat example_prediction)
         (Some 2%nat) (example_saved no_repr)) = example_saved no_repr /\
  snd (call (save_betting_odds example_now1 4%nat
               (example_odds "bookmaker-a" 2 1.5))
         (Some 2%nat) (example_saved no_repr)) = example_saved no_repr /\
  snd (call (update_match example_now2 4%nat [("status", PStr "finished")])
         (Some 1%nat) (example_saved no_repr)) = example_saved no_repr.
Proof.
  destruct single_commit_operations_atomic as (H1 & H2 & H3).
  split; [|split].
  - apply (H1 example_now1 4%nat example_prediction (Some 2%nat) _ DBError).
    vm_compute. reflexivity.
  - apply (H2 example_now1 4%nat (example_odds "bookmaker-a" 2 1.5)
             (Some 2%nat) _ DBError).
    vm_compute. reflexivity.
  - apply (H3 example_now2 4%nat [("status", PStr "finished")] (Some 1%nat) _
             DBError).
    + repeat (constructor; [cbn; intuition discriminate|]); constructor.
    + vm_compute. reflexivity.
Defined.

(** X8 on the running example, whose keys stay unique. *)
Lemma save_match_keeps_keys_unique_witness :
  keyed empty_db /\
  call (save_match no_repr example_now1 example_match) None empty_db
  = (Ok 4%nat, example_saved no_repr) /\
  keyed (example_saved no_repr).
Proof.
  assert (H0 : keyed empty_db) by (repeat split; intros z; cbn; lia).
  assert (H : call (save_match no_repr example_now1 example_match) None empty_db
              = (Ok 4%nat, example_saved no_repr)) by (vm_compute; reflexivity).
  split; [exact H0|]. split; [exact H|].
  exact (save_match_keeps_keys_unique no_repr example_now1 example_match None
           empty_db _ _ H0 H).
Defined.

(** X9 on the running example. *)
Lemma save_match_succeeds_witness :
  keyed empty_db /\
  exists i d1,
    call (save_match no_repr example_now1 example_match) None empty_db
    = (Ok i, d1).
Proof.
  assert (H0 : keyed empty_db) by (repeat split; intros z; cbn; lia).
  split; [exact H0|].
  exact (save_match_succeeds no_repr example_now1 example_match
           example_team1 example_team2 empty_db H0 eq_refl eq_refl).
Defined.

(** X10 on the running example, saved into an empty database. *)
Lemma save_match_new_row_witness :
  lookup (source_key 103084) (matches empty_db) = [] /\
  call (save_match no_repr example_now1 example_match) None empty_db
  = (Ok 4%nat, example_saved no_repr) /\
  exists r r1 r2,
    matches (example_saved no_repr) = [r] /\
    lookup (source_key 736) (teams (example_saved no_repr)) = [r1] /\
    lookup (source_key 7631) (teams (example_saved no_repr)) = [r2] /\
    column r "team1_id" = PUuid (row_id r1) /\
    column r "team2_id" = PUuid (row_id r2) /\
    column r "last_fetched_at" = PDatetime example_now1.
Proof.
  assert (H0 : lookup (source_key 103084) (matches empty_db) = [])
    by reflexivity.
  assert (H : call (save_match no_repr example_now1 example_match) None empty_db
              = (Ok 4%nat, example_saved no_repr)) by (vm_compute; reflexivity).
  split; [exact H0|]. split; [exact H|].
  destruct (save_match_new_row no_repr example_now1 example_match empty_db
              4%nat (example_saved no_repr) H0 H)
    as (t1 & t2 & r & r1 & r2 & E1 & E2 & Hm & _ & L1 & L2 & C1 & C2 & _ & _
        & _ & _ & _ & _ & _ & _ & _ & Hf).
  injection E1 as <-. injection E2 as <-.
  exists r, r1, r2. repeat split; assumption.
Defined.


(** X12 on the running example. *)
Lemma get_team_by_source_after_save_witness :
  call (save_match no_repr example_now1 example_match) None empty_db
  = (Ok 4%nat, example_saved no_repr) /\
  exists j1 j2,
    call (get_team_by_source SOURCE_TYPE 736) None (example_saved no_repr)
    = (Ok (Some j1), example_saved no_repr) /\
    call (get_team_by_source SOURCE_TYPE 7631) None (example_saved no_repr)
    = (Ok (Some j2), example_saved no_repr) /\
    exists r, In r (matches (example_saved no_repr)) /\
              column r "team1_id" = PUuid j1 /\
              column r "team2_id" = PUuid j2.
Proof.
  assert (H : call (save_match no_repr example_now1 example_match) None empty_db
              = (Ok 4%nat, example_saved no_repr)) by (vm_compute; reflexivity).
  split; [exact H|].
  destruct (get_team_by_source_after_save no_repr example_now1 example_match
              example_team1 example_team2 empty_db 4%nat
              (example_saved no_repr) eq_refl eq_refl H)
    as (j1 & j2 & G1 & G2 & Hr).
  exists j1, j2. split; [exact G1|]. split; [exact G2|].
  destruct (Hr eq_refl) as (r & Hin & _ & C1 & C2).
  exists r. repeat split; assumption.
Defined.

(** X14 on the running example. *)
Lemma get_match_round_trip_witness :
  primary_keys empty_db /\
  call (save_match no_repr example_now1 example_match) None empty_db
  = (Ok 4%nat, example_saved no_repr) /\
  (exists r,
      call (get_match no_repr 4%nat) None (example_saved no_repr)
      = (Ok (Some (match_view no_repr r)), example_saved no_repr) /\
      get (match_view no_repr r) "source_id" = PInt 103084 /\
      get (match_view no_repr r) "status" = PStr "upcoming") /\
  call (get_match no_repr 9%nat) None (example_saved no_repr)
  = (Ok None, example_saved no_repr).
Proof.
  assert (H0 : primary_keys empty_db) by (split; constructor).
  assert (H : call (save_match no_repr example_now1 example_match) None empty_db
              = (Ok 4%nat, example_saved no_repr)) by (vm_compute; reflexivity).
  split; [exact H0|]. split; [exact H|].
  destruct (get_match_round_trip no_repr) as [G1 G2].
  split.
  - destruct (G1 example_now1 example_match empty_db 4%nat
                (example_saved no_repr) H0 H)
      as (r & _ & _ & Hg & _ & _ & Hs & Hst & _).
    exists r. repeat split; assumption.
  - apply G2. intros r Hr. vm_compute in Hr.
    destruct Hr as [<- | []]. discriminate.
Defined.

(** X15 on the payload with both teams and a tournament. *)
Lemma payload_round_trip_witness :
  primary_keys empty_db /\
  parse_match no_datetime no_int no_float no_repr no_pairs example_full_payload
  = Ok (example_parsed no_datetime no_int no_float no_repr no_pairs) /\
  call (save_match no_repr example_now1
          (example_parsed no_datetime no_int no_float no_repr no_pairs))
    None empty_db
  = (Ok 4%nat,
     example_parsed_saved no_datetime no_int no_float no_repr no_pairs) /\
  exists v,
    call (get_match no_repr 4%nat) None
      (example_parsed_saved no_datetime no_int no_float no_repr no_pairs)
    = (Ok (Some v),
       example_parsed_saved no_datetime no_int no_float no_repr no_pairs) /\
    get v "raw_data" = PDict example_full_payload /\
    get v "source_id" = PInt 103084.
Proof.
  assert (H0 : primary_keys empty_db) by (split; constructor).
  assert (Hp : parse_match no_datetime no_int no_float no_repr no_pairs
                 example_full_payload
               = Ok (example_parsed no_datetime no_int no_float no_repr
                       no_pairs)) by (vm_compute; reflexivity).
  assert (H : call (save_match no_repr example_now1
                      (example_parsed no_datetime no_int no_float no_repr
                         no_pairs)) None empty_db
              = (Ok 4%nat,
                 example_parsed_saved no_datetime no_int no_float no_repr
                   no_pairs)) by (vm_compute; reflexivity).
  split; [exact H0|]. split; [exact Hp|]. split; [exact H|].
  destruct (payload_round_trip no_datetime no_int no_float no_repr no_pairs
              example_now1 example_full_payload _ empty_db 4%nat _ H0 Hp H)
    as (v & Hg & Hraw & _ & Hsid & _).
  exists v. repeat split; assumption.
Defined.

(** X16 on the prediction of the running example. *)
Lemma get_ai_predictions_after_save_witness :
  call (save_ai_prediction example_now1 4%nat example_prediction) None
    (example_saved no_repr) = (Ok 5%nat, example_with_prediction no_repr) /\
  exists l r,
    call (get_ai_predictions no_repr 4%nat) None
      (example_with_prediction no_repr)
    = (Ok l, example_with_prediction no_repr) /\
    In (prediction_view no_repr r) l /\
    get (prediction_view no_repr r) "source_id" = PInt 55.
Proof.
  assert (H : call (save_ai_prediction example_now1 4%nat example_prediction)
                None (example_saved no_repr)
              = (Ok 5%nat, example_with_prediction no_repr))
    by (vm_compute; reflexivity).
  split; [exact H|].
  destruct (get_ai_predictions_after_save no_repr example_now1 4%nat
              example_prediction (example_saved no_repr) 5%nat
              (example_with_prediction no_repr) H)
    as (l & r & Hg & Hin & _ & _ & Hs & _).
  exists l, r. repeat split; assumption.
Defined.

(** X17 on odds whose first coefficient is zero. *)
Lemma get_betting_odds_after_save_witness :
  lookup [("match_id", PUuid 4%nat)] (betting_odds (example_saved no_repr))
  = [] /\
  call (save_betting_odds example_now1 4%nat
          (example_odds "bookmaker-a" 0 1.5)) None (example_saved no_repr)
  = (Ok 5%nat, example_with_zero_odds no_repr) /\
  exists v r,
    call (get_betting_odds no_float no_repr 4%nat (Some "bookmaker-a")) None
      (example_with_zero_odds no_repr)
    = (Ok [v], example_with_zero_odds no_repr) /\
    call (get_betting_odds no_float no_repr 4%nat (Some "bookmaker-b")) None
      (example_with_zero_odds no_repr)
    = (Ok [], example_with_zero_odds no_repr) /\
    column r "team1_odds" = PFloat 0 /\
    get v "team1_odds" = PNone /\
    get v "team1_implied_prob" = PNone /\
    get v "team2_odds" = PFloat 1.5.
Proof.
  assert (H0 : lookup [("match_id", PUuid 4%nat)]
                 (betting_odds (example_saved no_repr)) = [])
    by (vm_compute; reflexivity).
  assert (H : call (save_betting_odds example_now1 4%nat
                      (example_odds "bookmaker-a" 0 1.5)) None
                (example_saved no_repr)
              = (Ok 5%nat, example_with_zero_odds no_repr))
    by (vm_compute; reflexivity).
  split; [exact H0|]. split; [exact H|].
  destruct (get_betting_odds_after_save no_float no_repr example_now1 4%nat
              (example_odds "bookmaker-a" 0 1.5) (example_saved no_repr)
              5%nat (example_with_zero_odds no_repr) H0 H)
    as (v & r & _ & _ & G1 & G2 & _ & _ & C1 & _ & _ & _ & V1 & V2 & P1 & _).
  exists v, r.
  split; [apply G1; discriminate|].
  split; [apply G2; discriminate|].
  split; [exact C1|]. split; [exact V1|]. split; [exact P1|exact V2].
Defined.

(** X18 on the team of the running example, given as a dictionary. *)
Lemma get_or_create_team_shares_identity_witness :
  call (get_or_create_team example_now1 [("name", PStr "Alpha")] SOURCE_TYPE)
    (Some 0%nat) empty_db
  = (Raise (ValueError "Team data must include 'id' field"), empty_db) /\
  (call (_get_or_create_team_from_model example_now1 example_team1
           (PStr SOURCE_TYPE)) None empty_db
   = (Ok 1%nat, example_team_created) /\
   call (get_or_create_team example_now2 example_team_dict SOURCE_TYPE) None
     example_team_created = (Ok 1%nat, example_team_created)) /\
  (call (get_or_create_team example_now1 example_team_dict SOURCE_TYPE) None
     empty_db = (Ok 1%nat, example_team_created_dict) /\
   call (_get_or_create_team_from_model example_now2 example_team1
           (PStr SOURCE_TYPE)) None example_team_created_dict
   = (Ok 1%nat, example_team_created_dict) /\
   exists r, teams example_team_created_dict = [r] /\
             column r "metadata" = PDict example_team_dict).
Proof.
  destruct get_or_create_team_shares_identity as (T1 & T2 & T3).
  assert (Hz : BO3Team.id example_team1 <> 0) by discriminate.
  assert (Ha : call (_get_or_create_team_from_model example_now1 example_team1
                       (PStr SOURCE_TYPE)) None empty_db
               = (Ok 1%nat, example_team_created))
    by (vm_compute; reflexivity).
  assert (Hb : call (get_or_create_team example_now1 example_team_dict
                       SOURCE_TYPE) None empty_db
               = (Ok 1%nat, example_team_created_dict))
    by (vm_compute; reflexivity).
  split; [apply T1; reflexivity|]. split.
  - split; [exact Ha|].
    exact (T2 example_now1 example_now2 example_team1 example_team_dict
             empty_db 1%nat example_team_created eq_refl Hz Ha).
  - split; [exact Hb|].
    destruct (T3 example_now1 example_now2 example_team1 example_team_dict
                empty_db 1%nat example_team_created_dict eq_refl Hz Hb)
      as (M1 & _ & _ & Hr).
    split; [exact M1|].
    destruct (Hr eq_refl) as (r & Ht & _ & _ & _ & Hm).
    exists r. split; [exact Ht|exact Hm].
Defined.

(** X19 on the tournament of the running example. *)
Lemma tournament_identity_first_wins_witness :
  (exists i d1 r,
      call (_get_or_create_tournament_from_model example_now1
              example_tournament (PStr SOURCE_TYPE)) None empty_db
      = (Ok i, d1) /\
      call (_get_or_create_tournament_from_model example_now2
              example_tournament (PStr SOURCE_TYPE)) None d1 = (Ok i, d1) /\
      tournaments d1 = [r] /\
      column r "name" = PStr "Cup" /\
      call (get_or_create_tournament example_now2 example_tournament_dict
              SOURCE_TYPE) None d1 = (Ok i, d1)) /\
  call (get_or_create_tournament example_now1 [("name", PStr "Cup")]
          SOURCE_TYPE) None empty_db
  = (Raise (ValueError "Tournament data must include 'id' field"), empty_db) /\
  exists i d1 r,
    call (get_or_create_tournament example_now1 example_tournament_dict
            SOURCE_TYPE) None empty_db = (Ok i, d1) /\
    tournaments d1 = [r] /\
    column r "prize_pool" = PInt 100000.
Proof.
  destruct tournament_identity_first_wins as (T1 & T2 & T3).
  split; [|split].
  - destruct (T1 example_now1 example_now2 example_tournament
                example_tournament empty_db eq_refl eq_refl)
      as (i & d1 & r & Ha & Hb & Ht & _ & _ & Hn & _ & _ & Hd).
    exists i, d1, r. split; [exact Ha|]. split; [exact Hb|].
    split; [exact Ht|]. split; [exact Hn|].
    apply Hd; [reflexivity|discriminate].
  - apply T2. reflexivity.
  - destruct (T3 example_now1 example_tournament_dict 3578 empty_db eq_refl)
      as (i & d1 & r & Ha & Ht & _ & _ & Hp & _);
      [discriminate|reflexivity|].
    exists i, d1, r. split; [exact Ha|]. split; [exact Ht|exact Hp].
Defined.

(** X20 on an id no match row of the running example has. *)
Lemma update_match_unknown_id_witness :
  call (update_match example_now2 9%nat [("status", PStr "finished")]) None
    (example_saved no_repr) = (Ok tt, example_saved no_repr).
Proof.
  apply update_match_unknown_id.
  - repeat (constructor; [cbn; intuition discriminate|]); constructor.
  - intros r Hr. vm_compute in Hr. destruct Hr as [<- | []]. discriminate.
Defined.

(** X21 on the match of the running example. *)
Lemma prediction_and_odds_frame_witness :
  (call (save_ai_prediction example_now1 4%nat example_prediction) None
     (example_saved no_repr) = (Ok 5%nat, example_with_prediction no_repr) /\
   matches (example_with_prediction no_repr) = matches (example_saved no_repr)
   /\
   betting_odds (example_with_prediction no_repr)
   = betting_odds (example_saved no_repr)) /\
  (call (save_betting_odds example_now1 4%nat
           (example_odds "bookmaker-a" 2 1.5)) None (example_saved no_repr)
   = (Ok 5%nat, example_with_odds no_repr) /\
   matches (example_with_odds no_repr) = matches (example_saved no_repr) /\
   ai_predictions (example_with_odds no_repr)
   = ai_predictions (example_saved no_repr)).
Proof.
  destruct prediction_and_odds_frame as [F1 F2].
  assert (H1 : call (save_ai_prediction example_now1 4%nat example_prediction)
                 None (example_saved no_repr)
               = (Ok 5%nat, example_with_prediction no_repr))
    by (vm_compute; reflexivity).
  assert (H2 : call (save_betting_odds example_now1 4%nat
                       (example_odds "bookmaker-a" 2 1.5)) None
                 (example_saved no_repr)
               = (Ok 5%nat, example_with_odds no_repr))
    by (vm_compute; reflexivity).
  split.
  - split; [exact H1|].
    destruct (F1 _ _ _ _ _ _ _ H1) as (_ & _ & Hm & Ho & _).
    split; assumption.
  - split; [exact H2|].
    destruct (F2 _ _ _ _ _ _ _ H2) as (_ & _ & Hm & Hp & _).
    split; assumption.
Defined.
